(** * vortex_dwm_lpe.py: the layered signal sampler and its cascade driver

    A shallow embedding of [src/vortex_dwm_lpe.py].

    Numbers.  Python integers are [Z].  Python and NumPy floats are
    idealised as the real numbers [R] of the Standard Library: [np.exp],
    [np.sin], [np.cos] and [np.pi] are [exp], [sin], [cos] and [PI], and
    rounding error is not modelled.  Every statement below about a float is
    therefore a statement about the real number the float approximates.

    Effects.  Module-level names are looked up when a function runs, so the
    two constants that the classes read are gathered in a record [Globals]
    that the functions take as an argument.  The Windows API and the clock
    are an explicit [World] of call outcomes; the object and the text it
    prints are threaded through a small state-and-exception monad. *)

From Stdlib Require Import Reals Lra Lia ZArith List Bool.
From stdpp Require Import base list.
Import ListNotations.

Open Scope Z_scope.
Open Scope R_scope.

(** ** Exceptions and results *)

(** The exceptions the modelled code can meet.  [ApiError] stands for any
    [Exception] raised by a [ctypes] call or attribute lookup. *)
Inductive exn : Type :=
| ZeroDivisionError
| IndexError
| ValueError
| ApiError.

Inductive result (A : Type) : Type :=
| Ok (a : A)
| Raise (e : exn).
Arguments Ok {A} a.
Arguments Raise {A} e.

Definition result_bind {A B} (r : result A) (k : A -> result B) : result B :=
  match r with
  | Ok a => k a
  | Raise e => Raise e
  end.

(** ** Numeric primitives *)

(** [int(x)] on a float: rounding toward zero. *)
Definition py_int (x : R) : Z :=
  if Rle_dec 0 x then Zfloor x else Zceil x.

(** [range(n)]: empty when [n <= 0]. *)
Definition range (n : Z) : list Z := seqZ 0 n.

(** ** Module constants (lines 18-20) *)

Record Globals : Type := {
  SCTT_ALPHA : R;
  SCTT_LAYERS : Z
}.

Definition SCTT_CASCADE_FACTOR (g : Globals) : R :=
  (1 - exp (- SCTT_ALPHA g * IZR (SCTT_LAYERS g))) / SCTT_ALPHA g.

(** The values the module assigns. *)
Definition module_globals : Globals :=
  {| SCTT_ALPHA := 302011 / 10000000; SCTT_LAYERS := 33 |}.

(** ** SCTT_VisualResonance *)

Record SCTT_VisualResonance : Type := {
  alpha : R;
  layers : Z;
  prime_windows : list Z;
  DWM_BB_ENABLE : Z;
  DWM_BB_BLURREGION : Z
}.

Definition SCTT_VisualResonance_init (g : Globals) : result SCTT_VisualResonance :=
  Ok {| alpha := SCTT_ALPHA g;
        layers := SCTT_LAYERS g;
        prime_windows := [10007; 10009; 10037; 10039; 10061]%Z;
        DWM_BB_ENABLE := 1;
        DWM_BB_BLURREGION := 2 |}.

(** [np.exp(-a * layer)], the expression of lines 52, 211 and 281. *)
Definition layer_energy (a : R) (layer : Z) : R :=
  exp (- a * IZR layer).

(** Lines 47-64.  [1 / self.alpha] divides by a Python float and
    [2 * np.pi * layer / self.layers] divides a Python float ([np.pi] is
    one) by an integer: each raises on a zero divisor. *)
Definition calculate_visual_resonance
    (self : SCTT_VisualResonance) (layer x y : Z) : result R :=
  let base_energy := layer_energy (alpha self) layer in
  if Req_dec_T (alpha self) 0 then Raise ZeroDivisionError else
  let spatial_wavelength := 1 / alpha self in
  let spatial_factor := sin (2 * PI * IZR (x + y) / spatial_wavelength) in
  if (layers self =? 0)%Z then Raise ZeroDivisionError else
  let temporal_phase := sin (2 * PI * IZR layer / IZR (layers self)) in
  let resonance :=
    base_energy * (1 + 0.3 * spatial_factor) * (1 + 0.2 * temporal_phase) in
  Ok resonance.

(** Lines 100-110, with the clock reading [int(time.time() * 1e6)] passed
    in.  [%] is Python's floored remainder, which is [Z.modulo]. *)
Definition prime_resonance_timing
    (self : SCTT_VisualResonance) (current_us layer : Z) : result R :=
  let n := Z.of_nat (length (prime_windows self)) in
  if (n =? 0)%Z then Raise ZeroDivisionError else
  match prime_windows self !! Z.to_nat (layer mod n) with
  | None => Raise IndexError
  | Some prime =>
      if (prime =? 0)%Z then Raise ZeroDivisionError else
      let wait_us := ((prime - (current_us mod prime)) mod prime)%Z in
      Ok (IZR wait_us / 1000000)
  end.

#[global] Instance result_ret : MRet result := @Ok.
#[global] Instance result_mbind : MBind result :=
  fun A B k r => result_bind r k.

(** ** The pixel buffer (lines 66-98) *)

(** [bytearray(n)]: [n] zero bytes; a negative size is refused. *)
Definition bytearray (n : Z) : result (list Z) :=
  if (n <? 0)%Z then Raise ValueError else Ok (replicate (Z.to_nat n) 0%Z).

(** [buffer[idx] = v] on a bytearray: a negative index counts from the end,
    an index outside the array is refused, and so is a value outside
    [range(256)]. *)
Definition bytearray_set (buffer : list Z) (idx v : Z) : result (list Z) :=
  let n := Z.of_nat (length buffer) in
  let i := (if (idx <? 0)%Z then idx + n else idx)%Z in
  if ((i <? 0) || (n <=? i))%Z then Raise IndexError
  else if ((v <? 0) || (256 <=? v))%Z then Raise ValueError
  else Ok (<[Z.to_nat i := v]> buffer).

(** A [for] loop over a list whose body updates the loop state and may
    raise. *)
Fixpoint for_each {A S : Type}
    (l : list A) (body : A -> S -> result S) (s : S) : result S :=
  match l with
  | [] => Ok s
  | a :: l' =>
      match body a s with
      | Ok s' => for_each l' body s'
      | Raise e => Raise e
      end
  end.

(** The XOR mask of line 88. *)
Definition pattern_of (layer : Z) : Z :=
  if (layer mod 2 =? 0)%Z then 170%Z else 85%Z.

(** The three colour bytes of lines 82-84, before masking. *)
Definition red_of (resonance : R) : Z := Z.land (py_int (255 * resonance)) 255.
Definition green_of (resonance : R) : Z :=
  Z.land (py_int (255 * sin (resonance * PI))) 255.
Definition blue_of (resonance : R) : Z :=
  Z.land (py_int (255 * cos (resonance * PI))) 255.

(** The body of the inner loop, lines 75-96. *)
Definition pixel_body (self : SCTT_VisualResonance) (layer width y x : Z)
    (buffer : list Z) : result (list Z) :=
  resonance ← calculate_visual_resonance self layer x y;
  let idx := ((y * width + x) * 4)%Z in
  let r := red_of resonance in
  let g := green_of resonance in
  let b := blue_of resonance in
  let a := 255%Z in
  let pattern := pattern_of layer in
  let r := Z.lxor r pattern in
  let g := Z.lxor g pattern in
  let b := Z.lxor b pattern in
  buffer ← bytearray_set buffer idx r;
  buffer ← bytearray_set buffer (idx + 1) g;
  buffer ← bytearray_set buffer (idx + 2) b;
  bytearray_set buffer (idx + 3) a.

Definition create_resonant_pixel_buffer (self : SCTT_VisualResonance)
    (layer width height : Z) : result (list Z) :=
  buffer ← bytearray (width * height * 4);
  for_each (range height)
    (fun y buffer => for_each (range width) (pixel_body self layer width y) buffer)
    buffer.

(** ** SCTT_DWM_Vortex *)

(** A handle attribute is [None] or an integer; both [None] and [0] are
    false in a condition. *)
Definition truthy (h : option Z) : bool :=
  match h with
  | Some z => negb (z =? 0)%Z
  | None => false
  end.

Record SCTT_DWM_Vortex : Type := {
  resonance : SCTT_VisualResonance;
  hwnd : option Z;
  hdc : option Z;
  hbitmap : option Z;
  layer_energies : list R;
  total_cascade_energy : R
}.

Definition SCTT_DWM_Vortex_init (g : Globals) : result SCTT_DWM_Vortex :=
  res ← SCTT_VisualResonance_init g;
  Ok {| resonance := res;
        hwnd := None;
        hdc := None;
        hbitmap := None;
        layer_energies := replicate (Z.to_nat (SCTT_LAYERS g)) 0;
        total_cascade_energy := 0 |}.

(** What a run prints and which calls it makes, in order. *)
Inductive event : Type :=
| PrintBanner
| PrintWindowError
| PrintWindowFailed
| ShowWindow
| PumpStarted
| LayerHeader (layer : Z)
| PrintLayer (layer : Z) (energy delay : R)
| Sleep (seconds : R)
| BufferCreated (layer : Z) (size : nat)
| EnergyRecorded (layer : Z) (energy : R)
| BitBlt (layer : Z)
| DwmFlush (layer : Z)
| PrintLayerError (layer : Z)
| PrintStatus (layer : Z) (achieved : bool)
| PrintSingularity (total : R)
| Payload (payload : list Z)
| PrintComplete
| PrintSummary (successful : Z)
| ReleaseDC
| DestroyWindow.

(** The outcome of a call into the Windows API: it returns, or it raises. *)
Inductive api (A : Type) : Type :=
| Returns (a : A)
| Throws.
Arguments Returns {A} a.
Arguments Throws {A}.

(** What the world answers while one layer is processed. *)
Record LayerWorld : Type := {
  driver_clock : Z;             (* line 280, through line 105 *)
  sink_clock : Z;               (* line 187, through line 105 *)
  create_dib_section : api Z;   (* lines 196-202 *)
  get_object : api Z;           (* line 206 *)
  from_address : api unit;      (* line 208 *)
  bit_blt : api unit;           (* lines 216-226 *)
  dwm_flush : api unit          (* line 230 *)
}.

Record World : Type := {
  register_class : api unit;    (* lines 139-146 *)
  create_window_ex : api Z;     (* lines 149-157 *)
  get_dc : api Z;               (* line 163 *)
  layer_world : Z -> LayerWorld
}.

Record Machine : Type := {
  vortex : SCTT_DWM_Vortex;
  stdout : list event
}.

(** State that survives an exception, as an object's attributes do. *)
Definition M (A : Type) : Type := Machine -> result A * Machine.

#[global] Instance M_ret : MRet M := fun A a m => (Ok a, m).
#[global] Instance M_bind : MBind M := fun A B k c m =>
  match c m with
  | (Ok a, m') => k a m'
  | (Raise e, m') => (Raise e, m')
  end.

Definition lift {A} (r : result A) : M A := fun m => (r, m).

Definition call {A} (r : api A) : M A := fun m =>
  match r with
  | Returns a => (Ok a, m)
  | Throws => (Raise ApiError, m)
  end.

Definition emit (e : event) : M unit := fun m =>
  (Ok tt, {| vortex := vortex m; stdout := stdout m ++ [e] |}).

Definition get_self : M SCTT_DWM_Vortex := fun m => (Ok (vortex m), m).

Definition update (f : SCTT_DWM_Vortex -> SCTT_DWM_Vortex) : M unit := fun m =>
  (Ok tt, {| vortex := f (vortex m); stdout := stdout m |}).

Definition try_except {A} (body : M A) (handler : exn -> M A) : M A := fun m =>
  match body m with
  | (Ok a, m') => (Ok a, m')
  | (Raise e, m') => handler e m'
  end.

Definition when (b : bool) (c : M unit) : M unit :=
  if b then c else mret tt.

Definition set_hwnd (h : option Z) : M unit :=
  update (fun v => {| resonance := resonance v; hwnd := h; hdc := hdc v;
                      hbitmap := hbitmap v; layer_energies := layer_energies v;
                      total_cascade_energy := total_cascade_energy v |}).

Definition set_hdc (h : option Z) : M unit :=
  update (fun v => {| resonance := resonance v; hwnd := hwnd v; hdc := h;
                      hbitmap := hbitmap v; layer_energies := layer_energies v;
                      total_cascade_energy := total_cascade_energy v |}).

Definition set_hbitmap (h : option Z) : M unit :=
  update (fun v => {| resonance := resonance v; hwnd := hwnd v; hdc := hdc v;
                      hbitmap := h; layer_energies := layer_energies v;
                      total_cascade_energy := total_cascade_energy v |}).

(** [self.layer_energies[layer] = e]: a list assignment, with Python's
    negative indices and its [IndexError]. *)
Definition set_layer_energy (layer : Z) (e : R) : M unit := fun m =>
  let v := vortex m in
  let n := Z.of_nat (length (layer_energies v)) in
  let i := (if (layer <? 0)%Z then layer + n else layer)%Z in
  if ((i <? 0) || (n <=? i))%Z then (Raise IndexError, m)
  else (Ok tt,
        {| vortex := {| resonance := resonance v; hwnd := hwnd v; hdc := hdc v;
                        hbitmap := hbitmap v;
                        layer_energies := <[Z.to_nat i := e]> (layer_energies v);
                        total_cascade_energy := total_cascade_energy v |};
           stdout := stdout m |}).

(** [self.total_cascade_energy += e]. *)
Definition add_total_cascade_energy (e : R) : M unit :=
  update (fun v => {| resonance := resonance v; hwnd := hwnd v; hdc := hdc v;
                      hbitmap := hbitmap v; layer_energies := layer_energies v;
                      total_cascade_energy := total_cascade_energy v + e |}).

(** Lines 133-169. *)
Definition create_resonant_window (w : World) : M bool :=
  try_except
    (call (register_class w);;
     h ← call (create_window_ex w);
     set_hwnd (Some h);;
     if negb (truthy (Some h)) then mret false else
     d ← call (get_dc w);
     set_hdc (Some d);;
     mret true)
    (fun _ => emit PrintWindowError;; mret false).

(** Lines 178-236. *)
Definition induce_frame_buffer_resonance
    (g : Globals) (w : LayerWorld) (layer : Z) : M bool :=
  self ← get_self;
  if negb (truthy (hwnd self)) || negb (truthy (hdc self)) then mret false else
  try_except
    (wait_time ← lift (prime_resonance_timing (resonance self) (sink_clock w) layer);
     (if Rlt_dec 0 wait_time then emit (Sleep wait_time) else mret tt);;
     let width := 640%Z in
     let height := 480%Z in
     pixel_buffer ← lift (create_resonant_pixel_buffer (resonance self) layer width height);
     emit (BufferCreated layer (length pixel_buffer));;
     hb ← call (create_dib_section w);
     set_hbitmap (Some hb);;
     (if truthy (Some hb) then
        buffer_ptr ← call (get_object w);
        if negb (buffer_ptr =? 0)%Z return M unit then
          call (from_address w);;
          let energy := layer_energy (SCTT_ALPHA g) layer in
          set_layer_energy layer energy;;
          add_total_cascade_energy energy;;
          emit (EnergyRecorded layer energy);;
          call (bit_blt w);;
          emit (BitBlt layer);;
          set_hbitmap None
        else mret tt
      else mret tt : M unit);;
     call (dwm_flush w);;
     emit (DwmFlush layer);;
     mret true)
    (fun _ => emit (PrintLayerError layer);; mret false).

(** [if payload:] on [bytes] or [None]. *)
Definition payload_truthy (payload : option (list Z)) : bool :=
  match payload with
  | Some (_ :: _) => true
  | _ => false
  end.

(** Lines 339-355: only prints. *)
Definition _execute_singularity_payload (payload : list Z) : M unit :=
  emit (Payload payload).

(** The body of the loop of line 276, lines 277-305; the loop state is
    [successful_layers]. *)
Definition cascade_layer (g : Globals) (w : World) (payload : option (list Z))
    (layer : Z) (successful_layers : Z) : M Z :=
  emit (LayerHeader layer);;
  self ← get_self;
  resonance_delay ←
    lift (prime_resonance_timing (resonance self)
            (driver_clock (layer_world w layer)) layer);
  let energy := layer_energy (SCTT_ALPHA g) layer in
  emit (PrintLayer layer energy resonance_delay);;
  achieved ← induce_frame_buffer_resonance g (layer_world w layer) layer;
  successful_layers ←
    (if achieved : bool then
       emit (PrintStatus layer true);;
       when (layer =? 32)%Z
         (self ← get_self;
          emit (PrintSingularity (total_cascade_energy self));;
          when (payload_truthy payload)
            (_execute_singularity_payload (default [] payload)));;
       mret (successful_layers + 1)%Z
     else
       emit (PrintStatus layer false);;
       mret successful_layers);
  emit (Sleep 0.01);;
  mret successful_layers.

(** A [for] loop in the monad [M]. *)
Fixpoint for_each_M {A S : Type}
    (l : list A) (body : A -> S -> M S) (s : S) : M S :=
  match l with
  | [] => mret s
  | a :: l' => s' ← body a s; for_each_M l' body s'
  end.

(** The loop of lines 275-305. *)
Definition cascade (g : Globals) (w : World) (payload : option (list Z))
    (todo : list Z) : M Z :=
  for_each_M todo (cascade_layer g w payload) 0%Z.

(** Lines 243-270 of [execute_visual_singularity]: the banner, the window
    (phase 1) and the message pump (phase 2).  The result tells whether the
    run goes on. *)
Definition open_window (w : World) : M bool :=
  emit PrintBanner;;
  created ← create_resonant_window w;
  if negb created then emit PrintWindowFailed;; mret false else
  emit ShowWindow;;
  emit PumpStarted;;
  mret true.

(** Lines 307-337 of [execute_visual_singularity]: the summary (phase 4)
    and the cleanup.  [successful_layers / SCTT_LAYERS] on line 312 divides
    two integers and raises on a zero divisor. *)
Definition summary (g : Globals) (successful_layers : Z) : M bool :=
  emit PrintComplete;;
  (if (SCTT_LAYERS g =? 0)%Z then lift (Raise ZeroDivisionError) else mret tt);;
  emit (PrintSummary successful_layers);;
  self ← get_self;
  when (truthy (hdc self) && truthy (hwnd self)) (emit ReleaseDC);;
  when (truthy (hwnd self)) (emit DestroyWindow);;
  mret (0 <? successful_layers)%Z.

(** Lines 238-337. *)
Definition execute_visual_singularity
    (g : Globals) (w : World) (payload : option (list Z)) : M bool :=
  opened ← open_window w;
  if negb opened then mret false else
  successful_layers ← cascade g w payload (range (SCTT_LAYERS g));
  summary g successful_layers.

(** Lines 375 and 404: construct the object, then run the cascade on it. *)
Definition run (g : Globals) (w : World) (payload : option (list Z))
    : result bool * option Machine :=
  match SCTT_DWM_Vortex_init g with
  | Ok v =>
      let '(r, m) := execute_visual_singularity g w payload
                       {| vortex := v; stdout := [] |} in
      (r, Some m)
  | Raise e => (Raise e, None)
  end.

(** * Definitions used to state the properties *)

(** The object the constructor builds from the module's constants. *)
Definition module_resonance : SCTT_VisualResonance :=
  {| alpha := 302011 / 10000000;
     layers := 33;
     prime_windows := [10007; 10009; 10037; 10039; 10061]%Z;
     DWM_BB_ENABLE := 1;
     DWM_BB_BLURREGION := 2 |}.


(** The value [total_cascade_energy] reaches when the statistics of the
    layers of [range(n)] are all recorded: [+= layer_energy] from [0.0]
    (lines 131 and 213). *)
Definition cascade_sum (a : R) (n : Z) : R :=
  foldl (fun total layer => total + layer_energy a layer) 0 (range n).

(** The first [n] terms of the geometric series of ratio [q]. *)
Fixpoint geometric (q : R) (n : nat) : R :=
  match n with
  | O => 0
  | S k => geometric q k + q ^ k
  end.

(** The resonance of a pixel as a number: the value
    [calculate_visual_resonance] returns when it returns. *)
Definition resonance_value (self : SCTT_VisualResonance) (layer x y : Z) : R :=
  layer_energy (alpha self) layer
  * (1 + 0.3 * sin (2 * PI * IZR (x + y) / (1 / alpha self)))
  * (1 + 0.2 * sin (2 * PI * IZR layer / IZR (layers self))).

(** The four bytes lines 82-96 store for a pixel of resonance [r]. *)
Definition masked_bytes (layer : Z) (r : R) : list Z :=
  [Z.lxor (red_of r) (pattern_of layer);
   Z.lxor (green_of r) (pattern_of layer);
   Z.lxor (blue_of r) (pattern_of layer);
   255%Z].

(** The bytes of a row and of a whole frame, pixel after pixel. *)
Definition row_bytes (self : SCTT_VisualResonance) (layer y x0 : Z) (n : nat)
    : list Z :=
  seqZ x0 (Z.of_nat n) ≫= fun x => masked_bytes layer (resonance_value self layer x y).

Definition frame_bytes (self : SCTT_VisualResonance) (layer : Z) (w : nat)
    (y0 : Z) (h : nat) : list Z :=
  seqZ y0 (Z.of_nat h) ≫= fun y => row_bytes self layer y 0 w.

(** A newly constructed object, nothing printed yet. *)
Definition fresh (v : SCTT_DWM_Vortex) : Machine :=
  {| vortex := v; stdout := [] |}.

(** The machine when the first [k] layers of a run on [v] have been
    processed, and when the run has ended. *)
Definition machine_after_layers (g : Globals) (w : World)
    (payload : option (list Z)) (v : SCTT_DWM_Vortex) (k : nat) : Machine :=
  match open_window w (fresh v) with
  | (Ok true, m1) =>
      snd (cascade g w payload (take k (range (SCTT_LAYERS g))) m1)
  | (_, m1) => m1
  end.

Definition machine_at_end (g : Globals) (w : World)
    (payload : option (list Z)) (v : SCTT_DWM_Vortex) : Machine :=
  snd (execute_visual_singularity g w payload (fresh v)).

(** What a trace shows: the layers whose statistics were written, the
    layers that were begun, and the payloads that were executed. *)
Definition recorded (t : list event) : list Z :=
  omap (fun e => match e with EnergyRecorded l _ => Some l | _ => None end) t.

Definition attempted (t : list event) : list Z :=
  omap (fun e => match e with LayerHeader l => Some l | _ => None end) t.

Definition payloads (t : list event) : list (list Z) :=
  omap (fun e => match e with Payload p => Some p | _ => None end) t.

Definition Rsum (l : list R) : R := foldr Rplus 0 l.

(** A world in which every call returns. *)
Definition calm_world : World :=
  {| register_class := Returns tt;
     create_window_ex := Returns 1%Z;
     get_dc := Returns 1%Z;
     layer_world := fun _ =>
       {| driver_clock := 0; sink_clock := 0;
          create_dib_section := Returns 1%Z;
          get_object := Returns 1%Z;
          from_address := Returns tt;
          bit_blt := Returns tt;
          dwm_flush := Returns tt |} |}.

(** The object the constructor builds from the module's constants. *)
Definition module_vortex : SCTT_DWM_Vortex :=
  {| resonance := module_resonance;
     hwnd := None; hdc := None; hbitmap := None;
     layer_energies := replicate 33 0;
     total_cascade_energy := 0 |}.

(** The clock never makes the scheduler raise. *)
Definition timing_total (res : SCTT_VisualResonance) : Prop :=
  forall now layer, exists d, prime_resonance_timing res now layer = Ok d.

(** Producing or delivering the buffer of a layer is bound to fail: the
    buffer cannot be built, or the bitmap call or the flush throws. *)
Definition step_must_fail (res : SCTT_VisualResonance) (lw : LayerWorld)
    (layer : Z) : Prop :=
  (exists e, create_resonant_pixel_buffer res layer 640 480 = Raise e)
  \/ create_dib_section lw = Throws
  \/ dwm_flush lw = Throws.

(** What one pass through the loop body of the cascade does: [evs] is what
    it prints and calls after the layer's header. *)
Record layer_facts (g : Globals) (lw : LayerWorld) (payload : option (list Z))
    (layer : Z) (m m' : Machine) (s s' : Z) (evs : list event) : Prop := {
  lf_stdout : stdout m' = stdout m ++ LayerHeader layer :: evs;
  lf_resonance : resonance (vortex m') = resonance (vortex m);
  lf_hwnd : hwnd (vortex m') = hwnd (vortex m);
  lf_hdc : hdc (vortex m') = hdc (vortex m);
  lf_length :
    length (layer_energies (vortex m')) = length (layer_energies (vortex m));
  lf_attempted : attempted evs = [];
  lf_stats :
    (recorded evs = []
     /\ layer_energies (vortex m') = layer_energies (vortex m)
     /\ total_cascade_energy (vortex m') = total_cascade_energy (vortex m))
    \/ (recorded evs = [layer]
        /\ (Z.to_nat layer < length (layer_energies (vortex m)))%nat
        /\ layer_energies (vortex m') =
             <[Z.to_nat layer := layer_energy (SCTT_ALPHA g) layer]>
               (layer_energies (vortex m))
        /\ total_cascade_energy (vortex m') =
             total_cascade_energy (vortex m) + layer_energy (SCTT_ALPHA g) layer);
  lf_energy : forall l e, EnergyRecorded l e ∈ evs ->
    l = layer /\ e = layer_energy (SCTT_ALPHA g) layer;
  lf_order : forall pre l e post, evs = pre ++ EnergyRecorded l e :: post ->
    exists n, BufferCreated layer n ∈ pre;
  lf_count :
    (s' = (s + 1)%Z /\ PrintStatus layer true ∈ evs)
    \/ (s' = s /\ PrintStatus layer false ∈ evs);
  lf_failed :
    step_must_fail (resonance (vortex m)) lw layer ->
    s' = s /\ PrintStatus layer false ∈ evs;
  lf_logged :
    step_must_fail (resonance (vortex m)) lw layer ->
    truthy (hwnd (vortex m)) && truthy (hdc (vortex m)) = true ->
    PrintLayerError layer ∈ evs;
  lf_payload_none :
    layer <> 32%Z \/ payload_truthy payload = false -> payloads evs = [];
  lf_payload_count : (length (payloads evs) <= 1)%nat;
  lf_payload : forall pre p post, evs = pre ++ Payload p :: post ->
    layer = 32%Z /\ payload = Some p /\ p <> []
    /\ (exists n, BufferCreated layer n ∈ pre)
    /\ DwmFlush layer ∈ pre
    /\ PrintStatus layer true ∈ pre
    /\ attempted post = []
}.

(** The statistics agree with what the trace says was recorded. *)
Record stats_invariant (g : Globals) (m : Machine) : Prop := {
  si_length :
    length (layer_energies (vortex m)) = Z.to_nat (SCTT_LAYERS g);
  si_once : NoDup (recorded (stdout m));
  si_range : forall l, l ∈ recorded (stdout m) -> (0 <= l < SCTT_LAYERS g)%Z;
  si_written : forall l, l ∈ recorded (stdout m) ->
    layer_energies (vortex m) !! Z.to_nat l =
      Some (layer_energy (SCTT_ALPHA g) l);
  si_unwritten : forall i : nat,
    Z.of_nat i ∉ recorded (stdout m) -> (i < Z.to_nat (SCTT_LAYERS g))%nat ->
    layer_energies (vortex m) !! i = Some 0;
  si_total :
    total_cascade_energy (vortex m) = Rsum (layer_energies (vortex m));
  si_total_written :
    total_cascade_energy (vortex m) =
      Rsum (layer_energy (SCTT_ALPHA g) <$> recorded (stdout m));
  si_energy : forall l e, EnergyRecorded l e ∈ stdout m ->
    e = layer_energy (SCTT_ALPHA g) l;
  si_order : forall pre l e post,
    stdout m = pre ++ EnergyRecorded l e :: post ->
    exists n, BufferCreated l n ∈ pre
}.

(** How far a run has got: the layers begun, each with its status line,
    and every layer that was bound to fail logged as failed.  [m1] is the
    machine at the start of the loop, [a] the next layer. *)
Record progress_invariant (w : World) (m1 : Machine) (a : Z) (m : Machine)
    : Prop := {
  pi_attempted : attempted (stdout m) = seqZ 0 a;
  pi_hwnd : hwnd (vortex m) = hwnd (vortex m1);
  pi_hdc : hdc (vortex m) = hdc (vortex m1);
  pi_status : forall l, (0 <= l < a)%Z ->
    PrintStatus l true ∈ stdout m \/ PrintStatus l false ∈ stdout m;
  pi_resonance : resonance (vortex m) = resonance (vortex m1);
  pi_failed : forall l, (0 <= l < a)%Z ->
    step_must_fail (resonance (vortex m1)) (layer_world w l) l ->
    PrintStatus l false ∈ stdout m;
  pi_logged : forall l, (0 <= l < a)%Z ->
    step_must_fail (resonance (vortex m1)) (layer_world w l) l ->
    truthy (hwnd (vortex m1)) && truthy (hdc (vortex m1)) = true ->
    PrintLayerError l ∈ stdout m;
  pi_payloads : (a <= 32)%Z -> payloads (stdout m) = []
}.

(** A world in which the flush of layer 3 throws and every other call
    returns. *)
Definition faulty_world : World :=
  {| register_class := Returns tt;
     create_window_ex := Returns 1%Z;
     get_dc := Returns 1%Z;
     layer_world := fun l =>
       {| driver_clock := 0; sink_clock := 0;
          create_dib_section := Returns 1%Z;
          get_object := Returns 1%Z;
          from_address := Returns tt;
          bit_blt := Returns tt;
          dwm_flush := if (l =? 3)%Z then Throws else Returns tt |} |}.

(** A world in which the blit of every layer throws and every other call
    returns. *)
Definition blit_faulty_world : World :=
  {| register_class := Returns tt;
     create_window_ex := Returns 1%Z;
     get_dc := Returns 1%Z;
     layer_world := fun _ =>
       {| driver_clock := 0; sink_clock := 0;
          create_dib_section := Returns 1%Z;
          get_object := Returns 1%Z;
          from_address := Returns tt;
          bit_blt := Throws;
          dwm_flush := Returns tt |} |}.

(** * Definitions used to state further properties *)

(** A generator like the constructed one, with periods of one's choice. *)
Definition with_periods (periods : list Z) : SCTT_VisualResonance :=
  {| alpha := 302011 / 10000000;
     layers := 33;
     prime_windows := periods;
     DWM_BB_ENABLE := 1;
     DWM_BB_BLURREGION := 2 |}.

(** A generator whose decay coefficient is zero. *)
Definition flat_resonance : SCTT_VisualResonance :=
  {| alpha := 0;
     layers := 33;
     prime_windows := [10007; 10009; 10037; 10039; 10061]%Z;
     DWM_BB_ENABLE := 1;
     DWM_BB_BLURREGION := 2 |}.

(** More of what a trace shows: the status lines, the layers whose handler
    printed an error, and the layers whose buffer was built. *)
Definition statuses (t : list event) : list (Z * bool) :=
  omap (fun e => match e with PrintStatus l b => Some (l, b) | _ => None end) t.

Definition errors (t : list event) : list Z :=
  omap (fun e => match e with PrintLayerError l => Some l | _ => None end) t.

Definition buffers (t : list event) : list Z :=
  omap (fun e => match e with BufferCreated l _ => Some l | _ => None end) t.

(** The layers whose bitmap was blitted, and the cleanup calls, in order. *)
Definition blits (t : list event) : list Z :=
  omap (fun e => match e with BitBlt l => Some l | _ => None end) t.

Definition cleanups (t : list event) : list event :=
  omap (fun e => match e with
                 | ReleaseDC => Some ReleaseDC
                 | DestroyWindow => Some DestroyWindow
                 | _ => None
                 end) t.

(** Outcomes of calls, as booleans: the call returned; it returned a
    handle that is not null. *)
Definition returned {A} (r : api A) : bool :=
  match r with
  | Returns _ => true
  | Throws => false
  end.

Definition returned_handle (r : api Z) : bool :=
  match r with
  | Returns z => negb (z =? 0)%Z
  | Throws => false
  end.

Definition is_ok {A} (r : result A) : bool :=
  match r with
  | Ok _ => true
  | Raise _ => false
  end.

(** The pass of a layer reaches lines 211-213: the handles are set, the
    buffer is built, the bitmap and its object are not null, and the layer
    indexes the statistics. *)
Definition step_records (v : SCTT_DWM_Vortex) (lw : LayerWorld) (layer : Z)
    : bool :=
  truthy (hwnd v) && truthy (hdc v)
  && is_ok (create_resonant_pixel_buffer (resonance v) layer 640 480)
  && returned_handle (create_dib_section lw)
  && returned_handle (get_object lw)
  && returned (from_address lw)
  && negb (Z.of_nat (length (layer_energies v)) <=? layer)%Z.

(** The pass of a layer reaches [return True] on line 232: nothing raises
    on the path the returned handles select. *)
Definition step_succeeds (v : SCTT_DWM_Vortex) (lw : LayerWorld) (layer : Z)
    : bool :=
  truthy (hwnd v) && truthy (hdc v)
  && is_ok (create_resonant_pixel_buffer (resonance v) layer 640 480)
  && returned (create_dib_section lw)
  && (if returned_handle (create_dib_section lw) then
        returned (get_object lw)
        && (if returned_handle (get_object lw) then
              returned (from_address lw)
              && negb (Z.of_nat (length (layer_energies v)) <=? layer)%Z
              && returned (bit_blt lw)
            else true)
      else true)
  && returned (dwm_flush lw).

(** What one pass through the loop body leaves behind, as a function of
    the world: [evs] is what it prints and calls after the layer's
    header. *)
Record layer_outcome (g : Globals) (lw : LayerWorld)
    (payload : option (list Z)) (layer : Z) (m m' : Machine) (s s' : Z)
    (evs : list event) : Prop := {
  lo_stdout : stdout m' = stdout m ++ LayerHeader layer :: evs;
  lo_resonance : resonance (vortex m') = resonance (vortex m);
  lo_hwnd : hwnd (vortex m') = hwnd (vortex m);
  lo_hdc : hdc (vortex m') = hdc (vortex m);
  lo_length :
    length (layer_energies (vortex m')) = length (layer_energies (vortex m));
  lo_attempted : attempted evs = [];
  lo_statuses : statuses evs = [(layer, step_succeeds (vortex m) lw layer)];
  lo_counter :
    s' = (if step_succeeds (vortex m) lw layer then s + 1 else s)%Z;
  lo_recorded :
    recorded evs = if step_records (vortex m) lw layer then [layer] else [];
  lo_errors :
    errors evs =
      if truthy (hwnd (vortex m)) && truthy (hdc (vortex m))
         && negb (step_succeeds (vortex m) lw layer)
      then [layer] else [];
  lo_buffers :
    buffers evs =
      if truthy (hwnd (vortex m)) && truthy (hdc (vortex m))
         && is_ok (create_resonant_pixel_buffer (resonance (vortex m))
                     layer 640 480)
      then [layer] else [];
  lo_payloads :
    payloads evs =
      if (layer =? 32)%Z && step_succeeds (vortex m) lw layer
         && payload_truthy payload
      then [default [] payload] else [];
  lo_blits :
    blits evs =
      if step_records (vortex m) lw layer && returned (bit_blt lw)
      then [layer] else [];
  lo_cleanups : cleanups evs = [];
  lo_bitmap_kept :
    step_records (vortex m) lw layer = true -> bit_blt lw = Throws ->
    Some (hbitmap (vortex m')) =
      match create_dib_section lw with
      | Returns hb => Some (Some hb)
      | Throws => None
      end;
  lo_bitmap_freed :
    step_records (vortex m) lw layer = true -> returned (bit_blt lw) = true ->
    hbitmap (vortex m') = None
}.

(** The window phase reaches [return True] on line 165: the class is
    registered, the window handle is not null and GetDC returns. *)
Definition window_opens (w : World) : bool :=
  returned (register_class w)
  && returned_handle (create_window_ex w)
  && returned (get_dc w).

(** The object when the loop over the layers starts. *)
Definition opened_vortex (w : World) (v : SCTT_DWM_Vortex) : SCTT_DWM_Vortex :=
  vortex (snd (open_window w (fresh v))).

(** How far a run has got, as a function of the world: [v1] is the object
    at the start of the loop, [a] the next layer, [s] the counter of
    successful layers. *)
Record outcome_invariant (w : World) (payload : option (list Z))
    (v1 : SCTT_DWM_Vortex) (a s : Z) (m : Machine) : Prop := {
  oi_resonance : resonance (vortex m) = resonance v1;
  oi_hwnd : hwnd (vortex m) = hwnd v1;
  oi_hdc : hdc (vortex m) = hdc v1;
  oi_length : length (layer_energies (vortex m)) = length (layer_energies v1);
  oi_attempted : attempted (stdout m) = seqZ 0 a;
  oi_statuses :
    statuses (stdout m) =
      (fun l => (l, step_succeeds v1 (layer_world w l) l)) <$> seqZ 0 a;
  oi_counter :
    s = Z.of_nat (length (List.filter
                            (fun l => step_succeeds v1 (layer_world w l) l)
                            (seqZ 0 a)));
  oi_recorded :
    recorded (stdout m) =
      List.filter (fun l => step_records v1 (layer_world w l) l) (seqZ 0 a);
  oi_errors :
    errors (stdout m) =
      List.filter (fun l => truthy (hwnd v1) && truthy (hdc v1)
                            && negb (step_succeeds v1 (layer_world w l) l))
        (seqZ 0 a);
  oi_buffers :
    buffers (stdout m) =
      List.filter (fun l => truthy (hwnd v1) && truthy (hdc v1)
                            && is_ok (create_resonant_pixel_buffer
                                        (resonance v1) l 640 480))
        (seqZ 0 a);
  oi_payloads :
    payloads (stdout m) =
      if (32 <? a)%Z && step_succeeds v1 (layer_world w 32) 32
         && payload_truthy payload
      then [default [] payload] else [];
  oi_blits :
    blits (stdout m) =
      List.filter (fun l => step_records v1 (layer_world w l) l
                            && returned (bit_blt (layer_world w l)))
        (seqZ 0 a);
  oi_cleanups : cleanups (stdout m) = [];
  oi_bitmap_kept : forall l,
    (0 <= l)%Z -> a = (l + 1)%Z -> step_records v1 (layer_world w l) l = true ->
    bit_blt (layer_world w l) = Throws ->
    Some (hbitmap (vortex m)) =
      match create_dib_section (layer_world w l) with
      | Returns hb => Some (Some hb)
      | Throws => None
      end;
  oi_bitmap_freed : forall l,
    (0 <= l)%Z -> a = (l + 1)%Z -> step_records v1 (layer_world w l) l = true ->
    returned (bit_blt (layer_world w l)) = true ->
    hbitmap (vortex m) = None
}.

(** What lines 307-337 print and call. *)
Definition summary_events (g : Globals) (successful_layers : Z)
    (v : SCTT_DWM_Vortex) : list event :=
  PrintComplete ::
  (if (SCTT_LAYERS g =? 0)%Z then []
   else PrintSummary successful_layers
        :: (if truthy (hdc v) && truthy (hwnd v) then [ReleaseDC] else [])
        ++ (if truthy (hwnd v) then [DestroyWindow] else [])).

(** A world whose sink cooperates with every layer: each call returns,
    and the handles it returns are not null. *)
Definition cooperative (w : World) : Prop :=
  returned_handle (get_dc w) = true
  /\ forall l,
       returned_handle (create_dib_section (layer_world w l)) = true
       /\ returned_handle (get_object (layer_world w l)) = true
       /\ returned (from_address (layer_world w l)) = true
       /\ returned (bit_blt (layer_world w l)) = true
       /\ returned (dwm_flush (layer_world w l)) = true.

(** A world in which CreateDIBSection returns a null bitmap for every
    layer and every other call returns. *)
Definition null_bitmap_world : World :=
  {| register_class := Returns tt;
     create_window_ex := Returns 1%Z;
     get_dc := Returns 1%Z;
     layer_world := fun _ =>
       {| driver_clock := 0; sink_clock := 0;
          create_dib_section := Returns 0%Z;
          get_object := Returns 1%Z;
          from_address := Returns tt;
          bit_blt := Returns tt;
          dwm_flush := Returns tt |} |}.

(** A world in which GetDC returns a null device context and every other
    call returns. *)
Definition null_dc_world : World :=
  {| register_class := Returns tt;
     create_window_ex := Returns 1%Z;
     get_dc := Returns 0%Z;
     layer_world := fun _ =>
       {| driver_clock := 0; sink_clock := 0;
          create_dib_section := Returns 1%Z;
          get_object := Returns 1%Z;
          from_address := Returns tt;
          bit_blt := Returns tt;
          dwm_flush := Returns tt |} |}.

(** A world in which the window is created and GetDC then throws. *)
Definition dc_faulty_world : World :=
  {| register_class := Returns tt;
     create_window_ex := Returns 7%Z;
     get_dc := Throws;
     layer_world := fun _ =>
       {| driver_clock := 0; sink_clock := 0;
          create_dib_section := Returns 1%Z;
          get_object := Returns 1%Z;
          from_address := Returns tt;
          bit_blt := Returns tt;
          dwm_flush := Returns tt |} |}.

(** The constants of the module with no layer, and with forty layers. *)
Definition no_layers : Globals :=
  {| SCTT_ALPHA := 302011 / 10000000; SCTT_LAYERS := 0 |}.

Definition forty_layers : Globals :=
  {| SCTT_ALPHA := 302011 / 10000000; SCTT_LAYERS := 40 |}.

(** The object the constructor builds when the module has no layer. *)
Definition no_layers_vortex : SCTT_DWM_Vortex :=
  {| resonance :=
       {| alpha := 302011 / 10000000;
          layers := 0;
          prime_windows := [10007; 10009; 10037; 10039; 10061]%Z;
          DWM_BB_ENABLE := 1;
          DWM_BB_BLURREGION := 2 |};
     hwnd := None; hdc := None; hbitmap := None;
     layer_energies := [];
     total_cascade_energy := 0 |}.

(** Producing or delivering the buffer of a layer fails: the buffer cannot
    be built, or a call on the path that the returned handles select
    throws. *)
Definition delivery_fails (res : SCTT_VisualResonance) (lw : LayerWorld)
    (layer : Z) : Prop :=
  (exists e, create_resonant_pixel_buffer res layer 640 480 = Raise e)
  \/ create_dib_section lw = Throws
  \/ (returned_handle (create_dib_section lw) = true
      /\ get_object lw = Throws)
  \/ (returned_handle (create_dib_section lw) = true
      /\ returned_handle (get_object lw) = true
      /\ (from_address lw = Throws \/ bit_blt lw = Throws))
  \/ dwm_flush lw = Throws.

(** The object the constructor builds when the module has forty layers. *)
Definition forty_vortex : SCTT_DWM_Vortex :=
  {| resonance :=
       {| alpha := 302011 / 10000000;
          layers := 40;
          prime_windows := [10007; 10009; 10037; 10039; 10061]%Z;
          DWM_BB_ENABLE := 1;
          DWM_BB_BLURREGION := 2 |};
     hwnd := None; hdc := None; hbitmap := None;
     layer_energies := replicate 40 0;
     total_cascade_energy := 0 |}.
(** * Properties of the signal generator *)

Lemma module_resonance_init :
  SCTT_VisualResonance_init module_globals = Ok module_resonance.
Proof. reflexivity. Qed.

Lemma layer_energy_pos a l : 0 < layer_energy a l.
Proof. apply exp_pos. Qed.

Lemma layer_energy_decreasing a l1 l2 :
  0 < a -> (l1 < l2)%Z -> layer_energy a l2 < layer_energy a l1.
Proof.
  intros Ha Hl. unfold layer_energy. apply exp_increasing.
  apply IZR_lt in Hl. nra.
Qed.

Lemma layer_energy_le_1 a l : 0 < a -> (0 <= l)%Z -> layer_energy a l <= 1.
Proof.
  intros Ha Hl. unfold layer_energy. rewrite <- exp_0.
  apply IZR_le in Hl.
  destruct (Req_dec (- a * IZR l) 0) as [->|Hne]; [lra|].
  left. apply exp_increasing. nra.
Qed.

Lemma calculate_visual_resonance_eq self layer x y :
  alpha self <> 0 -> layers self <> 0%Z ->
  calculate_visual_resonance self layer x y =
    Ok (layer_energy (alpha self) layer
        * (1 + 0.3 * sin (2 * PI * IZR (x + y) / (1 / alpha self)))
        * (1 + 0.2 * sin (2 * PI * IZR layer / IZR (layers self)))).
Proof.
  intros Ha Hl. unfold calculate_visual_resonance.
  destruct (Req_dec_T (alpha self) 0); [contradiction|].
  destruct (Z.eqb_spec (layers self) 0); [contradiction|reflexivity].
Qed.

(** The modulation factor lies between 0.7 * 0.8 and 1.3 * 1.2. *)
Lemma modulation_bounds s t :
  -1 <= s <= 1 -> -1 <= t <= 1 ->
  0.56 <= (1 + 0.3 * s) * (1 + 0.2 * t) <= 1.56.
Proof. intros Hs Ht. split; nra. Qed.

(** C2. With a non-zero decay coefficient, for a layer of [0, L) and all
    pixel coordinates, the resonance of a pixel is
    exp(-alpha*layer) * (1 + 0.3*sin(2*pi*(x+y)/wavelength))
    * (1 + 0.2*sin(2*pi*layer/L)) with wavelength = 1/alpha; and when alpha
    is 0.0302011 and L is 33, the resonance of pixel (0,0) of layer 0 is 1. *)
Theorem pixel_resonance_formula (self : SCTT_VisualResonance) (layer x y : Z) :
  alpha self <> 0 -> (0 <= layer < layers self)%Z ->
  calculate_visual_resonance self layer x y =
    Ok (exp (- alpha self * IZR layer)
        * (1 + 0.3 * sin (2 * PI * IZR (x + y) / (1 / alpha self)))
        * (1 + 0.2 * sin (2 * PI * IZR layer / IZR (layers self))))
  /\ (alpha self = 302011 / 10000000 -> layers self = 33%Z ->
      calculate_visual_resonance self 0 0 0 = Ok 1).
Proof.
  intros Ha Hlayer.
  assert (Hl : layers self <> 0%Z) by lia. split.
  - apply calculate_visual_resonance_eq; assumption.
  - intros _ _. rewrite calculate_visual_resonance_eq by assumption.
    f_equal. unfold layer_energy. change (0 + 0)%Z with 0%Z.
    replace (- alpha self * 0) with 0 by ring.
    replace (2 * PI * 0 / (1 / alpha self)) with 0 by (unfold Rdiv; ring).
    replace (2 * PI * 0 / IZR (layers self)) with 0 by (unfold Rdiv; ring).
    rewrite exp_0, sin_0. lra.
Qed.

Lemma pixel_resonance_formula_witness :
  calculate_visual_resonance module_resonance 0 0 0 = Ok 1.
Proof.
  apply (pixel_resonance_formula module_resonance 0 0 0);
    [simpl; lra | simpl; lia | reflexivity | reflexivity].
Defined.

(** C10. For a positive decay coefficient and a layer in [0, L) the
    resonance of every pixel lies between 0.56 and 1.56 times
    exp(-alpha*layer); it is strictly positive, so 255 times it is never
    negative, and it never exceeds 1.56. *)
Theorem pixel_resonance_bounds (self : SCTT_VisualResonance) (layer x y : Z) :
  0 < alpha self -> (0 <= layer < layers self)%Z ->
  exists r,
    calculate_visual_resonance self layer x y = Ok r
    /\ 0.56 * exp (- alpha self * IZR layer) <= r
    /\ r <= 1.56 * exp (- alpha self * IZR layer)
    /\ 0 < r /\ 0 <= 255 * r /\ r <= 1.56.
Proof.
  intros Ha [Hl0 Hl1]. eexists. split.
  { apply calculate_visual_resonance_eq; [lra | lia]. }
  pose proof (SIN_bound (2 * PI * IZR (x + y) / (1 / alpha self))) as Hs.
  pose proof (SIN_bound (2 * PI * IZR layer / IZR (layers self))) as Ht.
  pose proof (layer_energy_pos (alpha self) layer) as He.
  pose proof (layer_energy_le_1 (alpha self) layer Ha Hl0) as He1.
  fold (layer_energy (alpha self) layer).
  generalize dependent (sin (2 * PI * IZR (x + y) / (1 / alpha self))).
  generalize dependent (sin (2 * PI * IZR layer / IZR (layers self))).
  generalize dependent (layer_energy (alpha self) layer).
  intros e He He1 t Ht s Hs.
  pose proof (modulation_bounds s t Hs Ht) as Hm.
  rewrite !Rmult_assoc.
  set (f := (1 + 0.3 * s) * (1 + 0.2 * t)) in *.
  repeat split; nra.
Qed.

Lemma pixel_resonance_bounds_witness :
  exists r,
    calculate_visual_resonance module_resonance 5 7 11 = Ok r
    /\ 0.56 * exp (- alpha module_resonance * IZR 5) <= r
    /\ r <= 1.56 * exp (- alpha module_resonance * IZR 5)
    /\ 0 < r /\ 0 <= 255 * r /\ r <= 1.56.
Proof.
  apply (pixel_resonance_bounds module_resonance 5 7 11);
    [simpl; lra | simpl; lia].
Defined.

(** * Properties of the scheduler *)

Lemma wait_bounds prime now :
  (0 < prime)%Z ->
  0 <= IZR ((prime - now mod prime) mod prime) / 1000000 < IZR prime / 1000000.
Proof.
  intros Hp.
  pose proof (Z.mod_pos_bound (prime - now mod prime) prime Hp) as [H0 H1].
  apply IZR_le in H0. apply IZR_lt in H1. split.
  - apply Rmult_le_pos; lra.
  - apply Rmult_lt_compat_r; lra.
Qed.

Lemma wait_aligned prime now :
  (0 < prime)%Z -> (now mod prime = 0)%Z ->
  ((prime - now mod prime) mod prime = 0)%Z.
Proof.
  intros Hp ->. rewrite Z.sub_0_r. apply Z.mod_same. lia.
Qed.

(** On a constructed generator the scheduler finds its period and returns. *)
Lemma prime_resonance_timing_init g self now layer :
  SCTT_VisualResonance_init g = Ok self ->
  exists period,
    [10007; 10009; 10037; 10039; 10061]%Z !! Z.to_nat (layer mod 5) = Some period
    /\ (0 < period)%Z
    /\ prime_resonance_timing self now layer =
         Ok (IZR ((period - now mod period) mod period) / 1000000).
Proof.
  intros Hinit. injection Hinit as <-.
  pose proof (Z.mod_pos_bound layer 5 ltac:(lia)) as Hm.
  assert (Hcases : exists period,
    [10007; 10009; 10037; 10039; 10061]%Z !! Z.to_nat (layer mod 5) = Some period
    /\ (0 < period)%Z /\ (period =? 0)%Z = false).
  { destruct (Z.to_nat (layer mod 5)) as [|[|[|[|[|n]]]]] eqn:E;
      try (eexists; split; [reflexivity | split; [lia | reflexivity]]).
    lia. }
  destruct Hcases as (period & Hlook & Hpos & Hnz).
  exists period. split; [exact Hlook|]. split; [exact Hpos|].
  unfold prime_resonance_timing. cbn [prime_windows length].
  change (Z.of_nat 5 =? 0)%Z with false. cbn iota.
  change (Z.of_nat 5) with 5%Z. rewrite Hlook, Hnz. reflexivity.
Qed.

Lemma timing_total_init g self :
  SCTT_VisualResonance_init g = Ok self -> timing_total self.
Proof.
  intros Hinit now layer.
  destruct (prime_resonance_timing_init g self now layer Hinit)
    as (period & _ & _ & H).
  eexists. exact H.
Qed.

(** C4. On a constructed generator, for every layer index and every
    non-negative clock reading in microseconds, the delay is
    ((period - now mod period) mod period) / 1_000_000 where period is
    entry (layer mod 5) of [10007, 10009, 10037, 10039, 10061]; it lies in
    [0, period/1e6); it is 0 whenever now mod period = 0, as for layer 0 at
    10007 microseconds. *)
Theorem next_alignment_delay (g : Globals) (self : SCTT_VisualResonance)
    (layer now : Z) :
  SCTT_VisualResonance_init g = Ok self -> (0 <= now)%Z ->
  exists period,
    [10007; 10009; 10037; 10039; 10061]%Z !! Z.to_nat (layer mod 5) = Some period
    /\ prime_resonance_timing self now layer =
         Ok (IZR ((period - now mod period) mod period) / 1000000)
    /\ 0 <= IZR ((period - now mod period) mod period) / 1000000
         < IZR period / 1000000
    /\ ((now mod period = 0)%Z -> prime_resonance_timing self now layer = Ok 0)
    /\ prime_resonance_timing self 10007 0 = Ok 0.
Proof.
  intros Hinit _.
  destruct (prime_resonance_timing_init g self now layer Hinit)
    as (period & Hlook & Hpos & Hrun).
  exists period. split; [exact Hlook|]. split; [exact Hrun|].
  split; [apply wait_bounds, Hpos|]. split.
  - intros Hal. rewrite Hrun, (wait_aligned _ _ Hpos Hal).
    f_equal. unfold Rdiv. ring.
  - destruct (prime_resonance_timing_init g self 10007 0 Hinit)
      as (p0 & Hlook0 & _ & Hrun0).
    injection Hlook0 as <-. rewrite Hrun0.
    change ((10007 - 10007 mod 10007) mod 10007)%Z with 0%Z.
    f_equal. unfold Rdiv. ring.
Qed.

Lemma next_alignment_delay_witness :
  exists period,
    [10007; 10009; 10037; 10039; 10061]%Z !! Z.to_nat (7 mod 5) = Some period
    /\ prime_resonance_timing module_resonance 20074 7 =
         Ok (IZR ((period - 20074 mod period) mod period) / 1000000)
    /\ 0 <= IZR ((period - 20074 mod period) mod period) / 1000000
         < IZR period / 1000000
    /\ ((20074 mod period = 0)%Z ->
        prime_resonance_timing module_resonance 20074 7 = Ok 0)
    /\ prime_resonance_timing module_resonance 10007 0 = Ok 0.
Proof.
  apply (next_alignment_delay module_globals module_resonance 7 20074);
    [reflexivity | lia].
Defined.

(** * The theoretical cascade energy *)

Lemma layer_energy_pow a (k : nat) :
  layer_energy a (Z.of_nat k) = exp (- a) ^ k.
Proof.
  unfold layer_energy. induction k as [|k IH].
  - change (IZR (Z.of_nat 0)) with 0. rewrite Rmult_0_r. apply exp_0.
  - rewrite Nat2Z.inj_succ, succ_IZR. simpl pow. rewrite <- IH, <- exp_plus.
    f_equal. ring.
Qed.

Lemma cascade_sum_succ a (n : nat) :
  cascade_sum a (Z.of_nat (S n)) =
    cascade_sum a (Z.of_nat n) + layer_energy a (Z.of_nat n).
Proof.
  unfold cascade_sum, range. rewrite seqZ_S, foldl_app. reflexivity.
Qed.

Lemma cascade_sum_geometric a (n : nat) :
  cascade_sum a (Z.of_nat n) = geometric (exp (- a)) n.
Proof.
  induction n as [|n IH]; [reflexivity|].
  rewrite cascade_sum_succ, IH, layer_energy_pow. reflexivity.
Qed.

Lemma geometric_mono lo hi n :
  0 <= lo <= hi -> geometric lo n <= geometric hi n.
Proof.
  intros H. induction n as [|n IH]; simpl; [lra|].
  apply Rplus_le_compat; [exact IH|]. apply pow_incr, H.
Qed.

(** exp(-a) between the squares of 1 - a/2 and of 1/(1 + a/2). *)
Lemma exp_neg_bounds a :
  0 < a < 2 ->
  (1 - a / 2) ^ 2 <= exp (- a) /\ exp (- a) * (1 + a / 2) ^ 2 <= 1.
Proof.
  intros Ha.
  pose proof (exp_ineq1_le (- (a / 2))) as Hlo.
  pose proof (exp_ineq1_le (a / 2)) as Hhi.
  pose proof (exp_pos (- a)) as Hq.
  assert (Hsq : forall x, exp (x + x) = exp x ^ 2).
  { intros x. rewrite exp_plus. ring. }
  split.
  - replace (- a) with (- (a / 2) + - (a / 2)) by field. rewrite Hsq.
    apply pow_incr. lra.
  - assert (Hinv : exp (- a) * exp a = 1).
    { rewrite <- exp_plus. replace (- a + a) with 0 by ring. apply exp_0. }
    assert (Hle : (1 + a / 2) ^ 2 <= exp a).
    { replace a with (a / 2 + a / 2) at 2 by field. rewrite Hsq.
      apply pow_incr. lra. }
    apply Rle_trans with (exp (- a) * exp a); [|lra].
    apply Rmult_le_compat_l; lra.
Qed.

Lemma module_ratio_bounds :
  0.97 <= exp (- SCTT_ALPHA module_globals) <= 0.9705.
Proof.
  destruct (exp_neg_bounds (SCTT_ALPHA module_globals)) as [Hlo Hhi].
  { simpl. lra. }
  simpl SCTT_ALPHA in *. split; [lra|].
  assert (1 < (1 + 302011 / 10000000 / 2) ^ 2 * 0.9705) by lra.
  nra.
Qed.

Lemma module_cascade_sum_bounds :
  21.13 <= cascade_sum (SCTT_ALPHA module_globals) (SCTT_LAYERS module_globals)
        <= 21.28.
Proof.
  change (SCTT_LAYERS module_globals) with (Z.of_nat 33).
  rewrite cascade_sum_geometric.
  destruct module_ratio_bounds as [Hlo Hhi].
  pose proof (exp_pos (- SCTT_ALPHA module_globals)) as Hq.
  assert (H1 : geometric 0.97 33
               <= geometric (exp (- SCTT_ALPHA module_globals)) 33).
  { apply geometric_mono. lra. }
  assert (H2 : geometric (exp (- SCTT_ALPHA module_globals)) 33
               <= geometric 0.9705 33).
  { apply geometric_mono. lra. }
  assert (21.13 <= geometric 0.97 33) by (simpl; lra).
  assert (geometric 0.9705 33 <= 21.28) by (simpl; lra).
  lra.
Qed.

(** The constant of line 20, the integral of the decay over [0, L]: about
    20.89 for the module's constants. *)
Lemma module_cascade_factor_bounds :
  20.78 <= SCTT_CASCADE_FACTOR module_globals <= 21.
Proof.
  unfold SCTT_CASCADE_FACTOR.
  change (SCTT_LAYERS module_globals) with (Z.of_nat 33).
  fold (layer_energy (SCTT_ALPHA module_globals) (Z.of_nat 33)).
  rewrite layer_energy_pow.
  destruct module_ratio_bounds as [Hlo Hhi].
  pose proof (exp_pos (- SCTT_ALPHA module_globals)) as Hq.
  assert (H1 : 0.97 ^ 33 <= exp (- SCTT_ALPHA module_globals) ^ 33).
  { apply pow_incr. lra. }
  assert (H2 : exp (- SCTT_ALPHA module_globals) ^ 33 <= 0.9705 ^ 33).
  { apply pow_incr. lra. }
  assert (0.365 <= 0.97 ^ 33) by lra.
  assert (0.9705 ^ 33 <= 0.3724) by lra.
  cbn [SCTT_ALPHA module_globals] in *.
  set (X := exp (- (302011 / 10000000)) ^ 33) in *.
  split; lra.
Qed.

(** C5, as stated, fails: for alpha = 0.0302011 and L = 33 the sum of
    exp(-alpha*d) over d = 0..32 is not within 0.5% of 20.58, whether the
    error is taken relative to 20.58 or to the sum. *)
Lemma cascade_sum_not_20_58 :
  ~ (Rabs (cascade_sum (SCTT_ALPHA module_globals) (SCTT_LAYERS module_globals)
           - 20.58) <= 0.005 * 20.58)
  /\ ~ (Rabs (cascade_sum (SCTT_ALPHA module_globals) (SCTT_LAYERS module_globals)
              - 20.58)
        <= 0.005 * cascade_sum (SCTT_ALPHA module_globals)
                     (SCTT_LAYERS module_globals)).
Proof.
  pose proof module_cascade_sum_bounds as [Hlo Hhi].
  split; intros H; rewrite Rabs_right in H by lra; lra.
Qed.

(** C5, amended. For alpha = 0.0302011 and L = 33 the sum of exp(-alpha*d)
    over d = 0..32 is 21.21 with a relative error of at most 0.5%. *)
Theorem cascade_sum_value :
  Rabs (cascade_sum (SCTT_ALPHA module_globals) (SCTT_LAYERS module_globals)
        - 21.21) <= 0.005 * 21.21.
Proof.
  pose proof module_cascade_sum_bounds as [Hlo Hhi].
  apply Rabs_le. lra.
Qed.

(** * The pixel buffer *)

Lemma py_int_nonneg x : 0 <= x -> py_int x = Zfloor x.
Proof. intros H. unfold py_int. destruct (Rle_dec 0 x); [reflexivity|lra]. Qed.

Lemma py_int_neg x : x < 0 -> py_int x = Zceil x.
Proof. intros H. unfold py_int. destruct (Rle_dec 0 x); [lra|reflexivity]. Qed.

(** [py_int] rounds toward zero: the result has the sign of the argument
    and its magnitude is the integer part of the argument's magnitude. *)
Lemma py_int_toward_zero x :
  Rabs (IZR (py_int x)) <= Rabs x < Rabs (IZR (py_int x)) + 1
  /\ 0 <= IZR (py_int x) * x.
Proof.
  destruct (Rle_dec 0 x) as [Hx|Hx].
  - rewrite py_int_nonneg by exact Hx.
    pose proof (Zfloor_bound x) as [Hlo Hhi].
    assert (0 <= IZR (Zfloor x)).
    { apply IZR_le. apply Zfloor_lub. simpl. exact Hx. }
    rewrite !Rabs_right by lra. repeat split; nra.
  - rewrite py_int_neg by lra. unfold Zceil.
    pose proof (Zfloor_bound (- x)) as [Hlo Hhi].
    assert (0 <= IZR (Zfloor (- x))).
    { apply IZR_le. apply Zfloor_lub. simpl. lra. }
    rewrite opp_IZR. rewrite !Rabs_left1 by lra. repeat split; nra.
Qed.

Lemma land_255 z : Z.land z 255 = (z mod 256)%Z.
Proof. apply (Z.land_ones z 8). lia. Qed.

Lemma lxor_byte a b :
  (0 <= a < 256)%Z -> (0 <= b < 256)%Z -> (0 <= Z.lxor a b < 256)%Z.
Proof.
  intros Ha Hb. split; [apply Z.lxor_nonneg; lia|].
  destruct (Z.eq_dec (Z.lxor a b) 0%Z) as [->|Hne]; [lia|].
  assert (Hpos : (0 < Z.lxor a b)%Z).
  { pose proof (proj2 (Z.lxor_nonneg a b)). lia. }
  apply (Z.log2_lt_pow2 _ 8 Hpos).
  pose proof (Z.log2_lxor a b ltac:(lia) ltac:(lia)) as Hlog.
  assert (Hsmall : forall c, (0 <= c < 256)%Z -> (Z.log2 c < 8)%Z).
  { intros c Hc. destruct (Z.eq_dec c 0%Z) as [->|Hc0]; [reflexivity|].
    apply Z.log2_lt_pow2; lia. }
  pose proof (Hsmall a Ha). pose proof (Hsmall b Hb). lia.
Qed.

Lemma pattern_of_even layer :
  pattern_of layer = if Z.even layer then 170%Z else 85%Z.
Proof.
  unfold pattern_of. rewrite Zmod_even. destruct (Z.even layer); reflexivity.
Qed.

Lemma pattern_of_byte layer : (0 <= pattern_of layer < 256)%Z.
Proof. unfold pattern_of. destruct (_ =? _)%Z; lia. Qed.

Lemma masked_byte z layer :
  (0 <= Z.lxor (Z.land z 255) (pattern_of layer) < 256)%Z.
Proof.
  apply lxor_byte; [|apply pattern_of_byte].
  rewrite land_255. apply Z.mod_pos_bound. lia.
Qed.

Lemma result_bind_ok {A B} (a : A) (k : A -> result B) : (Ok a ≫= k) = k a.
Proof. reflexivity. Qed.

(** A store into the part of a bytearray that follows [pre]. *)
Lemma bytearray_set_app pre l2 k idx v :
  idx = Z.of_nat (length pre + k) -> (k < length l2)%nat ->
  (0 <= v < 256)%Z ->
  bytearray_set (pre ++ l2) idx v = Ok (pre ++ <[k := v]> l2).
Proof.
  intros -> Hk Hv. unfold bytearray_set. rewrite length_app.
  destruct (Z.ltb_spec (Z.of_nat (length pre + k)) 0) as [?|_]; [lia|].
  destruct (Z.ltb_spec (Z.of_nat (length pre + k)) 0) as [?|_]; [lia|].
  destruct (Z.leb_spec (Z.of_nat (length pre + length l2))
              (Z.of_nat (length pre + k))) as [?|_]; [lia|].
  destruct (Z.ltb_spec v 0) as [?|_]; [lia|].
  destruct (Z.leb_spec 256 v) as [?|_]; [lia|].
  cbn [orb]. rewrite Nat2Z.id, insert_app_r. reflexivity.
Qed.

Section Buffer.
Variable self : SCTT_VisualResonance.
Variable layer : Z.
Hypothesis alpha_nonzero : alpha self <> 0.
Hypothesis layers_nonzero : layers self <> 0%Z.

Lemma calculate_visual_resonance_value x y :
  calculate_visual_resonance self layer x y =
    Ok (resonance_value self layer x y).
Proof.
  apply calculate_visual_resonance_eq; [exact alpha_nonzero | exact layers_nonzero].
Qed.

(** One pass through the loop body fills the four bytes after [pre]. *)
Lemma pixel_body_app width y x pre rest :
  Z.of_nat (length pre) = ((y * width + x) * 4)%Z ->
  pixel_body self layer width y x (pre ++ replicate 4 0%Z ++ rest) =
    Ok (pre ++ masked_bytes layer (resonance_value self layer x y) ++ rest).
Proof.
  intros Hlen. unfold pixel_body.
  rewrite calculate_visual_resonance_value, result_bind_ok.
  cbv zeta. rewrite <- Hlen.
  rewrite (bytearray_set_app pre _ 0);
    [|f_equal; lia | simpl; lia | apply masked_byte].
  rewrite result_bind_ok.
  rewrite (bytearray_set_app pre _ 1);
    [|rewrite Nat2Z.inj_add; reflexivity | simpl; lia | apply masked_byte].
  rewrite result_bind_ok.
  rewrite (bytearray_set_app pre _ 2);
    [|rewrite Nat2Z.inj_add; reflexivity | simpl; lia | apply masked_byte].
  rewrite result_bind_ok.
  rewrite (bytearray_set_app pre _ 3);
    [|rewrite Nat2Z.inj_add; reflexivity | simpl; lia | lia].
  reflexivity.
Qed.

(** The inner loop fills a run of [n] pixels of row [y]. *)
Lemma row_loop width y (n : nat) : forall x0 pre rest,
  Z.of_nat (length pre) = ((y * width + x0) * 4)%Z ->
  for_each (seqZ x0 (Z.of_nat n)) (pixel_body self layer width y)
           (pre ++ replicate (4 * n) 0%Z ++ rest) =
    Ok (pre ++ row_bytes self layer y x0 n ++ rest).
Proof.
  induction n as [|n IH]; intros x0 pre rest Hlen.
  - reflexivity.
  - unfold row_bytes. rewrite seqZ_cons by lia.
    replace (Z.pred (Z.of_nat (S n))) with (Z.of_nat n) by lia.
    replace (4 * S n)%nat with (4 + 4 * n)%nat by lia.
    rewrite replicate_add, <- (app_assoc (replicate 4 0%Z)).
    cbn [for_each]. rewrite pixel_body_app by exact Hlen.
    rewrite bind_cons, <- (app_assoc (masked_bytes _ _)).
    rewrite (app_assoc pre (masked_bytes _ _)).
    rewrite IH; [rewrite <- app_assoc; reflexivity|].
    rewrite length_app. unfold masked_bytes. cbn [length]. lia.
Qed.

Lemma length_row_bytes y x0 n :
  length (row_bytes self layer y x0 n) = (4 * n)%nat.
Proof.
  unfold row_bytes. revert x0. induction n as [|n IH]; intros x0.
  - reflexivity.
  - rewrite seqZ_cons by lia.
    replace (Z.pred (Z.of_nat (S n))) with (Z.of_nat n) by lia.
    rewrite bind_cons, length_app, IH. unfold masked_bytes. cbn [length]. lia.
Qed.

(** The outer loop fills [h] rows of [w] pixels. *)
Lemma frame_loop (w h : nat) : forall y0 pre rest,
  (0 <= y0)%Z ->
  length pre = (4 * w * Z.to_nat y0)%nat ->
  for_each (seqZ y0 (Z.of_nat h))
    (fun y buffer =>
       for_each (range (Z.of_nat w)) (pixel_body self layer (Z.of_nat w) y) buffer)
    (pre ++ replicate (4 * w * h) 0%Z ++ rest) =
    Ok (pre ++ frame_bytes self layer w y0 h ++ rest).
Proof.
  induction h as [|h IH]; intros y0 pre rest Hy Hlen.
  - replace (4 * w * 0)%nat with 0%nat by lia. reflexivity.
  - unfold frame_bytes. rewrite seqZ_cons by lia.
    replace (Z.pred (Z.of_nat (S h))) with (Z.of_nat h) by lia.
    replace (4 * w * S h)%nat with (4 * w + 4 * w * h)%nat by lia.
    rewrite replicate_add, <- (app_assoc (replicate (4 * w) 0%Z)).
    cbn [for_each]. unfold range at 1.
    rewrite row_loop by lia.
    rewrite bind_cons, <- (app_assoc (row_bytes _ _ _ _ _)).
    rewrite (app_assoc pre (row_bytes _ _ _ _ _)).
    rewrite IH; [rewrite <- app_assoc; reflexivity | lia |].
    rewrite length_app, length_row_bytes. lia.
Qed.

(** The buffer of a frame is the bytes of its pixels in row-major order. *)
Lemma create_resonant_pixel_buffer_eq (w h : nat) :
  create_resonant_pixel_buffer self layer (Z.of_nat w) (Z.of_nat h) =
    Ok (frame_bytes self layer w 0 h).
Proof.
  unfold create_resonant_pixel_buffer, bytearray.
  destruct (Z.ltb_spec (Z.of_nat w * Z.of_nat h * 4) 0) as [?|_]; [lia|].
  rewrite result_bind_ok.
  replace (Z.to_nat (Z.of_nat w * Z.of_nat h * 4)) with (4 * w * h)%nat by lia.
  pose proof (frame_loop w h 0 [] [] ltac:(lia) ltac:(simpl; lia)) as H.
  rewrite !app_nil_r in H. exact H.
Qed.
End Buffer.

(** Lookup in a concatenation of chunks of equal length. *)
Lemma lookup_bind_chunks {A B} (f : A -> list B) (n : nat) (l : list A) :
  (forall a, length (f a) = n) ->
  forall i j a, l !! i = Some a -> (j < n)%nat ->
  (l ≫= f) !! (i * n + j)%nat = f a !! j.
Proof.
  intros Hlen. induction l as [|a0 l IH]; intros i j a Hi Hj.
  - destruct i; discriminate.
  - rewrite bind_cons. destruct i as [|i].
    + injection Hi as ->. cbn [Nat.mul Nat.add].
      apply lookup_app_l. rewrite Hlen. exact Hj.
    + cbn [lookup list_lookup] in Hi.
      rewrite lookup_app_r by (rewrite Hlen; lia).
      rewrite Hlen. replace (S i * n + j - n)%nat with (i * n + j)%nat by lia.
      apply IH; assumption.
Qed.

Lemma frame_bytes_lookup self layer (w h x y c : nat) :
  (x < w)%nat -> (y < h)%nat -> (c < 4)%nat ->
  frame_bytes self layer w 0 h !! ((y * w + x) * 4 + c)%nat =
    masked_bytes layer (resonance_value self layer (Z.of_nat x) (Z.of_nat y)) !! c.
Proof.
  intros Hx Hy Hc. unfold frame_bytes.
  replace ((y * w + x) * 4 + c)%nat with (y * (4 * w) + (x * 4 + c))%nat by lia.
  rewrite (lookup_bind_chunks _ (4 * w) _ (fun a => length_row_bytes self layer a 0 w)
             y (x * 4 + c)%nat (Z.of_nat y));
    [|rewrite lookup_seqZ_lt by lia; f_equal; lia | lia].
  unfold row_bytes.
  rewrite (lookup_bind_chunks
             (fun x0 => masked_bytes layer
                          (resonance_value self layer x0 (Z.of_nat y)))
             4 _ (fun a => eq_refl) x c (Z.of_nat x));
    [reflexivity | rewrite lookup_seqZ_lt by lia; f_equal; lia | exact Hc].
Qed.

Lemma resonance_value_pos self layer x y : 0 < resonance_value self layer x y.
Proof.
  unfold resonance_value.
  pose proof (SIN_bound (2 * PI * IZR (x + y) / (1 / alpha self))) as Hs.
  pose proof (SIN_bound (2 * PI * IZR layer / IZR (layers self))) as Ht.
  pose proof (layer_energy_pos (alpha self) layer) as He.
  generalize dependent (sin (2 * PI * IZR (x + y) / (1 / alpha self))).
  generalize dependent (sin (2 * PI * IZR layer / IZR (layers self))).
  generalize dependent (layer_energy (alpha self) layer).
  intros e He t Ht s Hs.
  pose proof (modulation_bounds s t Hs Ht) as Hm.
  rewrite Rmult_assoc. nra.
Qed.

(** The pixel (149, 0) of layer 0: its resonance is just above 1, so the
    green intermediate 255*sin(r*pi) lies strictly between -1 and 0. *)
Lemma module_pixel_149_green :
  -1 < 255 * sin (resonance_value module_resonance 0 149 0 * PI) < 0.
Proof.
  pose proof PI_RGT_0 as Hpi. pose proof PI_4 as Hpi4.
  unfold resonance_value, layer_energy. cbn [alpha layers module_resonance].
  change (149 + 0)%Z with 149%Z.
  replace (- (302011 / 10000000) * 0) with 0 by lra.
  replace (2 * PI * 0 / 33) with 0 by lra.
  rewrite exp_0, sin_0.
  set (d := PI * (722 / 10000000)).
  assert (Hd : 0 < d < PI) by (unfold d; nra).
  replace (2 * PI * 149 / (1 / (302011 / 10000000)))
    with (PI - d + 2 * INR 4 * PI) by (unfold d; simpl INR; field).
  rewrite sin_period, sin_PI_x.
  pose proof (sin_gt_0 d (proj1 Hd) (proj2 Hd)) as Hs0.
  pose proof (sin_lt_x d (proj1 Hd)) as Hs1.
  set (s := sin d) in *.
  replace (1 * (1 + 0.3 * s) * (1 + 0.2 * 0) * PI)
    with (0.3 * s * PI + PI) by lra.
  rewrite neg_sin.
  assert (Hx : 0 < 0.3 * s * PI < PI) by (unfold d in *; nra).
  pose proof (sin_gt_0 _ (proj1 Hx) (proj2 Hx)) as Ht0.
  pose proof (sin_lt_x _ (proj1 Hx)) as Ht1.
  set (t := sin (0.3 * s * PI)) in *.
  assert (0.3 * s * PI < 0.0004) by (unfold d in *; nra).
  lra.
Qed.

(** C3, as stated, fails: in layer 0 of the 640 x 480 frame of the
    constructed generator, the green byte of pixel (149, 0) is 170 in the
    buffer, while floor(255*sin(r*pi)) mod 256, masked with 0xAA, is 85. *)
Lemma green_byte_not_floor :
  exists r buffer,
    calculate_visual_resonance module_resonance 0 149 0 = Ok r
    /\ create_resonant_pixel_buffer module_resonance 0 640 480 = Ok buffer
    /\ buffer !! Z.to_nat ((0 * 640 + 149) * 4 + 1) = Some 170%Z
    /\ Z.lxor (Zfloor (255 * sin (r * PI)) mod 256) 170 = 85%Z.
Proof.
  assert (Ha : alpha module_resonance <> 0) by (simpl; lra).
  assert (Hl : layers module_resonance <> 0%Z) by (simpl; lia).
  exists (resonance_value module_resonance 0 149 0), (frame_bytes module_resonance 0 640 0 480).
  pose proof module_pixel_149_green as Hg.
  split; [apply calculate_visual_resonance_value; assumption|].
  split; [apply (create_resonant_pixel_buffer_eq module_resonance 0 Ha Hl 640 480)|].
  split.
  - change (Z.to_nat ((0 * 640 + 149) * 4 + 1)) with ((0 * 640 + 149) * 4 + 1)%nat.
    rewrite (frame_bytes_lookup module_resonance 0 640 480 149 0 1) by lia.
    change (Z.of_nat 149) with 149%Z. change (Z.of_nat 0) with 0%Z.
    cbn [masked_bytes lookup list_lookup]. unfold green_of.
    rewrite py_int_neg by lra.
    rewrite (Zceil_eq 0) by (simpl; lra). reflexivity.
  - rewrite (Zfloor_eq (-1)) by (simpl; lra). reflexivity.
Qed.

(** C3, amended. With a non-zero decay coefficient and a non-zero number
    of layers (the divisors of lines 56 and 60), the buffer of a layer
    holds for pixel (x, y), at offset (y*width + x)*4: red =
    floor(255*r) mod 256, green = trunc(255*sin(r*pi)) mod 256 and blue =
    trunc(255*cos(r*pi)) mod 256, where r is the pixel's resonance, trunc
    rounds toward zero ([py_int]) and mod is the floored remainder of the
    rounded integer; each of the three is XORed with 0xAA when the layer is
    even and with 0x55 when it is odd; the alpha byte is 255, unmasked. *)
Theorem pixel_bytes_truncated (self : SCTT_VisualResonance)
    (layer width height x y : Z) :
  alpha self <> 0 -> layers self <> 0%Z ->
  (0 <= x < width)%Z -> (0 <= y < height)%Z ->
  exists r buffer,
    calculate_visual_resonance self layer x y = Ok r
    /\ create_resonant_pixel_buffer self layer width height = Ok buffer
    /\ length buffer = Z.to_nat (width * height * 4)
    /\ buffer !! Z.to_nat ((y * width + x) * 4) =
         Some (Z.lxor (Zfloor (255 * r) mod 256)
                 (if Z.even layer then 170 else 85))%Z
    /\ buffer !! Z.to_nat ((y * width + x) * 4 + 1) =
         Some (Z.lxor (py_int (255 * sin (r * PI)) mod 256)
                 (if Z.even layer then 170 else 85))%Z
    /\ buffer !! Z.to_nat ((y * width + x) * 4 + 2) =
         Some (Z.lxor (py_int (255 * cos (r * PI)) mod 256)
                 (if Z.even layer then 170 else 85))%Z
    /\ buffer !! Z.to_nat ((y * width + x) * 4 + 3) = Some 255%Z.
Proof.
  intros Ha Hl Hx Hy.
  exists (resonance_value self layer x y),
         (frame_bytes self layer (Z.to_nat width) 0 (Z.to_nat height)).
  split; [apply calculate_visual_resonance_value; assumption|].
  split.
  { rewrite <- (create_resonant_pixel_buffer_eq self layer Ha Hl).
    rewrite !Z2Nat.id by lia. reflexivity. }
  assert (Hlook : forall c : nat, (c < 4)%nat ->
    frame_bytes self layer (Z.to_nat width) 0 (Z.to_nat height)
      !! Z.to_nat ((y * width + x) * 4 + Z.of_nat c) =
    masked_bytes layer (resonance_value self layer x y) !! c).
  { intros c Hc.
    replace (Z.to_nat ((y * width + x) * 4 + Z.of_nat c))
      with ((Z.to_nat y * Z.to_nat width + Z.to_nat x) * 4 + c)%nat by nia.
    rewrite frame_bytes_lookup by lia.
    rewrite !Z2Nat.id by lia. reflexivity. }
  split.
  { unfold frame_bytes.
    assert (Hgen : forall (h : nat) y0,
      length (seqZ y0 (Z.of_nat h) ≫=
                fun y1 => row_bytes self layer y1 0 (Z.to_nat width))
      = (4 * Z.to_nat width * h)%nat).
    { induction h as [|h IH]; intros y0; [rewrite Nat.mul_0_r; reflexivity|].
      rewrite seqZ_cons by lia.
      replace (Z.pred (Z.of_nat (S h))) with (Z.of_nat h) by lia.
      rewrite bind_cons, length_app, length_row_bytes, IH. lia. }
    rewrite Hgen, !Z2Nat.inj_mul by nia. change (Z.to_nat 4) with 4%nat. lia. }
  pose proof (Hlook 0%nat ltac:(lia)) as H0.
  pose proof (Hlook 1%nat ltac:(lia)) as H1.
  pose proof (Hlook 2%nat ltac:(lia)) as H2.
  pose proof (Hlook 3%nat ltac:(lia)) as H3.
  rewrite Z.add_0_r in H0.
  change (Z.of_nat 1) with 1%Z in H1. change (Z.of_nat 2) with 2%Z in H2.
  change (Z.of_nat 3) with 3%Z in H3.
  rewrite H0, H1, H2, H3. cbn [masked_bytes lookup list_lookup].
  unfold red_of, green_of, blue_of.
  rewrite !land_255, pattern_of_even.
  rewrite py_int_nonneg.
  - repeat split; reflexivity.
  - pose proof (resonance_value_pos self layer x y). lra.
Qed.

Lemma pixel_bytes_truncated_witness :
  exists r buffer,
    calculate_visual_resonance module_resonance 3 2 1 = Ok r
    /\ create_resonant_pixel_buffer module_resonance 3 4 2 = Ok buffer
    /\ length buffer = Z.to_nat (4 * 2 * 4)
    /\ buffer !! Z.to_nat ((1 * 4 + 2) * 4) =
         Some (Z.lxor (Zfloor (255 * r) mod 256)
                 (if Z.even 3 then 170 else 85))%Z
    /\ buffer !! Z.to_nat ((1 * 4 + 2) * 4 + 1) =
         Some (Z.lxor (py_int (255 * sin (r * PI)) mod 256)
                 (if Z.even 3 then 170 else 85))%Z
    /\ buffer !! Z.to_nat ((1 * 4 + 2) * 4 + 2) =
         Some (Z.lxor (py_int (255 * cos (r * PI)) mod 256)
                 (if Z.even 3 then 170 else 85))%Z
    /\ buffer !! Z.to_nat ((1 * 4 + 2) * 4 + 3) = Some 255%Z.
Proof.
  apply (pixel_bytes_truncated module_resonance 3 4 2 2 1);
    [simpl; lra | simpl; lia | lia | lia].
Defined.

(** * The cascade driver *)

#[local] Arguments layer_energy : simpl never.
#[local] Arguments create_resonant_pixel_buffer : simpl never.
#[local] Arguments prime_resonance_timing : simpl never.

Ltac run_monad :=
  unfold mbind, M_bind, try_except, lift, call, emit, update, set_hbitmap,
    set_hwnd, set_hdc, add_total_cascade_energy, when, mret, M_ret, get_self,
    _execute_singularity_payload;
  cbn.

Ltac elem_solve :=
  apply list_elem_of_In; cbn; repeat first [left; reflexivity | right].

Ltac split_trace H :=
  match type of H with
  | _ = ?pre ++ _ =>
      repeat (destruct pre as [|? pre]; cbn in H;
              [first [discriminate H | injection H; intros; subst]
              | first [discriminate H | injection H as ? H; try subst]])
  end.

Ltac fact :=
  cbn;
  first
    [ reflexivity
    | apply length_insert
    | discriminate
    | lia
    | solve [intros; congruence]
    | solve [left; repeat split; reflexivity]
    | solve [right; repeat split; first [reflexivity | lia]]
    | solve [left; split; [reflexivity | elem_solve]]
    | solve [right; split; [reflexivity | elem_solve]]
    | solve [intros; try discriminate; try congruence;
             repeat split; try eexists; elem_solve]
    | solve [let H := fresh in
             intros ? ? H; apply list_elem_of_In in H; cbn in H;
             intuition (try discriminate; try congruence)]
    | solve [let H := fresh in intros [H|H]; congruence]
    | solve [unfold step_must_fail; cbn;
             intros [[? ?]|[?|?]];
             first [congruence | split; [reflexivity | elem_solve]]]
    | solve [unfold step_must_fail; cbn;
             intros [[? ?]|[?|?]] ?;
             first [congruence | elem_solve
                   | match goal with
                     | E : truthy ?x = false, H : context [truthy ?x] |- _ =>
                         rewrite E in H; cbn in H; rewrite ?andb_false_r in H;
                         discriminate H
                     end]]
    | solve [let H := fresh in
             intros ? ? ? ? H; split_trace H; try eexists; elem_solve]
    | solve [let H := fresh in
             intros ? ? ? H; split_trace H;
             repeat split;
             first [assumption | reflexivity | discriminate
                   | eexists; elem_solve | elem_solve]]
    | solve [intros;
             match goal with
             | E : truthy ?x = false, H : context [truthy ?x] |- _ =>
                 rewrite E in H; cbn in H; rewrite ?andb_false_r in H;
                 discriminate H
             end]
    | idtac ].

Ltac leaf :=
  do 3 eexists; split; [reflexivity|];
  constructor;
    [ cbn; rewrite <- ?app_assoc; reflexivity | .. ];
  fact.

(** The cases of the loop body: the handles, the buffer, each call of the
    sink, the final-layer test and the payload. *)
Ltac layer_cases g lw layer m payload :=
  destruct (truthy (hwnd (vortex m))) eqn:?;
  destruct (truthy (hdc (vortex m))) eqn:?;
  destruct (dwm_flush lw) eqn:?;
  destruct (create_dib_section lw) as [hb|] eqn:?;
  run_monad; try leaf;
  match goal with
  | |- context [create_resonant_pixel_buffer ?r ?l ?w ?h] =>
      destruct (create_resonant_pixel_buffer r l w h) eqn:?
  end;
  match goal with
  | |- context [Rlt_dec 0 ?d] => destruct (Rlt_dec 0 d)
  end;
  run_monad; try leaf;
  destruct (hb =? 0)%Z; run_monad; try leaf;
  try (destruct (get_object lw) as [ptr|]; run_monad; try leaf;
       destruct (ptr =? 0)%Z; run_monad; try leaf;
       try (destruct (from_address lw); run_monad; try leaf;
            unfold set_layer_energy; cbn;
            replace (layer <? 0)%Z with false by (symmetry; apply Z.ltb_ge; lia);
            cbn;
            replace (layer <? 0)%Z with false by (symmetry; apply Z.ltb_ge; lia);
            cbn [orb];
            destruct (Z.leb_spec
                        (Z.of_nat (length (layer_energies (vortex m)))) layer);
            run_monad; try leaf;
            destruct (bit_blt lw); run_monad; try leaf)).

Lemma cascade_layer_facts g w payload layer s m :
  timing_total (resonance (vortex m)) -> (0 <= layer)%Z ->
  exists s' m' evs,
    cascade_layer g w payload layer s m = (Ok s', m')
    /\ layer_facts g (layer_world w layer) payload layer m m' s s' evs.
Proof.
  intros Htime Hlayer.
  destruct (Htime (sink_clock (layer_world w layer)) layer) as [d1 Hd1].
  destruct (Htime (driver_clock (layer_world w layer)) layer) as [d2 Hd2].
  unfold cascade_layer, induce_frame_buffer_resonance.
  unfold mbind, M_bind, try_except, lift, emit, get_self. cbn.
  rewrite Hd1, Hd2.
  generalize dependent (layer_world w layer). intros lw Hd1 Hd2.
  destruct (Z.eqb_spec layer 32) as [E32|E32];
    destruct payload as [[|byte p]|].
  all: layer_cases g lw layer m payload.
Qed.

(** ** Traces *)

Lemma recorded_app t u : recorded (t ++ u) = recorded t ++ recorded u.
Proof. apply omap_app. Qed.

Lemma attempted_app t u : attempted (t ++ u) = attempted t ++ attempted u.
Proof. apply omap_app. Qed.

Lemma payloads_app t u : payloads (t ++ u) = payloads t ++ payloads u.
Proof. apply omap_app. Qed.

Lemma elem_of_recorded t l : l ∈ recorded t <-> exists e, EnergyRecorded l e ∈ t.
Proof.
  unfold recorded. rewrite list_elem_of_omap. split.
  - intros ([] & Hin & Heq); try discriminate.
    injection Heq as ->. eauto.
  - intros [e He]. exists (EnergyRecorded l e). auto.
Qed.

Lemma elem_of_payloads t p : p ∈ payloads t <-> Payload p ∈ t.
Proof.
  unfold payloads. rewrite list_elem_of_omap. split.
  - intros ([] & Hin & Heq); try discriminate.
    injection Heq as ->. exact Hin.
  - intros He. exists (Payload p). auto.
Qed.

(** An occurrence in [t ++ u] lies in [t] or in [u]. *)
Lemma app_eq_split {A} (t u pre post : list A) x :
  t ++ u = pre ++ x :: post ->
  (exists post0, t = pre ++ x :: post0 /\ post = post0 ++ u)
  \/ (exists pre1, pre = t ++ pre1 /\ u = pre1 ++ x :: post).
Proof.
  revert pre. induction t as [|a t IH]; intros pre H.
  - right. exists pre. auto.
  - destruct pre as [|b pre]; cbn in H; injection H as -> H.
    + left. exists t. subst. auto.
    + destruct (IH _ H) as [(post0 & -> & ->)|(pre1 & -> & ->)].
      * left. eauto.
      * right. eauto.
Qed.

Lemma Rsum_app l k : Rsum (l ++ k) = Rsum l + Rsum k.
Proof.
  unfold Rsum. induction l as [|x l IH]; cbn; [lra|]. rewrite IH. lra.
Qed.

(** The running total of a run that recorded every layer is the cascade
    sum. *)
Lemma cascade_sum_Rsum a (n : nat) :
  cascade_sum a (Z.of_nat n) =
    Rsum (layer_energy a <$> seqZ 0 (Z.of_nat n)).
Proof.
  induction n as [|n IH]; [reflexivity|].
  rewrite cascade_sum_succ, IH, seqZ_S, fmap_app, Rsum_app, Z.add_0_l.
  change (Rsum (layer_energy a <$> [Z.of_nat n]))
    with (layer_energy a (Z.of_nat n) + 0).
  lra.
Qed.

(** Overwriting a zero entry adds the new value to the sum. *)
Lemma Rsum_insert_zero l i e :
  l !! i = Some 0 -> Rsum (<[i := e]> l) = Rsum l + e.
Proof.
  revert i. induction l as [|x l IH]; intros [|i] H; try discriminate.
  - injection H as ->. cbn. lra.
  - change (x + Rsum (<[i := e]> l) = x + Rsum l + e).
    rewrite (IH i H). lra.
Qed.

(** ** The loop *)

(** A loop rule: a property of the layer to process, the counter and the
    machine that every pass through the body preserves holds after the
    loop, and the loop returns. *)
Lemma cascade_rule g w payload (I : Z -> Z -> Machine -> Prop) :
  (forall a s m s' m' evs,
     (0 <= a)%Z -> I a s m ->
     layer_facts g (layer_world w a) payload a m m' s s' evs ->
     I (a + 1)%Z s' m') ->
  forall (n : nat) a s m,
    (0 <= a)%Z -> timing_total (resonance (vortex m)) -> I a s m ->
    exists s' m',
      for_each_M (seqZ a (Z.of_nat n)) (cascade_layer g w payload) s m
        = (Ok s', m')
      /\ I (a + Z.of_nat n)%Z s' m'
      /\ resonance (vortex m') = resonance (vortex m).
Proof.
  intros Hstep. induction n as [|n IH]; intros a s m Ha Htime HI.
  - exists s, m. rewrite Z.add_0_r. auto.
  - rewrite seqZ_cons by lia.
    replace (Z.pred (Z.of_nat (S n))) with (Z.of_nat n) by lia.
    destruct (cascade_layer_facts g w payload a s m Htime Ha)
      as (s1 & m1 & evs & Hrun & Hfacts).
    destruct (IH (Z.succ a) s1 m1) as (s2 & m2 & Hloop & HI2 & Hres).
    + lia.
    + rewrite (lf_resonance _ _ _ _ _ _ _ _ _ Hfacts). exact Htime.
    + apply (Hstep a s m s1 m1 evs Ha HI Hfacts).
    + exists s2, m2. split; [|split].
      * cbn [for_each_M]. unfold mbind, M_bind. rewrite Hrun. exact Hloop.
      * replace (a + Z.of_nat (S n))%Z with (Z.succ a + Z.of_nat n)%Z by lia.
        exact HI2.
      * rewrite Hres. apply (lf_resonance _ _ _ _ _ _ _ _ _ Hfacts).
Qed.

(** ** The statistics *)

Lemma stats_invariant_step g lw payload a m m' s s' evs :
  (0 <= a)%Z ->
  stats_invariant g m /\ (forall l, l ∈ recorded (stdout m) -> (l < a)%Z) ->
  layer_facts g lw payload a m m' s s' evs ->
  stats_invariant g m'
  /\ (forall l, l ∈ recorded (stdout m') -> (l < a + 1)%Z).
Proof.
  intros Ha [Hinv Hbound] F.
  pose proof (lf_stdout _ _ _ _ _ _ _ _ _ F) as Hout.
  assert (Hrec : recorded (stdout m') = recorded (stdout m) ++ recorded evs).
  { rewrite Hout, recorded_app. reflexivity. }
  assert (Hen : forall l e, EnergyRecorded l e ∈ stdout m' ->
            e = layer_energy (SCTT_ALPHA g) l).
  { intros l e. rewrite Hout, elem_of_app, elem_of_cons.
    intros [H|[H|H]].
    - apply (si_energy _ _ Hinv _ _ H).
    - discriminate.
    - destruct (lf_energy _ _ _ _ _ _ _ _ _ F _ _ H) as [-> ->]. reflexivity. }
  assert (Hord : forall pre l e post,
            stdout m' = pre ++ EnergyRecorded l e :: post ->
            exists n, BufferCreated l n ∈ pre).
  { intros pre l e post Heq. rewrite Hout in Heq.
    destruct (app_eq_split _ _ _ _ _ Heq)
      as [(post0 & Ht & _)|(pre1 & -> & Hu)].
    - apply (si_order _ _ Hinv _ _ _ _ Ht).
    - destruct pre1 as [|h pre1]; [discriminate|]. injection Hu as <- Hu.
      assert (Hin : EnergyRecorded l e ∈ evs).
      { rewrite Hu, elem_of_app, elem_of_cons. auto. }
      destruct (lf_energy _ _ _ _ _ _ _ _ _ F _ _ Hin) as [-> _].
      destruct (lf_order _ _ _ _ _ _ _ _ _ F _ _ _ _ Hu) as [n Hn].
      exists n. rewrite elem_of_app, elem_of_cons. auto. }
  destruct (lf_stats _ _ _ _ _ _ _ _ _ F)
    as [(Hr & He & Ht)|(Hr & Hlt & He & Ht)].
  - rewrite Hr, app_nil_r in Hrec. split.
    + split; rewrite ?Hrec, ?He, ?Ht; try apply Hinv; assumption.
    + intros l. rewrite Hrec. intros H. specialize (Hbound l H). lia.
  - assert (Hfresh : a ∉ recorded (stdout m)).
    { intros H. specialize (Hbound a H). lia. }
    assert (Hzero : layer_energies (vortex m) !! Z.to_nat a = Some 0).
    { apply (si_unwritten _ _ Hinv).
      - rewrite Z2Nat.id by lia. exact Hfresh.
      - rewrite <- (si_length _ _ Hinv). exact Hlt. }
    rewrite Hr in Hrec. split.
    + split.
      * rewrite He, length_insert. apply Hinv.
      * rewrite Hrec. apply NoDup_app. split; [apply Hinv|]. split.
        -- intros x Hx Hx'. apply list_elem_of_singleton in Hx'. subst x.
           contradiction.
        -- apply NoDup_singleton.
      * intros l. rewrite Hrec, elem_of_app, list_elem_of_singleton.
        intros [H| ->]; [apply (si_range _ _ Hinv _ H)|].
        rewrite (si_length _ _ Hinv) in Hlt. lia.
      * intros l. rewrite Hrec, elem_of_app, list_elem_of_singleton, He.
        intros [H| ->].
        -- rewrite list_lookup_insert_ne.
           ++ apply (si_written _ _ Hinv _ H).
           ++ pose proof (si_range _ _ Hinv _ H). specialize (Hbound l H). lia.
        -- apply list_lookup_insert_eq. exact Hlt.
      * intros i Hi Hlen. rewrite He, list_lookup_insert_ne.
        -- apply (si_unwritten _ _ Hinv); [|exact Hlen].
           intros H. apply Hi. rewrite Hrec, elem_of_app. auto.
        -- intros <-. apply Hi.
           rewrite Hrec, elem_of_app, list_elem_of_singleton, Z2Nat.id by lia.
           auto.
      * rewrite Ht, He, (Rsum_insert_zero _ _ _ Hzero), <- (si_total _ _ Hinv).
        reflexivity.
      * rewrite Ht, Hrec, fmap_app, Rsum_app, <- (si_total_written _ _ Hinv).
        cbn. lra.
      * exact Hen.
      * exact Hord.
    + intros l. rewrite Hrec, elem_of_app, list_elem_of_singleton.
      intros [H| ->]; [specialize (Hbound l H)|]; lia.
Qed.

Lemma recorded_nil_not_in t l e : recorded t = [] -> EnergyRecorded l e ∉ t.
Proof.
  intros Hnil Hin.
  assert (H : l ∈ recorded t) by (apply elem_of_recorded; eauto).
  rewrite Hnil in H. inversion H.
Qed.

(** Printing anything but a statistics record keeps the invariant. *)
Lemma stats_invariant_ext g m m' u :
  stats_invariant g m ->
  stdout m' = stdout m ++ u -> recorded u = [] ->
  layer_energies (vortex m') = layer_energies (vortex m) ->
  total_cascade_energy (vortex m') = total_cascade_energy (vortex m) ->
  stats_invariant g m'.
Proof.
  intros Hinv Hout Hu He Ht.
  assert (Hrec : recorded (stdout m') = recorded (stdout m)).
  { rewrite Hout, recorded_app, Hu, app_nil_r. reflexivity. }
  split; rewrite ?Hrec, ?He, ?Ht; try apply Hinv.
  - intros l e. rewrite Hout, elem_of_app. intros [H|H].
    + apply (si_energy _ _ Hinv _ _ H).
    + destruct (recorded_nil_not_in _ _ _ Hu H).
  - intros pre l e post Heq. rewrite Hout in Heq.
    destruct (app_eq_split _ _ _ _ _ Heq)
      as [(post0 & Hm & _)|(pre1 & _ & Hin)].
    + apply (si_order _ _ Hinv _ _ _ _ Hm).
    + exfalso. apply (recorded_nil_not_in u l e Hu).
      rewrite Hin, elem_of_app, elem_of_cons. auto.
Qed.

(** Before anything is recorded, the invariant holds of zeroed statistics. *)
Lemma stats_invariant_fresh g m :
  layer_energies (vortex m) = replicate (Z.to_nat (SCTT_LAYERS g)) 0 ->
  total_cascade_energy (vortex m) = 0 ->
  recorded (stdout m) = [] ->
  stats_invariant g m.
Proof.
  intros He Ht Hr.
  assert (Hsum : forall n, Rsum (replicate n 0) = 0).
  { induction n as [|n IH]; cbn; [reflexivity|].
    change (0 + Rsum (replicate n 0) = 0). rewrite IH. lra. }
  split; rewrite ?Hr, ?He, ?Ht.
  - apply length_replicate.
  - constructor.
  - intros l H. inversion H.
  - intros l H. inversion H.
  - intros i _ Hi. apply lookup_replicate_2. exact Hi.
  - symmetry. apply Hsum.
  - reflexivity.
  - intros l e H. destruct (recorded_nil_not_in _ _ _ Hr H).
  - intros pre l e post Heq. exfalso.
    apply (recorded_nil_not_in (stdout m) l e Hr).
    rewrite Heq, elem_of_app, elem_of_cons. auto.
Qed.

(** What the first two phases do to a new object. *)
Lemma open_window_facts w v :
  exists b m1,
    open_window w (fresh v) = (Ok b, m1)
    /\ resonance (vortex m1) = resonance v
    /\ layer_energies (vortex m1) = layer_energies v
    /\ total_cascade_energy (vortex m1) = total_cascade_energy v
    /\ recorded (stdout m1) = []
    /\ attempted (stdout m1) = []
    /\ payloads (stdout m1) = []
    /\ (b = true ->
        truthy (hwnd (vortex m1)) = true
        /\ exists d, get_dc w = Returns d /\ hdc (vortex m1) = Some d).
Proof.
  unfold open_window, create_resonant_window. run_monad.
  destruct (register_class w); cbn;
    [|do 2 eexists; repeat split; discriminate].
  destruct (create_window_ex w) as [h|]; cbn;
    [|do 2 eexists; repeat split; discriminate].
  destruct (Z.eqb_spec h 0) as [->|Hh]; cbn;
    [do 2 eexists; repeat split; discriminate|].
  destruct (get_dc w) as [d|]; cbn;
    [|do 2 eexists; repeat split; discriminate].
  do 2 eexists. repeat split; cbn.
  - apply negb_true_iff, Z.eqb_neq, Hh.
  - eauto.
Qed.

(** What the last phase does. *)
Lemma summary_facts g s m :
  exists r m' u,
    summary g s m = (r, m')
    /\ vortex m' = vortex m
    /\ stdout m' = stdout m ++ u
    /\ recorded u = [] /\ attempted u = [] /\ payloads u = []
    /\ (SCTT_LAYERS g <> 0%Z -> r = Ok (0 <? s)%Z).
Proof.
  unfold summary. run_monad.
  destruct (Z.eqb_spec (SCTT_LAYERS g) 0) as [E|E]; cbn.
  - do 3 eexists. split; [reflexivity|]. cbn.
    repeat split; try reflexivity. intros H. contradiction.
  - destruct (truthy (hdc (vortex m))), (truthy (hwnd (vortex m))); cbn;
      do 3 eexists;
      (split; [reflexivity|]); (split; [reflexivity|]);
      (split; [cbn; rewrite <- ?app_assoc; reflexivity|]);
      repeat split; reflexivity.
Qed.

Lemma take_range k n :
  take k (range n) = seqZ 0 (Z.of_nat (Nat.min k (Z.to_nat n))).
Proof.
  unfold range, seqZ. rewrite <- fmap_take, take_seq, Nat2Z.id. reflexivity.
Qed.

Lemma range_nat n : range n = seqZ 0 (Z.of_nat (Z.to_nat n)).
Proof. unfold range, seqZ. rewrite Nat2Z.id. reflexivity. Qed.

Lemma init_vortex g v :
  SCTT_DWM_Vortex_init g = Ok v ->
  SCTT_VisualResonance_init g = Ok (resonance v)
  /\ layer_energies v = replicate (Z.to_nat (SCTT_LAYERS g)) 0
  /\ total_cascade_energy v = 0.
Proof. intros H. injection H as <-. auto. Qed.

(** The statistics invariant holds however far the loop has got. *)
Lemma cascade_stats g w payload v m1 (n : nat) :
  SCTT_DWM_Vortex_init g = Ok v ->
  resonance (vortex m1) = resonance v ->
  stats_invariant g m1 -> recorded (stdout m1) = [] ->
  exists s m2,
    cascade g w payload (seqZ 0 (Z.of_nat n)) m1 = (Ok s, m2)
    /\ stats_invariant g m2.
Proof.
  intros Hinit Hres Hinv Hrec.
  destruct (init_vortex g v Hinit) as (Hri & _ & _).
  destruct (cascade_rule g w payload
              (fun a _ m => stats_invariant g m
                            /\ forall l, l ∈ recorded (stdout m) -> (l < a)%Z))
    with (n := n) (a := 0%Z) (s := 0%Z) (m := m1)
    as (s & m2 & Hrun & [Hinv2 _] & _).
  - intros a s m s' m' evs Ha HI F.
    apply (stats_invariant_step g _ payload a m m' s s' evs Ha HI F).
  - lia.
  - rewrite Hres. apply (timing_total_init g), Hri.
  - split; [exact Hinv|]. rewrite Hrec. intros l H. inversion H.
  - exists s, m2. split; [exact Hrun | exact Hinv2].
Qed.

(** The invariant holds when any number of layers has been processed and
    when the run has ended. *)
Lemma run_stats g w payload v k :
  SCTT_DWM_Vortex_init g = Ok v ->
  stats_invariant g (machine_after_layers g w payload v k)
  /\ stats_invariant g (machine_at_end g w payload v).
Proof.
  intros Hinit.
  destruct (init_vortex g v Hinit) as (Hri & He & Ht).
  destruct (open_window_facts w v)
    as (b & m1 & Hopen & Hres & He1 & Ht1 & Hr1 & _ & _ & _).
  assert (Hinv1 : stats_invariant g m1).
  { apply stats_invariant_fresh; congruence. }
  split.
  - unfold machine_after_layers. rewrite Hopen. destruct b; [|exact Hinv1].
    rewrite take_range.
    destruct (cascade_stats g w payload v m1
                (Nat.min k (Z.to_nat (SCTT_LAYERS g))) Hinit Hres Hinv1 Hr1)
      as (s & m2 & -> & Hinv2).
    exact Hinv2.
  - unfold machine_at_end, execute_visual_singularity.
    unfold mbind, M_bind. rewrite Hopen. destruct b; cbn [negb]; [|exact Hinv1].
    rewrite range_nat.
    destruct (cascade_stats g w payload v m1
                (Z.to_nat (SCTT_LAYERS g)) Hinit Hres Hinv1 Hr1)
      as (s & m2 & -> & Hinv2).
    destruct (summary_facts g s m2)
      as (r & m3 & u & -> & Hv & Hout & Hru & _).
    cbn [snd]. apply (stats_invariant_ext g m2 m3 u Hinv2 Hout Hru);
      rewrite Hv; reflexivity.
Qed.



(** ** Progress of the loop *)

Lemma for_each_M_app {A S} (l1 l2 : list A) (body : A -> S -> M S) s m :
  for_each_M (l1 ++ l2) body s m =
    match for_each_M l1 body s m with
    | (Ok s1, m1) => for_each_M l2 body s1 m1
    | (Raise e, m1) => (Raise e, m1)
    end.
Proof.
  revert s m. induction l1 as [|a l1 IH]; intros s m; [reflexivity|].
  cbn [app for_each_M]. unfold mbind, M_bind.
  destruct (body a s m) as [[s1|e] m1]; [apply IH | reflexivity].
Qed.

Lemma payloads_nil_not_in t p : payloads t = [] -> Payload p ∉ t.
Proof.
  intros Hnil Hin. apply elem_of_payloads in Hin.
  rewrite Hnil in Hin. inversion Hin.
Qed.

Lemma progress_invariant_step g w payload m1 a m m' s s' evs :
  (0 <= a)%Z ->
  progress_invariant w m1 a m ->
  layer_facts g (layer_world w a) payload a m m' s s' evs ->
  progress_invariant w m1 (a + 1) m'.
Proof.
  intros Ha P F.
  pose proof (lf_stdout _ _ _ _ _ _ _ _ _ F) as Hout.
  assert (Hin : forall e, e ∈ stdout m \/ e ∈ evs -> e ∈ stdout m').
  { intros e. rewrite Hout, elem_of_app, elem_of_cons. tauto. }
  assert (Hstatus :
    PrintStatus a true ∈ evs \/ PrintStatus a false ∈ evs).
  { destruct (lf_count _ _ _ _ _ _ _ _ _ F) as [[_ H]|[_ H]]; auto. }
  split.
  - rewrite Hout, attempted_app. cbn.
    change (omap _ evs) with (attempted evs).
    rewrite (lf_attempted _ _ _ _ _ _ _ _ _ F), (pi_attempted _ _ _ _ P).
    rewrite (seqZ_app 0 a 1) by lia. reflexivity.
  - rewrite (lf_hwnd _ _ _ _ _ _ _ _ _ F). apply P.
  - rewrite (lf_hdc _ _ _ _ _ _ _ _ _ F). apply P.
  - intros l Hl. destruct (Z.eq_dec l a) as [->|Hne].
    + destruct Hstatus; [left|right]; apply Hin; auto.
    + destruct (pi_status _ _ _ _ P l ltac:(lia)); [left|right]; apply Hin; auto.
  - rewrite (lf_resonance _ _ _ _ _ _ _ _ _ F). apply P.
  - intros l Hl Hthrow. apply Hin. destruct (Z.eq_dec l a) as [->|Hne].
    + right. apply (lf_failed _ _ _ _ _ _ _ _ _ F).
      rewrite (pi_resonance _ _ _ _ P). exact Hthrow.
    + left. apply (pi_failed _ _ _ _ P l ltac:(lia) Hthrow).
  - intros l Hl Hthrow Hhandles. apply Hin.
    destruct (Z.eq_dec l a) as [->|Hne].
    + right. apply (lf_logged _ _ _ _ _ _ _ _ _ F).
      * rewrite (pi_resonance _ _ _ _ P). exact Hthrow.
      * rewrite (pi_hwnd _ _ _ _ P), (pi_hdc _ _ _ _ P). exact Hhandles.
    + left. apply (pi_logged _ _ _ _ P l ltac:(lia) Hthrow Hhandles).
  - intros Hle. rewrite Hout, payloads_app. cbn.
    change (omap _ evs) with (payloads evs).
    rewrite (pi_payloads _ _ _ _ P) by lia.
    rewrite (lf_payload_none _ _ _ _ _ _ _ _ _ F) by (left; lia).
    reflexivity.
Qed.

Lemma cascade_progress g w payload v m1 (n : nat) :
  SCTT_DWM_Vortex_init g = Ok v ->
  resonance (vortex m1) = resonance v ->
  attempted (stdout m1) = [] -> payloads (stdout m1) = [] ->
  exists s m2,
    cascade g w payload (seqZ 0 (Z.of_nat n)) m1 = (Ok s, m2)
    /\ progress_invariant w m1 (Z.of_nat n) m2
    /\ resonance (vortex m2) = resonance v.
Proof.
  intros Hinit Hres Hatt Hpay.
  destruct (init_vortex g v Hinit) as (Hri & _ & _).
  destruct (cascade_rule g w payload
              (fun a _ m => progress_invariant w m1 a m))
    with (n := n) (a := 0%Z) (s := 0%Z) (m := m1)
    as (s & m2 & Hrun & HP & Hres2).
  - intros a s m s' m' evs Ha HI F.
    apply (progress_invariant_step g w payload m1 a m m' s s' evs Ha HI F).
  - lia.
  - rewrite Hres. apply (timing_total_init g), Hri.
  - split; auto; try (intros; lia). 
  - exists s, m2. split; [exact Hrun|]. split; [exact HP | congruence].
Qed.

(** The whole run of an object whose window opened: the loop returns, and
    the run ends in the summary. *)
Lemma run_progress g w payload v m1 :
  SCTT_DWM_Vortex_init g = Ok v ->
  open_window w (fresh v) = (Ok true, m1) ->
  exists s m2 r m3 u,
    cascade g w payload (range (SCTT_LAYERS g)) m1 = (Ok s, m2)
    /\ progress_invariant w m1 (Z.of_nat (Z.to_nat (SCTT_LAYERS g))) m2
    /\ execute_visual_singularity g w payload (fresh v) = (r, m3)
    /\ stdout m3 = stdout m2 ++ u
    /\ attempted u = [] /\ payloads u = []
    /\ (SCTT_LAYERS g <> 0%Z -> r = Ok (0 <? s)%Z).
Proof.
  intros Hinit Hopen.
  destruct (open_window_facts w v)
    as (b & m1' & Hopen' & Hres & _ & _ & _ & Hatt & Hpay & _).
  rewrite Hopen in Hopen'. injection Hopen' as <- <-.
  destruct (cascade_progress g w payload v m1 (Z.to_nat (SCTT_LAYERS g))
              Hinit Hres Hatt Hpay) as (s & m2 & Hrun & HP & _).
  destruct (summary_facts g s m2)
    as (r & m3 & u & Hsum & _ & Hout & _ & Hau & Hpu & Hr).
  exists s, m2, r, m3, u.
  rewrite range_nat. split; [exact Hrun|]. split; [exact HP|].
  split; [|auto].
  unfold execute_visual_singularity, mbind, M_bind.
  rewrite Hopen. cbn [negb]. rewrite range_nat, Hrun. exact Hsum.
Qed.

(** C6, as stated, fails: with the decay coefficient -1 the constructor
    returns an object instead of raising, and a run on it in a world where
    every call returns begins every one of the 33 layers and prints a
    status line for each. *)
Lemma invalid_alpha_not_rejected :
  SCTT_ALPHA {| SCTT_ALPHA := -1; SCTT_LAYERS := 33 |} <= 0
  /\ exists v,
       SCTT_DWM_Vortex_init {| SCTT_ALPHA := -1; SCTT_LAYERS := 33 |} = Ok v
       /\ attempted
            (stdout (machine_at_end {| SCTT_ALPHA := -1; SCTT_LAYERS := 33 |}
                       calm_world None v))
          = [0; 1; 2; 3; 4; 5; 6; 7; 8; 9; 10; 11; 12; 13; 14; 15; 16; 17;
             18; 19; 20; 21; 22; 23; 24; 25; 26; 27; 28; 29; 30; 31; 32]%Z
       /\ forall l, (0 <= l < 33)%Z ->
            PrintStatus l true
              ∈ stdout (machine_at_end {| SCTT_ALPHA := -1; SCTT_LAYERS := 33 |}
                          calm_world None v)
            \/ PrintStatus l false
                 ∈ stdout (machine_at_end
                             {| SCTT_ALPHA := -1; SCTT_LAYERS := 33 |}
                             calm_world None v).
Proof.
  split; [simpl; lra|]. eexists. split; [reflexivity|].
  set (g := {| SCTT_ALPHA := -1; SCTT_LAYERS := 33 |}).
  match goal with |- context [machine_at_end g calm_world None ?v0] =>
    set (v := v0) end.
  assert (Hinit : SCTT_DWM_Vortex_init g = Ok v) by reflexivity.
  destruct (run_progress g calm_world None v _ Hinit eq_refl)
    as (s & m2 & r & m3 & u & _ & HP & Hexec & Hout & Hau & _ & _).
  unfold machine_at_end. rewrite Hexec. cbn [snd]. split.
  - rewrite Hout, attempted_app, Hau, app_nil_r, (pi_attempted _ _ _ _ HP).
    reflexivity.
  - intros l Hl. rewrite Hout.
    destruct (pi_status _ _ _ _ HP l ltac:(simpl; lia));
      [left|right]; apply elem_of_app; auto.
Qed.

(** C6, amended. The constructor takes no configuration and checks none:
    whatever the module constants are, it returns an object, whose decay
    coefficient and layer count are those constants and whose alignment
    periods are the five built-in primes, hence not empty; the constants
    the module assigns are positive; and when L <= 0 a run begins no
    layer. *)
Theorem construction_never_raises (g : Globals) (w : World)
    (payload : option (list Z)) :
  exists v,
    SCTT_DWM_Vortex_init g = Ok v
    /\ alpha (resonance v) = SCTT_ALPHA g
    /\ layers (resonance v) = SCTT_LAYERS g
    /\ prime_windows (resonance v) = [10007; 10009; 10037; 10039; 10061]%Z
    /\ prime_windows (resonance v) <> []
    /\ length (layer_energies v) = Z.to_nat (SCTT_LAYERS g)
    /\ 0 < SCTT_ALPHA module_globals
    /\ (0 < SCTT_LAYERS module_globals)%Z
    /\ ((SCTT_LAYERS g <= 0)%Z ->
        attempted (stdout (machine_at_end g w payload v)) = []).
Proof.
  eexists. split; [reflexivity|]. cbn [resonance alpha layers prime_windows
                                       layer_energies].
  repeat split; try discriminate.
  - apply length_replicate.
  - simpl. lra.
  - intros HL.
    match goal with |- context [machine_at_end g w payload ?v0] =>
      set (v := v0) end.
    assert (Hinit : SCTT_DWM_Vortex_init g = Ok v) by reflexivity.
    destruct (open_window_facts w v)
      as (b & m1 & Hopen & _ & _ & _ & _ & Hatt & _ & _).
    unfold machine_at_end. destruct b.
    + destruct (run_progress g w payload v m1 Hinit Hopen)
        as (s & m2 & r & m3 & u & _ & HP & Hexec & Hout & Hau & _ & _).
      rewrite Hexec. cbn [snd].
      rewrite Hout, attempted_app, Hau, app_nil_r, (pi_attempted _ _ _ _ HP).
      apply seqZ_nil. lia.
    + unfold execute_visual_singularity, mbind, M_bind. rewrite Hopen.
      exact Hatt.
Qed.

Lemma construction_never_raises_witness :
  exists v,
    SCTT_DWM_Vortex_init {| SCTT_ALPHA := 1; SCTT_LAYERS := 0 |} = Ok v
    /\ attempted
         (stdout (machine_at_end {| SCTT_ALPHA := 1; SCTT_LAYERS := 0 |}
                    calm_world None v)) = [].
Proof.
  destruct (construction_never_raises {| SCTT_ALPHA := 1; SCTT_LAYERS := 0 |}
              calm_world None)
    as (v & Hinit & _ & _ & _ & _ & _ & _ & _ & Hnone).
  exists v. split; [exact Hinit|]. apply Hnone. simpl. lia.
Defined.


(** * Further properties of the scheduler *)

Lemma timing_index_in_range (l : list Z) layer :
  l <> [] ->
  exists prime, l !! Z.to_nat (layer mod Z.of_nat (length l)) = Some prime.
Proof.
  intros Hne. apply lookup_lt_is_Some.
  assert (0 < length l)%nat by (destruct l; [contradiction | cbn; lia]).
  pose proof (Z.mod_pos_bound layer (Z.of_nat (length l)) ltac:(lia)). lia.
Qed.

Lemma wait_reaches_multiple prime now :
  (0 < prime)%Z ->
  ((now + (prime - now mod prime) mod prime) mod prime = 0)%Z.
Proof.
  intros Hp. rewrite Zplus_mod_idemp_r.
  replace (now + (prime - now mod prime))%Z
    with (prime * (now / prime) + now mod prime - now mod prime + 1 * prime)%Z.
  - rewrite Z_mod_plus_full.
    replace (prime * (now / prime) + now mod prime - now mod prime)%Z
      with (now / prime * prime)%Z by lia.
    apply Z_mod_mult.
  - rewrite <- (Z_div_mod_eq_full now prime). lia.
Qed.

(** X1. When the period selected for a layer is positive, the scheduler
    returns a wait of fewer microseconds than the period, converted to
    seconds, after which the clock reading is a multiple of the period. *)
Theorem timing_reaches_next_window (self : SCTT_VisualResonance)
    (now layer prime : Z) :
  prime_windows self
    !! Z.to_nat (layer mod Z.of_nat (length (prime_windows self))) = Some prime ->
  (0 < prime)%Z ->
  exists wait_us : Z,
    prime_resonance_timing self now layer = Ok (IZR wait_us / 1000000)
    /\ (0 <= wait_us < prime)%Z
    /\ ((now + wait_us) mod prime = 0)%Z.
Proof.
  intros Hlook Hp.
  exists ((prime - now mod prime) mod prime)%Z. split; [|split].
  - unfold prime_resonance_timing.
    destruct (Z.eqb_spec (Z.of_nat (length (prime_windows self))) 0) as [E|_].
    + destruct (prime_windows self); [discriminate Hlook | discriminate E].
    + rewrite Hlook. destruct (Z.eqb_spec prime 0); [lia | reflexivity].
  - apply Z.mod_pos_bound, Hp.
  - apply wait_reaches_multiple, Hp.
Qed.

Lemma timing_reaches_next_window_witness :
  exists wait_us : Z,
    prime_resonance_timing module_resonance 123456789 7 = Ok (IZR wait_us / 1000000)
    /\ (0 <= wait_us < 10037)%Z
    /\ ((123456789 + wait_us) mod 10037 = 0)%Z.
Proof.
  apply (timing_reaches_next_window module_resonance 123456789 7 10037);
    [reflexivity | lia].
Defined.

(** X2. The scheduler never raises IndexError, whatever the periods and the
    layer; it raises ZeroDivisionError when the list of periods is empty;
    and when it raises, it is ZeroDivisionError, with the list empty or
    holding a zero. *)
Theorem timing_raises_only_on_zero (self : SCTT_VisualResonance) (now layer : Z) :
  prime_resonance_timing self now layer <> Raise IndexError
  /\ (prime_windows self = [] ->
      prime_resonance_timing self now layer = Raise ZeroDivisionError)
  /\ (forall e, prime_resonance_timing self now layer = Raise e ->
      e = ZeroDivisionError
      /\ (prime_windows self = [] \/ 0%Z ∈ prime_windows self)).
Proof.
  unfold prime_resonance_timing.
  destruct (prime_windows self) as [|p0 l] eqn:El.
  - cbn. split; [discriminate|]. split; [reflexivity|].
    intros e He. injection He as <-. auto.
  - destruct (Z.eqb_spec (Z.of_nat (length (p0 :: l))) 0) as [E|_];
      [discriminate E|].
    destruct (timing_index_in_range (p0 :: l) layer ltac:(discriminate))
      as [prime Hlook].
    rewrite Hlook. destruct (Z.eqb_spec prime 0) as [->|Hnz].
    + split; [discriminate|]. split; [discriminate|].
      intros e He. injection He as <-. split; [reflexivity|].
      right. apply list_elem_of_lookup. eauto.
    + split; [discriminate|]. split; discriminate.
Qed.

Lemma timing_raises_only_on_zero_witness :
  prime_resonance_timing (with_periods []) 5 3 = Raise ZeroDivisionError.
Proof.
  apply (timing_raises_only_on_zero (with_periods []) 5 3). reflexivity.
Defined.

(** X3. The periods rotate: a layer and the layer as many places further
    as there are periods get the same wait at the same clock reading. *)
Theorem timing_rotates (self : SCTT_VisualResonance) (now layer : Z) :
  prime_resonance_timing self now
    (layer + Z.of_nat (length (prime_windows self)))
  = prime_resonance_timing self now layer.
Proof.
  unfold prime_resonance_timing.
  replace ((layer + Z.of_nat (length (prime_windows self)))
             mod Z.of_nat (length (prime_windows self)))%Z
    with (layer mod Z.of_nat (length (prime_windows self)))%Z; [reflexivity|].
  rewrite <- (Z_mod_plus_full layer 1 (Z.of_nat (length (prime_windows self)))).
  f_equal. lia.
Qed.

(** * Further properties of the pixel buffer *)

Lemma masked_bytes_range layer r :
  Forall (fun b => (0 <= b < 256)%Z) (masked_bytes layer r).
Proof.
  unfold masked_bytes, red_of, green_of, blue_of.
  repeat constructor; try apply masked_byte; lia.
Qed.

Lemma Forall_bind_list {A B} (P : B -> Prop) (f : A -> list B) (l : list A) :
  (forall a, Forall P (f a)) -> Forall P (l ≫= f).
Proof.
  intros Hf. induction l as [|a l IH]; [constructor|].
  rewrite bind_cons. apply Forall_app. auto.
Qed.

Lemma length_frame_bytes self layer w y0 h :
  length (frame_bytes self layer w y0 h) = (4 * w * h)%nat.
Proof.
  unfold frame_bytes. revert y0. induction h as [|h IH]; intros y0.
  - rewrite Nat.mul_0_r. reflexivity.
  - rewrite seqZ_cons by lia.
    replace (Z.pred (Z.of_nat (S h))) with (Z.of_nat h) by lia.
    rewrite bind_cons, length_app, length_row_bytes, IH. lia.
Qed.

(** X4. With a non-zero decay coefficient, a non-zero layer count (the
    divisors of lines 56 and 60) and non-negative sizes, the buffer of a
    layer has 4 * width * height entries and every entry is a byte, in
    [0, 256). *)
Theorem pixel_buffer_is_bytes (self : SCTT_VisualResonance)
    (layer width height : Z) :
  alpha self <> 0 -> layers self <> 0%Z ->
  (0 <= width)%Z -> (0 <= height)%Z ->
  exists buffer,
    create_resonant_pixel_buffer self layer width height = Ok buffer
    /\ length buffer = Z.to_nat (4 * width * height)
    /\ Forall (fun b => (0 <= b < 256)%Z) buffer.
Proof.
  intros Ha Hl Hw Hh.
  exists (frame_bytes self layer (Z.to_nat width) 0 (Z.to_nat height)).
  split; [|split].
  - rewrite <- (create_resonant_pixel_buffer_eq self layer Ha Hl).
    rewrite !Z2Nat.id by lia. reflexivity.
  - rewrite length_frame_bytes, !Z2Nat.inj_mul by lia.
    change (Z.to_nat 4) with 4%nat. reflexivity.
  - unfold frame_bytes. apply Forall_bind_list. intros y.
    unfold row_bytes. apply Forall_bind_list. intros x.
    apply masked_bytes_range.
Qed.

Lemma pixel_buffer_is_bytes_witness :
  exists buffer,
    create_resonant_pixel_buffer module_resonance 4 640 480 = Ok buffer
    /\ length buffer = Z.to_nat (4 * 640 * 480)
    /\ Forall (fun b => (0 <= b < 256)%Z) buffer.
Proof.
  apply (pixel_buffer_is_bytes module_resonance 4 640 480);
    [simpl; lra | simpl; lia | lia | lia].
Defined.

Lemma for_each_no_columns {S} (rows : list Z) (body : Z -> Z -> S -> result S)
    (s : S) :
  for_each rows (fun y b => for_each [] (body y) b) s = Ok s.
Proof. induction rows as [|y rows IH]; [reflexivity | exact IH]. Qed.

(** X5. When the width or the height is not positive no pixel is computed:
    the call raises ValueError if the size width * height * 4 is negative,
    and otherwise returns that many zero bytes, whatever the decay
    coefficient. *)
Theorem pixel_buffer_without_pixels (self : SCTT_VisualResonance)
    (layer width height : Z) :
  (width <= 0)%Z \/ (height <= 0)%Z ->
  create_resonant_pixel_buffer self layer width height =
    if (width * height * 4 <? 0)%Z then Raise ValueError
    else Ok (replicate (Z.to_nat (width * height * 4)) 0%Z).
Proof.
  intros Hempty. unfold create_resonant_pixel_buffer, bytearray.
  destruct (width * height * 4 <? 0)%Z; [reflexivity|].
  rewrite result_bind_ok. unfold range.
  destruct (Z_le_gt_dec height 0) as [Hh|Hh].
  - rewrite (seqZ_nil 0 height) by lia. reflexivity.
  - assert (Hw : (width <= 0)%Z) by lia.
    rewrite (seqZ_nil 0 width) by lia. apply for_each_no_columns.
Qed.

Lemma pixel_buffer_without_pixels_witness :
  create_resonant_pixel_buffer flat_resonance 3 (-2) (-3) =
    Ok (replicate 24 0%Z)
  /\ create_resonant_pixel_buffer flat_resonance 3 (-2) 3 = Raise ValueError.
Proof.
  split.
  - apply (pixel_buffer_without_pixels flat_resonance 3 (-2) (-3)). lia.
  - apply (pixel_buffer_without_pixels flat_resonance 3 (-2) 3). lia.
Defined.

(** X6. With a zero decay coefficient and a frame of at least one pixel,
    the division of the first pixel raises ZeroDivisionError and no buffer
    is returned. *)
Theorem pixel_buffer_zero_alpha (self : SCTT_VisualResonance)
    (layer width height : Z) :
  alpha self = 0 -> (0 < width)%Z -> (0 < height)%Z ->
  create_resonant_pixel_buffer self layer width height = Raise ZeroDivisionError.
Proof.
  intros Ha Hw Hh. unfold create_resonant_pixel_buffer, bytearray.
  destruct (Z.ltb_spec (width * height * 4) 0) as [?|_]; [nia|].
  rewrite result_bind_ok. unfold range.
  rewrite (seqZ_cons 0 height), (seqZ_cons 0 width) by lia.
  cbn [for_each]. unfold pixel_body at 1, calculate_visual_resonance.
  destruct (Req_dec_T (alpha self) 0) as [_|Hne]; [reflexivity | contradiction].
Qed.

Lemma pixel_buffer_zero_alpha_witness :
  create_resonant_pixel_buffer flat_resonance 0 640 480 = Raise ZeroDivisionError.
Proof.
  apply (pixel_buffer_zero_alpha flat_resonance 0 640 480);
    [reflexivity | lia | lia].
Defined.

Lemma buffer_lookup self layer (width height x y : Z) (c : nat) :
  alpha self <> 0 -> layers self <> 0%Z ->
  (0 <= x < width)%Z -> (0 <= y < height)%Z -> (c < 4)%nat ->
  exists buffer,
    create_resonant_pixel_buffer self layer width height = Ok buffer
    /\ buffer !! Z.to_nat ((y * width + x) * 4 + Z.of_nat c) =
         masked_bytes layer (resonance_value self layer x y) !! c.
Proof.
  intros Ha Hl Hx Hy Hc.
  exists (frame_bytes self layer (Z.to_nat width) 0 (Z.to_nat height)). split.
  - rewrite <- (create_resonant_pixel_buffer_eq self layer Ha Hl).
    rewrite !Z2Nat.id by lia. reflexivity.
  - replace (Z.to_nat ((y * width + x) * 4 + Z.of_nat c))
      with ((Z.to_nat y * Z.to_nat width + Z.to_nat x) * 4 + c)%nat by nia.
    rewrite frame_bytes_lookup by lia.
    rewrite !Z2Nat.id by lia. reflexivity.
Qed.

(** X7. The picture is constant along anti-diagonals: with a non-zero
    decay coefficient and a non-zero layer count, two pixels of a frame
    whose coordinates have the same sum hold the same four bytes. *)
Theorem pixels_of_equal_sum_agree (self : SCTT_VisualResonance)
    (layer width height x y x' y' : Z) (c : nat) :
  alpha self <> 0 -> layers self <> 0%Z ->
  (0 <= x < width)%Z -> (0 <= y < height)%Z ->
  (0 <= x' < width)%Z -> (0 <= y' < height)%Z ->
  (x + y = x' + y')%Z -> (c < 4)%nat ->
  exists buffer,
    create_resonant_pixel_buffer self layer width height = Ok buffer
    /\ buffer !! Z.to_nat ((y * width + x) * 4 + Z.of_nat c)
       = buffer !! Z.to_nat ((y' * width + x') * 4 + Z.of_nat c).
Proof.
  intros Ha Hl Hx Hy Hx' Hy' Hsum Hc.
  destruct (buffer_lookup self layer width height x y c Ha Hl Hx Hy Hc)
    as (buffer & Hbuf & H1).
  destruct (buffer_lookup self layer width height x' y' c Ha Hl Hx' Hy' Hc)
    as (buffer' & Hbuf' & H2).
  rewrite Hbuf in Hbuf'. injection Hbuf' as <-.
  exists buffer. split; [exact Hbuf|]. rewrite H1, H2.
  unfold resonance_value. rewrite Hsum. reflexivity.
Qed.

Lemma pixels_of_equal_sum_agree_witness :
  exists buffer,
    create_resonant_pixel_buffer module_resonance 2 640 480 = Ok buffer
    /\ buffer !! Z.to_nat ((3 * 640 + 10) * 4 + Z.of_nat 1)
       = buffer !! Z.to_nat ((13 * 640 + 0) * 4 + Z.of_nat 1).
Proof.
  apply (pixels_of_equal_sum_agree module_resonance 2 640 480 10 3 0 13 1);
    [simpl; lra | simpl; lia | lia | lia | lia | lia | reflexivity | lia].
Defined.

Lemma lxor_involutive a p : Z.lxor (Z.lxor a p) p = a.
Proof. rewrite Z.lxor_assoc, Z.lxor_nilpotent. apply Z.lxor_0_r. Qed.

(** X8. The mask can be undone: with a non-zero decay coefficient and a
    non-zero layer count, XORing a stored colour byte of a pixel with the
    mask of its layer gives back the channel value before masking,
    floor(255*r) mod 256 for red; and consecutive layers use complementary
    masks, 0xAA and 0x55 in the order of the layer's parity. *)
Theorem mask_is_undone_by_xor (self : SCTT_VisualResonance)
    (layer width height x y : Z) :
  alpha self <> 0 -> layers self <> 0%Z ->
  (0 <= x < width)%Z -> (0 <= y < height)%Z ->
  exists buffer red green blue,
    create_resonant_pixel_buffer self layer width height = Ok buffer
    /\ buffer !! Z.to_nat ((y * width + x) * 4) = Some red
    /\ buffer !! Z.to_nat ((y * width + x) * 4 + 1) = Some green
    /\ buffer !! Z.to_nat ((y * width + x) * 4 + 2) = Some blue
    /\ Z.lxor red (pattern_of layer)
       = (Zfloor (255 * resonance_value self layer x y) mod 256)%Z
    /\ Z.lxor green (pattern_of layer)
       = (py_int (255 * sin (resonance_value self layer x y * PI)) mod 256)%Z
    /\ Z.lxor blue (pattern_of layer)
       = (py_int (255 * cos (resonance_value self layer x y * PI)) mod 256)%Z
    /\ Z.lxor (pattern_of layer) (pattern_of (layer + 1)) = 255%Z.
Proof.
  intros Ha Hl Hx Hy.
  destruct (buffer_lookup self layer width height x y 0 Ha Hl Hx Hy ltac:(lia))
    as (buffer & Hbuf & H0).
  destruct (buffer_lookup self layer width height x y 1 Ha Hl Hx Hy ltac:(lia))
    as (b1 & Hbuf1 & H1).
  destruct (buffer_lookup self layer width height x y 2 Ha Hl Hx Hy ltac:(lia))
    as (b2 & Hbuf2 & H2).
  rewrite Hbuf in Hbuf1, Hbuf2. injection Hbuf1 as <-. injection Hbuf2 as <-.
  rewrite Z.add_0_r in H0.
  change (Z.of_nat 1) with 1%Z in H1. change (Z.of_nat 2) with 2%Z in H2.
  cbn [masked_bytes lookup list_lookup] in H0, H1, H2.
  do 4 eexists. split; [exact Hbuf|].
  split; [exact H0|]. split; [exact H1|]. split; [exact H2|].
  rewrite !lxor_involutive. unfold red_of, green_of, blue_of.
  rewrite !land_255, py_int_nonneg.
  - repeat split; try reflexivity.
    rewrite !pattern_of_even, Z.even_add.
    destruct (Z.even layer); reflexivity.
  - pose proof (resonance_value_pos self layer x y). lra.
Qed.

Lemma mask_is_undone_by_xor_witness :
  exists buffer red green blue,
    create_resonant_pixel_buffer module_resonance 7 640 480 = Ok buffer
    /\ buffer !! Z.to_nat ((5 * 640 + 9) * 4) = Some red
    /\ buffer !! Z.to_nat ((5 * 640 + 9) * 4 + 1) = Some green
    /\ buffer !! Z.to_nat ((5 * 640 + 9) * 4 + 2) = Some blue
    /\ Z.lxor red (pattern_of 7)
       = (Zfloor (255 * resonance_value module_resonance 7 9 5) mod 256)%Z
    /\ Z.lxor green (pattern_of 7)
       = (py_int (255 * sin (resonance_value module_resonance 7 9 5 * PI))
            mod 256)%Z
    /\ Z.lxor blue (pattern_of 7)
       = (py_int (255 * cos (resonance_value module_resonance 7 9 5 * PI))
            mod 256)%Z
    /\ Z.lxor (pattern_of 7) (pattern_of (7 + 1)) = 255%Z.
Proof.
  apply (mask_is_undone_by_xor module_resonance 7 640 480 9 5);
    [simpl; lra | simpl; lia | lia | lia].
Defined.

(** * The cascade factor and the cascade sum *)

Lemma geometric_closed q n : (1 - q) * geometric q n = 1 - q ^ n.
Proof.
  induction n as [|n IH]; cbn [geometric pow]; [ring|].
  rewrite Rmult_plus_distr_l, IH. ring.
Qed.

Lemma cascade_factor_facts (g : Globals) :
  0 < SCTT_ALPHA g -> (0 < SCTT_LAYERS g)%Z ->
  0 < SCTT_CASCADE_FACTOR g
  /\ SCTT_CASCADE_FACTOR g < IZR (SCTT_LAYERS g)
  /\ SCTT_CASCADE_FACTOR g < 1 / SCTT_ALPHA g
  /\ SCTT_CASCADE_FACTOR g < cascade_sum (SCTT_ALPHA g) (SCTT_LAYERS g).
Proof.
  intros Ha HL. unfold SCTT_CASCADE_FACTOR.
  set (a := SCTT_ALPHA g) in *. set (L := SCTT_LAYERS g) in *.
  assert (HLr : 0 < IZR L) by (apply IZR_lt; exact HL).
  assert (Hx : 0 < a * IZR L) by (apply Rmult_lt_0_compat; assumption).
  pose proof (exp_pos (- a * IZR L)) as He0.
  pose proof (exp_ineq1 (- a * IZR L) ltac:(lra)) as He1.
  assert (He2 : exp (- a * IZR L) < 1).
  { rewrite <- exp_0. apply exp_increasing. lra. }
  assert (Hinv : 0 < / a) by (apply Rinv_0_lt_compat; exact Ha).
  unfold Rdiv. split; [|split; [|split]].
  - apply Rmult_lt_0_compat; lra.
  - apply Rmult_lt_reg_r with a; [exact Ha|].
    rewrite Rmult_assoc, Rinv_l by lra. lra.
  - apply Rmult_lt_compat_r; lra.
  - rewrite <- (Z2Nat.id L) by lia. rewrite cascade_sum_geometric.
    pose proof (layer_energy_pow a (Z.to_nat L)) as Hpow.
    unfold layer_energy in Hpow. rewrite Hpow.
    set (q := exp (- a)) in *. set (n := Z.to_nat L) in *.
    pose proof (geometric_closed q n) as Hgeo.
    assert (Hq0 : 0 < q) by apply exp_pos.
    assert (Hq1 : 1 - a < q).
    { pose proof (exp_ineq1 (- a) ltac:(lra)). unfold q. lra. }
    assert (Hq2 : q < 1).
    { unfold q. rewrite <- exp_0. apply exp_increasing. lra. }
    assert (Hpown : q ^ n < 1).
    { rewrite <- Hpow. unfold n. rewrite Z2Nat.id by lia. exact He2. }
    assert (Hgpos : 0 < geometric q n).
    { apply Rmult_lt_reg_l with (1 - q); [lra|]. rewrite Hgeo. lra. }
    apply Rmult_lt_reg_r with a; [exact Ha|].
    rewrite Rmult_assoc, Rinv_l by lra. rewrite Rmult_1_r, <- Hgeo.
    rewrite Rmult_comm. apply Rmult_lt_compat_l; lra.
Qed.

(** X9. For a positive decay coefficient and a positive number of layers,
    the cascade factor of line 20 is positive, below the number of layers
    and below 1/alpha, and strictly below the sum of the layer energies:
    the total of a run that records every layer exceeds it. *)
Theorem cascade_factor_below_sum (g : Globals) :
  0 < SCTT_ALPHA g -> (0 < SCTT_LAYERS g)%Z ->
  0 < SCTT_CASCADE_FACTOR g
  /\ SCTT_CASCADE_FACTOR g < IZR (SCTT_LAYERS g)
  /\ SCTT_CASCADE_FACTOR g < 1 / SCTT_ALPHA g
  /\ SCTT_CASCADE_FACTOR g < cascade_sum (SCTT_ALPHA g) (SCTT_LAYERS g).
Proof. exact (cascade_factor_facts g). Qed.

Lemma cascade_factor_below_sum_witness :
  0 < SCTT_CASCADE_FACTOR module_globals
  /\ SCTT_CASCADE_FACTOR module_globals < IZR (SCTT_LAYERS module_globals)
  /\ SCTT_CASCADE_FACTOR module_globals < 1 / SCTT_ALPHA module_globals
  /\ SCTT_CASCADE_FACTOR module_globals
     < cascade_sum (SCTT_ALPHA module_globals) (SCTT_LAYERS module_globals).
Proof.
  apply (cascade_factor_below_sum module_globals); [simpl; lra | simpl; lia].
Defined.

(** * The outcome of a layer as a function of the world *)

Ltac outcome_leaf :=
  do 3 eexists; split; [reflexivity|];
  constructor;
    [ cbn; rewrite <- ?app_assoc; reflexivity | .. ];
  unfold step_succeeds, step_records; cbn;
  repeat (match goal with
          | H : ?t = _ |- context [?t] => rewrite H
          end; cbn);
  first [ reflexivity
        | apply length_insert
        | solve [intros; first [discriminate | congruence | reflexivity]] ].

(** The cases of the loop body again, every one recorded as an equation. *)
Ltac outcome_cases lw layer m :=
  destruct (truthy (hwnd (vortex m))) eqn:?;
  destruct (truthy (hdc (vortex m))) eqn:?;
  destruct (dwm_flush lw) eqn:?;
  destruct (create_dib_section lw) as [hb|] eqn:?;
  run_monad; try outcome_leaf;
  match goal with
  | |- context [create_resonant_pixel_buffer ?r ?l ?w ?h] =>
      destruct (create_resonant_pixel_buffer r l w h) eqn:?
  end;
  match goal with
  | |- context [Rlt_dec 0 ?d] => destruct (Rlt_dec 0 d)
  end;
  run_monad; try outcome_leaf;
  destruct (hb =? 0)%Z eqn:?; run_monad; try outcome_leaf;
  try (destruct (get_object lw) as [ptr|] eqn:?; run_monad; try outcome_leaf;
       destruct (ptr =? 0)%Z eqn:?; run_monad; try outcome_leaf;
       try (destruct (from_address lw) eqn:?; run_monad; try outcome_leaf;
            unfold set_layer_energy; cbn;
            replace (layer <? 0)%Z with false by (symmetry; apply Z.ltb_ge; lia);
            cbn;
            replace (layer <? 0)%Z with false by (symmetry; apply Z.ltb_ge; lia);
            cbn [orb];
            destruct (Z.of_nat (length (layer_energies (vortex m))) <=? layer)%Z
              eqn:?;
            run_monad; try outcome_leaf;
            destruct (bit_blt lw) eqn:?; run_monad; try outcome_leaf)).

Lemma cascade_layer_outcome g w payload layer s m :
  timing_total (resonance (vortex m)) -> (0 <= layer)%Z ->
  exists s' m' evs,
    cascade_layer g w payload layer s m = (Ok s', m')
    /\ layer_outcome g (layer_world w layer) payload layer m m' s s' evs.
Proof.
  intros Htime Hlayer.
  destruct (Htime (sink_clock (layer_world w layer)) layer) as [d1 Hd1].
  destruct (Htime (driver_clock (layer_world w layer)) layer) as [d2 Hd2].
  unfold cascade_layer, induce_frame_buffer_resonance.
  unfold mbind, M_bind, try_except, lift, emit, get_self. cbn.
  rewrite Hd1, Hd2.
  generalize dependent (layer_world w layer). intros lw Hd1 Hd2.
  clear Hd1 Hd2 Htime.
  destruct (layer =? 32)%Z eqn:E32;
    destruct payload as [[|byte p]|].
  all: outcome_cases lw layer m.
Qed.

Lemma statuses_app t u : statuses (t ++ u) = statuses t ++ statuses u.
Proof. apply omap_app. Qed.

Lemma errors_app t u : errors (t ++ u) = errors t ++ errors u.
Proof. apply omap_app. Qed.

Lemma buffers_app t u : buffers (t ++ u) = buffers t ++ buffers u.
Proof. apply omap_app. Qed.

Lemma blits_app t u : blits (t ++ u) = blits t ++ blits u.
Proof. apply omap_app. Qed.

Lemma cleanups_app t u : cleanups (t ++ u) = cleanups t ++ cleanups u.
Proof. apply omap_app. Qed.

Lemma step_succeeds_ext v v' lw layer :
  resonance v = resonance v' -> hwnd v = hwnd v' -> hdc v = hdc v' ->
  length (layer_energies v) = length (layer_energies v') ->
  step_succeeds v lw layer = step_succeeds v' lw layer.
Proof. unfold step_succeeds. intros -> -> -> ->. reflexivity. Qed.

Lemma step_records_ext v v' lw layer :
  resonance v = resonance v' -> hwnd v = hwnd v' -> hdc v = hdc v' ->
  length (layer_energies v) = length (layer_energies v') ->
  step_records v lw layer = step_records v' lw layer.
Proof. unfold step_records. intros -> -> -> ->. reflexivity. Qed.

Lemma filter_snoc {A} (f : A -> bool) l x :
  List.filter f (l ++ [x]) = List.filter f l ++ (if f x then [x] else []).
Proof. rewrite List.filter_app. cbn. destruct (f x); reflexivity. Qed.

Lemma outcome_invariant_step g w payload v1 a m m' s s' evs :
  (0 <= a)%Z ->
  outcome_invariant w payload v1 a s m ->
  layer_outcome g (layer_world w a) payload a m m' s s' evs ->
  outcome_invariant w payload v1 (a + 1) s' m'.
Proof.
  intros Ha I F.
  pose proof (lo_stdout _ _ _ _ _ _ _ _ _ F) as Hout.
  assert (Hs : step_succeeds (vortex m) (layer_world w a) a
               = step_succeeds v1 (layer_world w a) a).
  { apply step_succeeds_ext; apply I. }
  assert (Hr : step_records (vortex m) (layer_world w a) a
               = step_records v1 (layer_world w a) a).
  { apply step_records_ext; apply I. }
  assert (Hseq : seqZ 0 (a + 1) = seqZ 0 a ++ [a]).
  { rewrite (seqZ_app 0 a 1) by lia. reflexivity. }
  split.
  - rewrite (lo_resonance _ _ _ _ _ _ _ _ _ F). apply I.
  - rewrite (lo_hwnd _ _ _ _ _ _ _ _ _ F). apply I.
  - rewrite (lo_hdc _ _ _ _ _ _ _ _ _ F). apply I.
  - rewrite (lo_length _ _ _ _ _ _ _ _ _ F). apply I.
  - rewrite Hout, attempted_app, (oi_attempted _ _ _ _ _ _ I), Hseq. cbn.
    change (omap _ evs) with (attempted evs).
    rewrite (lo_attempted _ _ _ _ _ _ _ _ _ F). reflexivity.
  - rewrite Hout, statuses_app, (oi_statuses _ _ _ _ _ _ I), Hseq, fmap_app.
    cbn. change (omap _ evs) with (statuses evs).
    rewrite (lo_statuses _ _ _ _ _ _ _ _ _ F), Hs. reflexivity.
  - rewrite (lo_counter _ _ _ _ _ _ _ _ _ F), Hs, Hseq, filter_snoc, length_app.
    rewrite (oi_counter _ _ _ _ _ _ I).
    destruct (step_succeeds v1 (layer_world w a) a); cbn [length]; lia.
  - rewrite Hout, recorded_app, (oi_recorded _ _ _ _ _ _ I), Hseq, filter_snoc.
    cbn. change (omap _ evs) with (recorded evs).
    rewrite (lo_recorded _ _ _ _ _ _ _ _ _ F), Hr. reflexivity.
  - rewrite Hout, errors_app, (oi_errors _ _ _ _ _ _ I), Hseq, filter_snoc.
    cbn. change (omap _ evs) with (errors evs).
    rewrite (lo_errors _ _ _ _ _ _ _ _ _ F), Hs.
    rewrite (oi_hwnd _ _ _ _ _ _ I), (oi_hdc _ _ _ _ _ _ I). reflexivity.
  - rewrite Hout, buffers_app, (oi_buffers _ _ _ _ _ _ I), Hseq, filter_snoc.
    cbn. change (omap _ evs) with (buffers evs).
    rewrite (lo_buffers _ _ _ _ _ _ _ _ _ F).
    rewrite (oi_hwnd _ _ _ _ _ _ I), (oi_hdc _ _ _ _ _ _ I),
      (oi_resonance _ _ _ _ _ _ I).
    reflexivity.
  - rewrite Hout, payloads_app, (oi_payloads _ _ _ _ _ _ I). cbn.
    change (omap _ evs) with (payloads evs).
    rewrite (lo_payloads _ _ _ _ _ _ _ _ _ F), Hs.
    destruct (Z.eqb_spec a 32) as [->|Hne].
    + change (32 <? 32)%Z with false. change (32 <? 32 + 1)%Z with true.
      reflexivity.
    + replace (32 <? a + 1)%Z with (32 <? a)%Z.
      * cbn [andb]. rewrite app_nil_r. reflexivity.
      * destruct (Z.ltb_spec 32 a), (Z.ltb_spec 32 (a + 1)); lia.
  - rewrite Hout, blits_app, (oi_blits _ _ _ _ _ _ I), Hseq, filter_snoc.
    cbn. change (omap _ evs) with (blits evs).
    rewrite (lo_blits _ _ _ _ _ _ _ _ _ F), Hr. reflexivity.
  - rewrite Hout, cleanups_app, (oi_cleanups _ _ _ _ _ _ I). cbn.
    change (omap _ evs) with (cleanups evs).
    apply (lo_cleanups _ _ _ _ _ _ _ _ _ F).
  - intros l _ Hl Hrec Hblt. assert (l = a) as -> by lia.
    rewrite <- Hr in Hrec.
    apply (lo_bitmap_kept _ _ _ _ _ _ _ _ _ F Hrec Hblt).
  - intros l _ Hl Hrec Hblt. assert (l = a) as -> by lia.
    rewrite <- Hr in Hrec.
    apply (lo_bitmap_freed _ _ _ _ _ _ _ _ _ F Hrec Hblt).
Qed.

(** The loop rule again, for the outcome of a pass. *)
Lemma cascade_rule_outcome g w payload (I : Z -> Z -> Machine -> Prop) :
  (forall a s m s' m' evs,
     (0 <= a)%Z -> I a s m ->
     layer_outcome g (layer_world w a) payload a m m' s s' evs ->
     I (a + 1)%Z s' m') ->
  forall (n : nat) a s m,
    (0 <= a)%Z -> timing_total (resonance (vortex m)) -> I a s m ->
    exists s' m',
      for_each_M (seqZ a (Z.of_nat n)) (cascade_layer g w payload) s m
        = (Ok s', m')
      /\ I (a + Z.of_nat n)%Z s' m'.
Proof.
  intros Hstep. induction n as [|n IH]; intros a s m Ha Htime HI.
  - exists s, m. rewrite Z.add_0_r. auto.
  - rewrite seqZ_cons by lia.
    replace (Z.pred (Z.of_nat (S n))) with (Z.of_nat n) by lia.
    destruct (cascade_layer_outcome g w payload a s m Htime Ha)
      as (s1 & m1 & evs & Hrun & Hfacts).
    destruct (IH (Z.succ a) s1 m1) as (s2 & m2 & Hloop & HI2).
    + lia.
    + rewrite (lo_resonance _ _ _ _ _ _ _ _ _ Hfacts). exact Htime.
    + apply (Hstep a s m s1 m1 evs Ha HI Hfacts).
    + exists s2, m2. split.
      * cbn [for_each_M]. unfold mbind, M_bind. rewrite Hrun. exact Hloop.
      * replace (a + Z.of_nat (S n))%Z with (Z.succ a + Z.of_nat n)%Z by lia.
        exact HI2.
Qed.

(** What the first two phases do, as a function of the world. *)
Lemma open_window_outcome w v :
  exists m1,
    open_window w (fresh v) = (Ok (window_opens w), m1)
    /\ resonance (vortex m1) = resonance v
    /\ layer_energies (vortex m1) = layer_energies v
    /\ total_cascade_energy (vortex m1) = total_cascade_energy v
    /\ hbitmap (vortex m1) = hbitmap v
    /\ hwnd (vortex m1) =
         (if returned (register_class w) then
            match create_window_ex w with
            | Returns h => Some h
            | Throws => hwnd v
            end
          else hwnd v)
    /\ hdc (vortex m1) =
         (if returned (register_class w)
             && returned_handle (create_window_ex w) then
            match get_dc w with
            | Returns d => Some d
            | Throws => hdc v
            end
          else hdc v)
    /\ attempted (stdout m1) = [] /\ statuses (stdout m1) = []
    /\ recorded (stdout m1) = [] /\ errors (stdout m1) = []
    /\ buffers (stdout m1) = [] /\ payloads (stdout m1) = []
    /\ blits (stdout m1) = [] /\ cleanups (stdout m1) = [].
Proof.
  unfold open_window, create_resonant_window, window_opens. run_monad.
  destruct (register_class w); cbn;
    [|eexists; repeat split].
  destruct (create_window_ex w) as [h|]; cbn;
    [|eexists; repeat split].
  destruct (h =? 0)%Z; cbn;
    [eexists; repeat split|].
  destruct (get_dc w) as [d|]; cbn;
    eexists; repeat split.
Qed.

(** What the last phase does, as a function of the object. *)
Lemma summary_outcome g s m :
  exists m',
    summary g s m =
      ((if (SCTT_LAYERS g =? 0)%Z then Raise ZeroDivisionError
        else Ok (0 <? s)%Z), m')
    /\ vortex m' = vortex m
    /\ stdout m' = stdout m ++ summary_events g s (vortex m).
Proof.
  unfold summary, summary_events. run_monad.
  destruct (SCTT_LAYERS g =? 0)%Z; cbn.
  - eexists. repeat split.
  - destruct (truthy (hdc (vortex m))), (truthy (hwnd (vortex m))); cbn;
      eexists; (split; [reflexivity|]); (split; [reflexivity|]);
      cbn; rewrite <- ?app_assoc; reflexivity.
Qed.

Lemma summary_events_quiet g s v :
  attempted (summary_events g s v) = []
  /\ statuses (summary_events g s v) = []
  /\ recorded (summary_events g s v) = []
  /\ errors (summary_events g s v) = []
  /\ buffers (summary_events g s v) = []
  /\ payloads (summary_events g s v) = [].
Proof.
  unfold summary_events.
  destruct (SCTT_LAYERS g =? 0)%Z, (truthy (hdc v)), (truthy (hwnd v));
    repeat split; reflexivity.
Qed.

(** The whole run of a constructed object whose window opens. *)
Lemma run_outcome_facts g w payload v :
  SCTT_DWM_Vortex_init g = Ok v -> window_opens w = true ->
  exists s m2 m3,
    cascade g w payload (range (SCTT_LAYERS g)) (snd (open_window w (fresh v)))
      = (Ok s, m2)
    /\ outcome_invariant w payload (opened_vortex w v)
         (Z.of_nat (Z.to_nat (SCTT_LAYERS g))) s m2
    /\ execute_visual_singularity g w payload (fresh v) =
         ((if (SCTT_LAYERS g =? 0)%Z then Raise ZeroDivisionError
           else Ok (0 <? s)%Z), m3)
    /\ vortex m3 = vortex m2
    /\ stdout m3 = stdout m2 ++ summary_events g s (vortex m2).
Proof.
  intros Hinit Hopens.
  destruct (init_vortex g v Hinit) as (Hri & _ & _).
  destruct (open_window_outcome w v)
    as (m1 & Hopen & Hres & _ & _ & _ & _ & _ & Hatt & Hst & Hrec & Herr
        & Hbuf & Hpay & Hblt & Hcln).
  rewrite Hopens in Hopen. unfold opened_vortex. rewrite Hopen. cbn [snd].
  destruct (cascade_rule_outcome g w payload
              (fun a s m => outcome_invariant w payload (vortex m1) a s m))
    with (n := Z.to_nat (SCTT_LAYERS g)) (a := 0%Z) (s := 0%Z) (m := m1)
    as (s & m2 & Hrun & HI).
  - intros a s m s' m' evs Ha HI F.
    apply (outcome_invariant_step g w payload (vortex m1) a m m' s s' evs
             Ha HI F).
  - lia.
  - rewrite Hres. apply (timing_total_init g), Hri.
  - split; try reflexivity; try assumption; intros; lia.
  - destruct (summary_outcome g s m2) as (m3 & Hsum & Hv & Hout).
    exists s, m2, m3. unfold cascade. rewrite range_nat.
    split; [exact Hrun|]. split; [exact HI|]. split; [|auto].
    unfold execute_visual_singularity, mbind, M_bind.
    rewrite Hopen. cbn [negb]. unfold cascade. rewrite range_nat, Hrun.
    exact Hsum.
Qed.

(** * Runs, as functions of the world *)

Lemma filter_all {A} (f : A -> bool) l :
  (forall x, In x l -> f x = true) -> List.filter f l = l.
Proof.
  induction l as [|x l IH]; intros H; [reflexivity|]. cbn.
  rewrite (H x) by (left; reflexivity). f_equal. apply IH.
  intros y Hy. apply H. right. exact Hy.
Qed.

Lemma filter_none {A} (f : A -> bool) l :
  (forall x, In x l -> f x = false) -> List.filter f l = [].
Proof.
  induction l as [|x l IH]; intros H; [reflexivity|]. cbn.
  rewrite (H x) by (left; reflexivity). apply IH.
  intros y Hy. apply H. right. exact Hy.
Qed.

Lemma fmap_pointwise {A B} (f h : A -> B) l :
  (forall x, In x l -> f x = h x) -> f <$> l = h <$> l.
Proof.
  induction l as [|x l IH]; intros H; [reflexivity|]. cbn.
  rewrite (H x) by (left; reflexivity). f_equal. apply IH.
  intros y Hy. apply H. right. exact Hy.
Qed.

Lemma In_range l n : In l (range n) <-> (0 <= l < n)%Z.
Proof.
  unfold range. rewrite <- list_elem_of_In, elem_of_seqZ. lia.
Qed.

Lemma buffer_is_ok res layer :
  alpha res <> 0 -> layers res <> 0%Z ->
  is_ok (create_resonant_pixel_buffer res layer 640 480) = true.
Proof.
  intros Ha Hl.
  pose proof (create_resonant_pixel_buffer_eq res layer Ha Hl 640 480) as H.
  change (Z.of_nat 640) with 640%Z in H. change (Z.of_nat 480) with 480%Z in H.
  rewrite H. reflexivity.
Qed.

(** The object at the start of the loop, when the window opens. *)
Lemma opened_vortex_facts g w v :
  SCTT_DWM_Vortex_init g = Ok v -> window_opens w = true ->
  resonance (opened_vortex w v) = resonance v
  /\ alpha (resonance (opened_vortex w v)) = SCTT_ALPHA g
  /\ truthy (hwnd (opened_vortex w v)) = true
  /\ truthy (hdc (opened_vortex w v)) = returned_handle (get_dc w)
  /\ length (layer_energies (opened_vortex w v)) = Z.to_nat (SCTT_LAYERS g).
Proof.
  intros Hinit Hopens.
  destruct (open_window_outcome w v)
    as (m1 & Hopen & Hres & He & _ & _ & Hhwnd & Hhdc & _).
  unfold opened_vortex. rewrite Hopen. cbn [snd].
  rewrite Hres, He, Hhwnd, Hhdc. unfold window_opens in Hopens.
  injection Hinit as <-. cbn [resonance alpha layer_energies hwnd hdc].
  destruct (register_class w); [|discriminate].
  destruct (create_window_ex w) as [h|]; [|discriminate].
  destruct (get_dc w) as [d|]; [|rewrite andb_false_r in Hopens; discriminate].
  cbn in *. rewrite andb_true_r in Hopens. rewrite Hopens.
  repeat split; try reflexivity. apply length_replicate.
Qed.

(** The buffer of a layer of a run is built when the decay coefficient is
    not zero and there is at least one layer. *)
Lemma run_buffer_is_ok g w v l :
  SCTT_DWM_Vortex_init g = Ok v -> window_opens w = true ->
  SCTT_ALPHA g <> 0 -> SCTT_LAYERS g <> 0%Z ->
  is_ok (create_resonant_pixel_buffer (resonance (opened_vortex w v)) l
           640 480) = true.
Proof.
  intros Hinit Hopens Ha HL.
  destruct (opened_vortex_facts g w v Hinit Hopens) as (Hres & _).
  rewrite Hres. injection Hinit as <-. cbn [resonance].
  apply buffer_is_ok; assumption.
Qed.

Lemma existsb_filter {A} (f : A -> bool) l :
  (0 <? Z.of_nat (length (List.filter f l)))%Z = existsb f l.
Proof.
  induction l as [|x l IH]; [reflexivity|]. cbn.
  destruct (f x); [|exact IH]. cbn [length orb].
  destruct (Z.ltb_spec 0 (Z.of_nat (S (length (List.filter f l))))); [reflexivity | lia].
Qed.

(** X10. In a run of a constructed object whose window opens and with
    L not 0: the run returns; exactly one status line is printed per layer
    of range(L), in order; and the value returned is True exactly when some
    status line reports success. *)
Theorem run_returns_any_success (g : Globals) (w : World)
    (payload : option (list Z)) (v : SCTT_DWM_Vortex) :
  SCTT_DWM_Vortex_init g = Ok v -> window_opens w = true ->
  SCTT_LAYERS g <> 0%Z ->
  exists b,
    fst (execute_visual_singularity g w payload (fresh v)) = Ok b
    /\ fst <$> statuses (stdout (machine_at_end g w payload v))
       = range (SCTT_LAYERS g)
    /\ (b = true <->
        exists l, PrintStatus l true ∈ stdout (machine_at_end g w payload v)).
Proof.
  intros Hinit Hopens HL.
  destruct (run_outcome_facts g w payload v Hinit Hopens)
    as (s & m2 & m3 & _ & HI & Hexec & _ & Hout).
  destruct (summary_events_quiet g s (vortex m2)) as (_ & Hsq & _).
  unfold machine_at_end. rewrite Hexec. cbn [fst snd].
  destruct (Z.eqb_spec (SCTT_LAYERS g) 0) as [?|_]; [contradiction|].
  assert (Hst : statuses (stdout m3) =
    (fun l => (l, step_succeeds (opened_vortex w v) (layer_world w l) l))
      <$> range (SCTT_LAYERS g)).
  { rewrite Hout, statuses_app, Hsq, app_nil_r, (oi_statuses _ _ _ _ _ _ HI).
    rewrite <- range_nat. reflexivity. }
  eexists. split; [reflexivity|]. split.
  - rewrite Hst, <- list_fmap_compose.
    rewrite <- (list_fmap_id (range (SCTT_LAYERS g))) at 2. reflexivity.
  - rewrite (oi_counter _ _ _ _ _ _ HI), existsb_filter, <- range_nat.
    rewrite existsb_exists. split.
    + intros (l & Hl & Hs). exists l.
      assert (Hin : (l, true) ∈ statuses (stdout m3)).
      { rewrite Hst. apply list_elem_of_fmap. exists l.
        rewrite Hs. split; [reflexivity|]. apply list_elem_of_In, Hl. }
      unfold statuses in Hin. apply list_elem_of_omap in Hin.
      destruct Hin as ([] & Hin & Heq); try discriminate.
      injection Heq as -> ->. exact Hin.
    + intros (l & Hl).
      assert (Hin : (l, true) ∈ statuses (stdout m3)).
      { unfold statuses. apply list_elem_of_omap.
        exists (PrintStatus l true). auto. }
      rewrite Hst in Hin. apply list_elem_of_fmap in Hin.
      destruct Hin as (l' & Heq & Hl'). injection Heq as <- Hs.
      exists l. split; [apply list_elem_of_In, Hl' | auto].
Qed.

Lemma run_returns_any_success_witness :
  exists b,
    fst (execute_visual_singularity module_globals faulty_world None
           (fresh module_vortex)) = Ok b
    /\ fst <$> statuses (stdout (machine_at_end module_globals faulty_world
                                   None module_vortex))
       = range (SCTT_LAYERS module_globals)
    /\ (b = true <->
        exists l, PrintStatus l true
                    ∈ stdout (machine_at_end module_globals faulty_world None
                                module_vortex)).
Proof.
  apply (run_returns_any_success module_globals faulty_world None module_vortex);
    [reflexivity | reflexivity | simpl; lia].
Defined.

Lemma step_range g w v l :
  SCTT_DWM_Vortex_init g = Ok v -> window_opens w = true ->
  In l (range (SCTT_LAYERS g)) ->
  negb (Z.of_nat (length (layer_energies (opened_vortex w v))) <=? l)%Z = true.
Proof.
  intros Hinit Hopens Hl. apply In_range in Hl.
  destruct (opened_vortex_facts g w v Hinit Hopens) as (_ & _ & _ & _ & Hlen).
  rewrite Hlen. apply negb_true_iff, Z.leb_gt. lia.
Qed.

Lemma run_totals g w payload v :
  SCTT_DWM_Vortex_init g = Ok v ->
  total_cascade_energy (vortex (machine_at_end g w payload v)) =
    Rsum (layer_energy (SCTT_ALPHA g)
            <$> recorded (stdout (machine_at_end g w payload v))).
Proof.
  intros Hinit. destruct (run_stats g w payload v 0 Hinit) as [_ Hinv].
  apply (si_total_written _ _ Hinv).
Qed.

Lemma cascade_sum_range a n :
  cascade_sum a n = Rsum (layer_energy a <$> range n).
Proof.
  unfold cascade_sum. rewrite range_nat. apply cascade_sum_Rsum.
Qed.

(** X11. In a run of a constructed object with a non-zero decay
    coefficient, in a world where the window opens and every call of the
    sink returns a handle that is not null: every layer succeeds and is
    recorded, no error is printed, and the running total at the end is the
    sum of all layer energies; it then exceeds the "theoretical maximum"
    of line 318 when the coefficient is positive and L is positive. *)
Theorem cooperative_run_records_all (g : Globals) (w : World)
    (payload : option (list Z)) (v : SCTT_DWM_Vortex) :
  SCTT_DWM_Vortex_init g = Ok v -> SCTT_ALPHA g <> 0 ->
  window_opens w = true -> cooperative w ->
  statuses (stdout (machine_at_end g w payload v))
    = (fun l => (l, true)) <$> range (SCTT_LAYERS g)
  /\ recorded (stdout (machine_at_end g w payload v)) = range (SCTT_LAYERS g)
  /\ errors (stdout (machine_at_end g w payload v)) = []
  /\ total_cascade_energy (vortex (machine_at_end g w payload v))
     = cascade_sum (SCTT_ALPHA g) (SCTT_LAYERS g)
  /\ (0 < SCTT_ALPHA g -> (0 < SCTT_LAYERS g)%Z ->
      SCTT_CASCADE_FACTOR g
      < total_cascade_energy (vortex (machine_at_end g w payload v))).
Proof.
  intros Hinit Ha Hopens [Hdc Hcoop].
  destruct (run_outcome_facts g w payload v Hinit Hopens)
    as (s & m2 & m3 & _ & HI & Hexec & Hv & Hout).
  destruct (summary_events_quiet g s (vortex m2))
    as (_ & Hsq & Hrq & Heq & _ & _).
  destruct (opened_vortex_facts g w v Hinit Hopens)
    as (Hres & Halpha & Hhwnd & Hhdc & Hlen).
  pose proof (run_totals g w payload v Hinit) as Htot.
  unfold machine_at_end in *. rewrite Hexec in *. cbn [snd] in *.
  assert (Hsucc : forall l, In l (range (SCTT_LAYERS g)) ->
            step_succeeds (opened_vortex w v) (layer_world w l) l = true).
  { intros l Hl. unfold step_succeeds.
    destruct (Hcoop l) as (H1 & H2 & H3 & H4 & H5).
    rewrite Hhwnd, Hhdc, Hdc, H1, H2, H3, H4, H5.
    rewrite (step_range g w v l Hinit Hopens Hl).
    pose proof (proj1 (In_range l _) Hl) as Hb.
    rewrite (run_buffer_is_ok g w v l Hinit Hopens Ha) by lia.
    destruct (create_dib_section (layer_world w l)); [|discriminate].
    destruct (get_object (layer_world w l)); [|discriminate].
    reflexivity. }
  assert (Hrec : forall l, In l (range (SCTT_LAYERS g)) ->
            step_records (opened_vortex w v) (layer_world w l) l = true).
  { intros l Hl. unfold step_records.
    destruct (Hcoop l) as (H1 & H2 & H3 & _ & _).
    rewrite Hhwnd, Hhdc, Hdc, H1, H2, H3.
    rewrite (step_range g w v l Hinit Hopens Hl).
    pose proof (proj1 (In_range l _) Hl) as Hb.
    rewrite (run_buffer_is_ok g w v l Hinit Hopens Ha) by lia.
    reflexivity. }
  assert (Hrecorded : recorded (stdout m3) = range (SCTT_LAYERS g)).
  { rewrite Hout, recorded_app, Hrq, app_nil_r, (oi_recorded _ _ _ _ _ _ HI).
    rewrite <- range_nat. apply filter_all, Hrec. }
  assert (Htotal : total_cascade_energy (vortex m3)
                   = cascade_sum (SCTT_ALPHA g) (SCTT_LAYERS g)).
  { rewrite Htot, Hrecorded. symmetry. apply cascade_sum_range. }
  split; [|split; [|split; [|split]]].
  - rewrite Hout, statuses_app, Hsq, app_nil_r, (oi_statuses _ _ _ _ _ _ HI).
    rewrite <- range_nat. apply fmap_pointwise.
    intros l Hl. rewrite (Hsucc l Hl). reflexivity.
  - exact Hrecorded.
  - rewrite Hout, errors_app, Heq, app_nil_r, (oi_errors _ _ _ _ _ _ HI).
    rewrite <- range_nat. apply filter_none.
    intros l Hl. rewrite (Hsucc l Hl), andb_false_r. reflexivity.
  - exact Htotal.
  - intros Hpos HL. rewrite Htotal.
    apply (cascade_factor_facts g Hpos HL).
Qed.

Lemma cooperative_run_records_all_witness :
  statuses (stdout (machine_at_end module_globals calm_world None module_vortex))
    = (fun l => (l, true)) <$> range (SCTT_LAYERS module_globals)
  /\ recorded (stdout (machine_at_end module_globals calm_world None
                         module_vortex))
     = range (SCTT_LAYERS module_globals)
  /\ errors (stdout (machine_at_end module_globals calm_world None
                       module_vortex)) = []
  /\ total_cascade_energy
       (vortex (machine_at_end module_globals calm_world None module_vortex))
     = cascade_sum (SCTT_ALPHA module_globals) (SCTT_LAYERS module_globals)
  /\ (0 < SCTT_ALPHA module_globals -> (0 < SCTT_LAYERS module_globals)%Z ->
      SCTT_CASCADE_FACTOR module_globals
      < total_cascade_energy
          (vortex (machine_at_end module_globals calm_world None
                     module_vortex))).
Proof.
  apply (cooperative_run_records_all module_globals calm_world None
           module_vortex);
    [ reflexivity | simpl; lra | reflexivity
    | split; [reflexivity | intros l; repeat split; reflexivity] ].
Defined.

Lemma summary_events_cleanups g s v :
  blits (summary_events g s v) = []
  /\ cleanups (summary_events g s v) =
       if (SCTT_LAYERS g =? 0)%Z then []
       else (if truthy (hdc v) && truthy (hwnd v) then [ReleaseDC] else [])
            ++ (if truthy (hwnd v) then [DestroyWindow] else []).
Proof.
  unfold summary_events.
  destruct (SCTT_LAYERS g =? 0)%Z, (truthy (hdc v)), (truthy (hwnd v));
    split; reflexivity.
Qed.

(** A run whose window phase fails ends there. *)
Lemma window_failure_facts g w payload v :
  window_opens w = false ->
  exists m1,
    open_window w (fresh v) = (Ok false, m1)
    /\ execute_visual_singularity g w payload (fresh v) = (Ok false, m1).
Proof.
  intros Hopens.
  destruct (open_window_outcome w v) as (m1 & Hopen & _).
  rewrite Hopens in Hopen. exists m1. split; [exact Hopen|].
  unfold execute_visual_singularity, mbind, M_bind. rewrite Hopen. reflexivity.
Qed.

(** X12. In a run of a constructed object with a non-zero decay
    coefficient whose window opens with a device context, in a world where
    CreateDIBSection returns a null bitmap for every layer and the flush
    returns: every layer is reported successful although no statistic is
    written and nothing is blitted; the total stays 0, and the run returns
    True when L is positive. *)
Theorem null_bitmap_counts_as_success (g : Globals) (w : World)
    (payload : option (list Z)) (v : SCTT_DWM_Vortex) :
  SCTT_DWM_Vortex_init g = Ok v -> SCTT_ALPHA g <> 0 ->
  window_opens w = true -> returned_handle (get_dc w) = true ->
  (forall l, create_dib_section (layer_world w l) = Returns 0%Z
             /\ returned (dwm_flush (layer_world w l)) = true) ->
  statuses (stdout (machine_at_end g w payload v))
    = (fun l => (l, true)) <$> range (SCTT_LAYERS g)
  /\ recorded (stdout (machine_at_end g w payload v)) = []
  /\ blits (stdout (machine_at_end g w payload v)) = []
  /\ total_cascade_energy (vortex (machine_at_end g w payload v)) = 0
  /\ ((0 < SCTT_LAYERS g)%Z ->
      fst (execute_visual_singularity g w payload (fresh v)) = Ok true).
Proof.
  intros Hinit Ha Hopens Hdc Hnull.
  destruct (run_outcome_facts g w payload v Hinit Hopens)
    as (s & m2 & m3 & _ & HI & Hexec & Hv & Hout).
  destruct (summary_events_quiet g s (vortex m2))
    as (_ & Hsq & Hrq & _ & _ & _).
  destruct (summary_events_cleanups g s (vortex m2)) as [Hbq _].
  destruct (opened_vortex_facts g w v Hinit Hopens)
    as (Hres & Halpha & Hhwnd & Hhdc & Hlen).
  pose proof (run_totals g w payload v Hinit) as Htot.
  unfold machine_at_end in *. rewrite Hexec in *. cbn [fst snd] in *.
  assert (Hsucc : forall l, In l (range (SCTT_LAYERS g)) ->
            step_succeeds (opened_vortex w v) (layer_world w l) l = true).
  { intros l Hl. unfold step_succeeds. destruct (Hnull l) as [H1 H2].
    rewrite Hhwnd, Hhdc, Hdc, H1, H2.
    pose proof (proj1 (In_range l _) Hl) as Hb.
    rewrite (run_buffer_is_ok g w v l Hinit Hopens Ha) by lia.
    reflexivity. }
  assert (Hrec : forall l,
            step_records (opened_vortex w v) (layer_world w l) l = false).
  { intros l. unfold step_records. destruct (Hnull l) as [H1 _].
    rewrite H1. cbn. rewrite !andb_false_r. reflexivity. }
  assert (Hrecorded : recorded (stdout m3) = []).
  { rewrite Hout, recorded_app, Hrq, app_nil_r, (oi_recorded _ _ _ _ _ _ HI).
    apply filter_none. intros l _. apply Hrec. }
  split; [|split; [|split; [|split]]].
  - rewrite Hout, statuses_app, Hsq, app_nil_r, (oi_statuses _ _ _ _ _ _ HI).
    rewrite <- range_nat. apply fmap_pointwise.
    intros l Hl. rewrite (Hsucc l Hl). reflexivity.
  - exact Hrecorded.
  - rewrite Hout, blits_app, Hbq, app_nil_r, (oi_blits _ _ _ _ _ _ HI).
    apply filter_none. intros l _. rewrite Hrec. reflexivity.
  - rewrite Htot, Hrecorded. reflexivity.
  - intros HL. destruct (Z.eqb_spec (SCTT_LAYERS g) 0) as [?|_]; [lia|].
    f_equal. rewrite (oi_counter _ _ _ _ _ _ HI), existsb_filter.
    assert (H0 : In 0%Z (range (SCTT_LAYERS g))) by (apply In_range; lia).
    apply existsb_exists. exists 0%Z. split; [|apply Hsucc, H0].
    rewrite <- range_nat. exact H0.
Qed.

Lemma null_bitmap_counts_as_success_witness :
  statuses (stdout (machine_at_end module_globals null_bitmap_world None
                      module_vortex))
    = (fun l => (l, true)) <$> range (SCTT_LAYERS module_globals)
  /\ recorded (stdout (machine_at_end module_globals null_bitmap_world None
                         module_vortex)) = []
  /\ blits (stdout (machine_at_end module_globals null_bitmap_world None
                      module_vortex)) = []
  /\ total_cascade_energy
       (vortex (machine_at_end module_globals null_bitmap_world None
                  module_vortex)) = 0
  /\ ((0 < SCTT_LAYERS module_globals)%Z ->
      fst (execute_visual_singularity module_globals null_bitmap_world None
             (fresh module_vortex)) = Ok true).
Proof.
  apply (null_bitmap_counts_as_success module_globals null_bitmap_world None
           module_vortex);
    [ reflexivity | simpl; lra | reflexivity | reflexivity
    | intros l; split; reflexivity ].
Defined.

(** X13. In a run of a constructed object with L not 0 whose window opens
    but whose GetDC returns a null device context: every layer fails
    without entering the guarded block, so no error line is printed, no
    buffer is built and no statistic is written; the run returns False,
    and the cleanup destroys the window without releasing a device
    context. *)
Theorem null_device_context_fails_silently (g : Globals) (w : World)
    (payload : option (list Z)) (v : SCTT_DWM_Vortex) :
  SCTT_DWM_Vortex_init g = Ok v -> window_opens w = true ->
  get_dc w = Returns 0%Z -> SCTT_LAYERS g <> 0%Z ->
  fst (execute_visual_singularity g w payload (fresh v)) = Ok false
  /\ statuses (stdout (machine_at_end g w payload v))
     = (fun l => (l, false)) <$> range (SCTT_LAYERS g)
  /\ errors (stdout (machine_at_end g w payload v)) = []
  /\ buffers (stdout (machine_at_end g w payload v)) = []
  /\ recorded (stdout (machine_at_end g w payload v)) = []
  /\ payloads (stdout (machine_at_end g w payload v)) = []
  /\ cleanups (stdout (machine_at_end g w payload v)) = [DestroyWindow].
Proof.
  intros Hinit Hopens Hdc HL.
  destruct (run_outcome_facts g w payload v Hinit Hopens)
    as (s & m2 & m3 & _ & HI & Hexec & Hv & Hout).
  destruct (summary_events_quiet g s (vortex m2))
    as (_ & Hsq & Hrq & Heq & Hfq & Hpq).
  destruct (summary_events_cleanups g s (vortex m2)) as [_ Hcq].
  destruct (opened_vortex_facts g w v Hinit Hopens)
    as (Hres & Halpha & Hhwnd & Hhdc & Hlen).
  unfold machine_at_end in *. rewrite Hexec in *. cbn [fst snd] in *.
  rewrite Hdc in Hhdc. cbn in Hhdc.
  assert (Hsucc : forall l,
            step_succeeds (opened_vortex w v) (layer_world w l) l = false).
  { intros l. unfold step_succeeds. rewrite Hhwnd, Hhdc. reflexivity. }
  assert (Hrec : forall l,
            step_records (opened_vortex w v) (layer_world w l) l = false).
  { intros l. unfold step_records. rewrite Hhwnd, Hhdc. reflexivity. }
  destruct (Z.eqb_spec (SCTT_LAYERS g) 0) as [?|_]; [contradiction|].
  split; [|split; [|split; [|split; [|split; [|split]]]]].
  - f_equal. rewrite (oi_counter _ _ _ _ _ _ HI), filter_none; [reflexivity|].
    intros l _. apply Hsucc.
  - rewrite Hout, statuses_app, Hsq, app_nil_r, (oi_statuses _ _ _ _ _ _ HI).
    rewrite <- range_nat. apply fmap_pointwise.
    intros l _. rewrite Hsucc. reflexivity.
  - rewrite Hout, errors_app, Heq, app_nil_r, (oi_errors _ _ _ _ _ _ HI).
    apply filter_none. intros l _. rewrite Hhwnd, Hhdc. reflexivity.
  - rewrite Hout, buffers_app, Hfq, app_nil_r, (oi_buffers _ _ _ _ _ _ HI).
    apply filter_none. intros l _. rewrite Hhwnd, Hhdc. reflexivity.
  - rewrite Hout, recorded_app, Hrq, app_nil_r, (oi_recorded _ _ _ _ _ _ HI).
    apply filter_none. intros l _. apply Hrec.
  - rewrite Hout, payloads_app, Hpq, app_nil_r, (oi_payloads _ _ _ _ _ _ HI).
    rewrite Hsucc, andb_false_r. reflexivity.
  - rewrite Hout, cleanups_app, Hcq, (oi_cleanups _ _ _ _ _ _ HI).
    rewrite (oi_hwnd _ _ _ _ _ _ HI), (oi_hdc _ _ _ _ _ _ HI), Hhwnd, Hhdc.
    reflexivity.
Qed.

Lemma null_device_context_fails_silently_witness :
  fst (execute_visual_singularity module_globals null_dc_world None
         (fresh module_vortex)) = Ok false
  /\ statuses (stdout (machine_at_end module_globals null_dc_world None
                         module_vortex))
     = (fun l => (l, false)) <$> range (SCTT_LAYERS module_globals)
  /\ errors (stdout (machine_at_end module_globals null_dc_world None
                       module_vortex)) = []
  /\ buffers (stdout (machine_at_end module_globals null_dc_world None
                        module_vortex)) = []
  /\ recorded (stdout (machine_at_end module_globals null_dc_world None
                         module_vortex)) = []
  /\ payloads (stdout (machine_at_end module_globals null_dc_world None
                         module_vortex)) = []
  /\ cleanups (stdout (machine_at_end module_globals null_dc_world None
                         module_vortex)) = [DestroyWindow].
Proof.
  apply (null_device_context_fails_silently module_globals null_dc_world None
           module_vortex);
    [ reflexivity | reflexivity | reflexivity | simpl; lia ].
Defined.

Lemma Rsum_filter_le (f : Z -> R) (p : Z -> bool) l :
  (forall x, 0 <= f x) ->
  0 <= Rsum (f <$> List.filter p l) <= Rsum (f <$> l).
Proof.
  intros Hf. unfold Rsum. induction l as [|x l IH]; cbn; [lra|].
  pose proof (Hf x). destruct (p x); cbn; lra.
Qed.

Lemma Rsum_pos_nil (f : Z -> R) l :
  (forall x, 0 < f x) -> Rsum (f <$> l) = 0 -> l = [].
Proof.
  intros Hf. unfold Rsum. destruct l as [|x l]; [reflexivity|]. cbn.
  intros H. pose proof (Hf x).
  assert (0 <= foldr Rplus 0 (f <$> l)).
  { clear H. induction l as [|y l IH]; cbn; [lra|]. pose proof (Hf y). lra. }
  lra.
Qed.

(** The trace of a run determines [recorded] as a filter of the layers. *)
Lemma run_recorded g w payload v :
  SCTT_DWM_Vortex_init g = Ok v ->
  exists p, recorded (stdout (machine_at_end g w payload v))
            = List.filter p (range (SCTT_LAYERS g)).
Proof.
  intros Hinit. destruct (window_opens w) eqn:Hopens.
  - destruct (run_outcome_facts g w payload v Hinit Hopens)
      as (s & m2 & m3 & _ & HI & Hexec & Hv & Hout).
    destruct (summary_events_quiet g s (vortex m2)) as (_ & _ & Hrq & _).
    unfold machine_at_end. rewrite Hexec. cbn [snd].
    eexists. rewrite Hout, recorded_app, Hrq, app_nil_r.
    rewrite (oi_recorded _ _ _ _ _ _ HI), <- range_nat. reflexivity.
  - destruct (window_failure_facts g w payload v Hopens)
      as (m1 & Hopen & Hexec).
    destruct (open_window_outcome w v)
      as (m1' & Hopen' & _ & _ & _ & _ & _ & _ & _ & _ & Hrec & _).
    rewrite Hopen in Hopen'. injection Hopen' as _ <-.
    unfold machine_at_end. rewrite Hexec. cbn [snd].
    exists (fun _ => false). rewrite Hrec. symmetry.
    apply filter_none. reflexivity.
Qed.

(** X14. For a positive decay coefficient, in every world, the running
    total at the end of a run of a constructed object lies between 0 and
    the sum of all layer energies, and it is 0 exactly when no statistic
    was written. *)
Theorem total_energy_bounded (g : Globals) (w : World)
    (payload : option (list Z)) (v : SCTT_DWM_Vortex) :
  SCTT_DWM_Vortex_init g = Ok v -> 0 < SCTT_ALPHA g ->
  0 <= total_cascade_energy (vortex (machine_at_end g w payload v))
    <= cascade_sum (SCTT_ALPHA g) (SCTT_LAYERS g)
  /\ (total_cascade_energy (vortex (machine_at_end g w payload v)) = 0
      <-> recorded (stdout (machine_at_end g w payload v)) = []).
Proof.
  intros Hinit Ha.
  rewrite (run_totals g w payload v Hinit), cascade_sum_range.
  destruct (run_recorded g w payload v Hinit) as [p Hp].
  split.
  - rewrite Hp. apply Rsum_filter_le.
    intros l. left. apply layer_energy_pos.
  - split.
    + apply Rsum_pos_nil. intros l. apply layer_energy_pos.
    + intros ->. reflexivity.
Qed.

Lemma total_energy_bounded_witness :
  0 <= total_cascade_energy
         (vortex (machine_at_end module_globals faulty_world None
                    module_vortex))
    <= cascade_sum (SCTT_ALPHA module_globals) (SCTT_LAYERS module_globals)
  /\ (total_cascade_energy
        (vortex (machine_at_end module_globals faulty_world None
                   module_vortex)) = 0
      <-> recorded (stdout (machine_at_end module_globals faulty_world None
                              module_vortex)) = []).
Proof.
  apply (total_energy_bounded module_globals faulty_world None module_vortex);
    [reflexivity | simpl; lra].
Defined.

(** X15. The cleanup calls of a run of a constructed object, in every
    world: none when the window phase fails (even if a window handle was
    obtained before GetDC threw) and none when L = 0 (the division of
    line 312 raises before the cleanup); otherwise the window is destroyed
    last, after the device context is released when GetDC returned one
    that is not null.  The cleanup calls are taken to return. *)
Theorem cleanup_follows_summary (g : Globals) (w : World)
    (payload : option (list Z)) (v : SCTT_DWM_Vortex) :
  SCTT_DWM_Vortex_init g = Ok v ->
  cleanups (stdout (machine_at_end g w payload v)) =
    if window_opens w && negb (SCTT_LAYERS g =? 0)%Z
    then (if returned_handle (get_dc w) then [ReleaseDC] else [])
         ++ [DestroyWindow]
    else [].
Proof.
  intros Hinit. destruct (window_opens w) eqn:Hopens.
  - destruct (run_outcome_facts g w payload v Hinit Hopens)
      as (s & m2 & m3 & _ & HI & Hexec & Hv & Hout).
    destruct (summary_events_cleanups g s (vortex m2)) as [_ Hcq].
    destruct (opened_vortex_facts g w v Hinit Hopens)
      as (_ & _ & Hhwnd & Hhdc & _).
    unfold machine_at_end. rewrite Hexec. cbn [snd].
    rewrite Hout, cleanups_app, Hcq, (oi_cleanups _ _ _ _ _ _ HI).
    rewrite (oi_hwnd _ _ _ _ _ _ HI), (oi_hdc _ _ _ _ _ _ HI), Hhwnd, Hhdc.
    destruct (SCTT_LAYERS g =? 0)%Z; [reflexivity|].
    rewrite andb_true_r. reflexivity.
  - destruct (window_failure_facts g w payload v Hopens)
      as (m1 & Hopen & Hexec).
    destruct (open_window_outcome w v) as (m1' & Hopen' & Hfacts).
    rewrite Hopen in Hopen'. injection Hopen' as _ <-.
    unfold machine_at_end. rewrite Hexec. cbn [snd]. apply Hfacts.
Qed.

Lemma cleanup_follows_summary_witness :
  cleanups (stdout (machine_at_end module_globals null_dc_world None
                      module_vortex)) =
    if window_opens null_dc_world
       && negb (SCTT_LAYERS module_globals =? 0)%Z
    then (if returned_handle (get_dc null_dc_world) then [ReleaseDC] else [])
         ++ [DestroyWindow]
    else [].
Proof.
  apply (cleanup_follows_summary module_globals null_dc_world None
           module_vortex).
  reflexivity.
Defined.

(** X16. When the window phase of a run of a constructed object fails,
    the run returns False without beginning a layer: the statistics keep
    their initial values, and a window handle obtained before GetDC threw
    stays in the object. *)
Theorem window_failure_ends_run (g : Globals) (w : World)
    (payload : option (list Z)) (v : SCTT_DWM_Vortex) :
  SCTT_DWM_Vortex_init g = Ok v -> window_opens w = false ->
  fst (execute_visual_singularity g w payload (fresh v)) = Ok false
  /\ attempted (stdout (machine_at_end g w payload v)) = []
  /\ statuses (stdout (machine_at_end g w payload v)) = []
  /\ layer_energies (vortex (machine_at_end g w payload v))
     = replicate (Z.to_nat (SCTT_LAYERS g)) 0
  /\ total_cascade_energy (vortex (machine_at_end g w payload v)) = 0
  /\ (forall h, returned (register_class w) = true ->
        create_window_ex w = Returns h ->
        hwnd (vortex (machine_at_end g w payload v)) = Some h).
Proof.
  intros Hinit Hopens.
  destruct (init_vortex g v Hinit) as (_ & He & Ht).
  destruct (window_failure_facts g w payload v Hopens)
    as (m1 & Hopen & Hexec).
  destruct (open_window_outcome w v)
    as (m1' & Hopen' & _ & He1 & Ht1 & _ & Hhwnd & _ & Hatt & Hst & _).
  rewrite Hopen in Hopen'. injection Hopen' as _ <-.
  unfold machine_at_end. rewrite Hexec. cbn [fst snd].
  split; [reflexivity|]. split; [exact Hatt|]. split; [exact Hst|].
  split; [congruence|]. split; [congruence|].
  intros h Hreg Hwin. rewrite Hhwnd, Hreg, Hwin. reflexivity.
Qed.

Lemma window_failure_ends_run_witness :
  fst (execute_visual_singularity module_globals dc_faulty_world None
         (fresh module_vortex)) = Ok false
  /\ attempted (stdout (machine_at_end module_globals dc_faulty_world None
                          module_vortex)) = []
  /\ statuses (stdout (machine_at_end module_globals dc_faulty_world None
                         module_vortex)) = []
  /\ layer_energies (vortex (machine_at_end module_globals dc_faulty_world
                               None module_vortex))
     = replicate (Z.to_nat (SCTT_LAYERS module_globals)) 0
  /\ total_cascade_energy
       (vortex (machine_at_end module_globals dc_faulty_world None
                  module_vortex)) = 0
  /\ (forall h, returned (register_class dc_faulty_world) = true ->
        create_window_ex dc_faulty_world = Returns h ->
        hwnd (vortex (machine_at_end module_globals dc_faulty_world None
                        module_vortex)) = Some h).
Proof.
  apply (window_failure_ends_run module_globals dc_faulty_world None
           module_vortex);
    reflexivity.
Defined.

(** X17. With L = 0, a run of a constructed object whose window opens
    raises ZeroDivisionError: no layer is begun, the completion banner is
    printed, and the window handle is still set when the exception
    leaves the method. *)
Theorem zero_layers_raises (g : Globals) (w : World)
    (payload : option (list Z)) (v : SCTT_DWM_Vortex) :
  SCTT_DWM_Vortex_init g = Ok v -> window_opens w = true ->
  SCTT_LAYERS g = 0%Z ->
  fst (execute_visual_singularity g w payload (fresh v))
    = Raise ZeroDivisionError
  /\ attempted (stdout (machine_at_end g w payload v)) = []
  /\ last (stdout (machine_at_end g w payload v)) = Some PrintComplete
  /\ truthy (hwnd (vortex (machine_at_end g w payload v))) = true.
Proof.
  intros Hinit Hopens HL.
  destruct (run_outcome_facts g w payload v Hinit Hopens)
    as (s & m2 & m3 & _ & HI & Hexec & Hv & Hout).
  destruct (summary_events_quiet g s (vortex m2)) as (Haq & _).
  destruct (opened_vortex_facts g w v Hinit Hopens)
    as (_ & _ & Hhwnd & _ & _).
  unfold machine_at_end. rewrite Hexec. cbn [fst snd].
  split; [rewrite HL; reflexivity|]. split; [|split].
  - rewrite Hout, attempted_app, Haq, app_nil_r, (oi_attempted _ _ _ _ _ _ HI).
    rewrite HL. reflexivity.
  - rewrite Hout. unfold summary_events. rewrite HL. cbn.
    apply last_snoc.
  - rewrite Hv, (oi_hwnd _ _ _ _ _ _ HI). exact Hhwnd.
Qed.

Lemma zero_layers_raises_witness :
  fst (execute_visual_singularity no_layers calm_world None
         (fresh no_layers_vortex))
    = Raise ZeroDivisionError
  /\ attempted (stdout (machine_at_end no_layers calm_world None
                          no_layers_vortex)) = []
  /\ last (stdout (machine_at_end no_layers calm_world None no_layers_vortex))
     = Some PrintComplete
  /\ truthy (hwnd (vortex (machine_at_end no_layers calm_world None
                             no_layers_vortex))) = true.
Proof.
  apply (zero_layers_raises no_layers calm_world None no_layers_vortex);
    reflexivity.
Defined.

Lemma elem_of_statuses l b t : PrintStatus l b ∈ t <-> (l, b) ∈ statuses t.
Proof.
  unfold statuses. rewrite list_elem_of_omap. split.
  - intros H. exists (PrintStatus l b). auto.
  - intros ([] & Hin & Heq); try discriminate.
    injection Heq as -> ->. exact Hin.
Qed.

(** X18. Whatever L is, the payload hook is tied to the literal layer 32:
    in a run of a constructed object it is executed (once, with the
    payload supplied) when the status line of layer 32 reports success and
    the payload is not empty, and not otherwise; with L <= 32 layer 32 has
    no status line, so the hook is never executed. *)
Theorem payload_tied_to_layer_32 (g : Globals) (w : World)
    (payload : option (list Z)) (v : SCTT_DWM_Vortex) :
  SCTT_DWM_Vortex_init g = Ok v ->
  (PrintStatus 32 true ∈ stdout (machine_at_end g w payload v) ->
   payload_truthy payload = true ->
   payloads (stdout (machine_at_end g w payload v)) = [default [] payload])
  /\ (PrintStatus 32 true ∉ stdout (machine_at_end g w payload v) ->
      payloads (stdout (machine_at_end g w payload v)) = [])
  /\ (payload_truthy payload = false ->
      payloads (stdout (machine_at_end g w payload v)) = [])
  /\ ((SCTT_LAYERS g <= 32)%Z ->
      PrintStatus 32 true ∉ stdout (machine_at_end g w payload v)).
Proof.
  intros Hinit. destruct (window_opens w) eqn:Hopens.
  - destruct (run_outcome_facts g w payload v Hinit Hopens)
      as (s & m2 & m3 & _ & HI & Hexec & Hv & Hout).
    destruct (summary_events_quiet g s (vortex m2))
      as (_ & Hsq & _ & _ & _ & Hpq).
    unfold machine_at_end. rewrite Hexec. cbn [snd].
    assert (Hst : forall b, PrintStatus 32 b ∈ stdout m3 <->
              (32 < SCTT_LAYERS g)%Z
              /\ step_succeeds (opened_vortex w v) (layer_world w 32) 32 = b).
    { intros b. rewrite elem_of_statuses, Hout, statuses_app, Hsq, app_nil_r.
      rewrite (oi_statuses _ _ _ _ _ _ HI), <- range_nat, list_elem_of_fmap.
      split.
      - intros (l & Heq & Hl). injection Heq as <- ->.
        apply list_elem_of_In, In_range in Hl. split; [lia | reflexivity].
      - intros [HL <-]. exists 32%Z. split; [reflexivity|].
        apply list_elem_of_In, In_range. lia. }
    assert (Hpay : payloads (stdout m3) =
              if (32 <? SCTT_LAYERS g)%Z
                 && step_succeeds (opened_vortex w v) (layer_world w 32) 32
                 && payload_truthy payload
              then [default [] payload] else []).
    { rewrite Hout, payloads_app, Hpq, app_nil_r, (oi_payloads _ _ _ _ _ _ HI).
      replace (32 <? Z.of_nat (Z.to_nat (SCTT_LAYERS g)))%Z
        with (32 <? SCTT_LAYERS g)%Z; [reflexivity|].
      destruct (Z.ltb_spec 32 (SCTT_LAYERS g)),
        (Z.ltb_spec 32 (Z.of_nat (Z.to_nat (SCTT_LAYERS g)))); lia. }
    split; [|split; [|split]].
    + intros H Hp. apply Hst in H. destruct H as [HL Hs].
      rewrite Hpay, Hs, Hp. apply Z.ltb_lt in HL. rewrite HL. reflexivity.
    + intros H. rewrite Hpay.
      destruct (Z.ltb_spec 32 (SCTT_LAYERS g)) as [HL|HL]; [|reflexivity].
      destruct (step_succeeds (opened_vortex w v) (layer_world w 32) 32) eqn:Hs;
        [|reflexivity].
      exfalso. apply H, Hst. auto.
    + intros Hp. rewrite Hpay, Hp, andb_false_r. reflexivity.
    + intros HL H. apply Hst in H. lia.
  - destruct (window_failure_facts g w payload v Hopens)
      as (m1 & Hopen & Hexec).
    destruct (open_window_outcome w v)
      as (m1' & Hopen' & _ & _ & _ & _ & _ & _ & _ & Hst & _ & _ & _ & Hpay & _).
    rewrite Hopen in Hopen'. injection Hopen' as _ <-.
    unfold machine_at_end. rewrite Hexec. cbn [snd].
    assert (Hno : PrintStatus 32 true ∉ stdout m1).
    { rewrite elem_of_statuses, Hst. apply not_elem_of_nil. }
    split; [intros H; contradiction|]. auto.
Qed.

Lemma payload_tied_to_layer_32_witness :
  (PrintStatus 32 true
     ∈ stdout (machine_at_end module_globals calm_world (Some [144%Z])
                 module_vortex) ->
   payload_truthy (Some [144%Z]) = true ->
   payloads (stdout (machine_at_end module_globals calm_world (Some [144%Z])
                       module_vortex))
   = [default [] (Some [144%Z])])
  /\ (PrintStatus 32 true
        ∉ stdout (machine_at_end module_globals calm_world (Some [144%Z])
                    module_vortex) ->
      payloads (stdout (machine_at_end module_globals calm_world
                          (Some [144%Z]) module_vortex)) = [])
  /\ (payload_truthy (Some [144%Z]) = false ->
      payloads (stdout (machine_at_end module_globals calm_world
                          (Some [144%Z]) module_vortex)) = [])
  /\ ((SCTT_LAYERS module_globals <= 32)%Z ->
      PrintStatus 32 true
        ∉ stdout (machine_at_end module_globals calm_world (Some [144%Z])
                    module_vortex)).
Proof.
  apply (payload_tied_to_layer_32 module_globals calm_world (Some [144%Z])
           module_vortex).
  reflexivity.
Defined.


Ltac sink_leaf :=
  do 2 eexists; (split; [reflexivity|]); cbn;
  repeat split; try discriminate; try (intros _; apply last_snoc).

(** X19. The sink stage never raises, for any object, layer and world:
    without a window or a device context it returns False and changes
    nothing; otherwise the last thing it does is the flush when it returns
    True, and the error print of its handler when it returns False.  The
    generator and the two handles are left as they were. *)
Theorem sink_stage_never_raises (g : Globals) (lw : LayerWorld) (layer : Z)
    (m : Machine) :
  exists b m',
    induce_frame_buffer_resonance g lw layer m = (Ok b, m')
    /\ (truthy (hwnd (vortex m)) && truthy (hdc (vortex m)) = false ->
        b = false /\ m' = m)
    /\ (truthy (hwnd (vortex m)) && truthy (hdc (vortex m)) = true ->
        last (stdout m') =
          Some (if b then DwmFlush layer else PrintLayerError layer))
    /\ resonance (vortex m') = resonance (vortex m)
    /\ hwnd (vortex m') = hwnd (vortex m)
    /\ hdc (vortex m') = hdc (vortex m).
Proof.
  unfold induce_frame_buffer_resonance, set_layer_energy. run_monad.
  destruct (truthy (hwnd (vortex m))); cbn; [|sink_leaf].
  destruct (truthy (hdc (vortex m))); cbn; [|sink_leaf].
  destruct (prime_resonance_timing (resonance (vortex m)) (sink_clock lw) layer)
    as [d|e]; cbn; [|sink_leaf].
  destruct (Rlt_dec 0 d); cbn.
  all: destruct (create_resonant_pixel_buffer (resonance (vortex m)) layer
                   640 480) as [buf|e]; cbn; try sink_leaf.
  all: destruct (dwm_flush lw); destruct (create_dib_section lw) as [hb|]; cbn;
    try sink_leaf.
  all: destruct (hb =? 0)%Z; cbn; try sink_leaf.
  all: destruct (get_object lw) as [ptr|]; cbn; try sink_leaf.
  all: destruct (ptr =? 0)%Z; cbn; try sink_leaf.
  all: destruct (from_address lw); cbn; try sink_leaf.
  all: destruct (layer <? 0)%Z; cbn.
  all: match goal with
       | |- context [(?a || ?b)%bool] => destruct (a || b)%bool
       end; cbn; try sink_leaf.
  all: destruct (bit_blt lw); cbn; sink_leaf.
Qed.

(** The machine when the first [k] layers have been processed. *)
Lemma after_layers_outcome g w payload v (k : nat) :
  SCTT_DWM_Vortex_init g = Ok v -> window_opens w = true ->
  (k <= Z.to_nat (SCTT_LAYERS g))%nat ->
  exists s,
    outcome_invariant w payload (opened_vortex w v) (Z.of_nat k) s
      (machine_after_layers g w payload v k).
Proof.
  intros Hinit Hopens Hk.
  destruct (init_vortex g v Hinit) as (Hri & _ & _).
  destruct (open_window_outcome w v)
    as (m1 & Hopen & Hres & _ & _ & _ & _ & _ & Hatt & Hst & Hrec & Herr
        & Hbuf & Hpay & Hblt & Hcln).
  rewrite Hopens in Hopen.
  unfold machine_after_layers, opened_vortex. rewrite Hopen. cbn [snd].
  destruct (cascade_rule_outcome g w payload
              (fun a s m => outcome_invariant w payload (vortex m1) a s m))
    with (n := k) (a := 0%Z) (s := 0%Z) (m := m1)
    as (s & m2 & Hrun & HI).
  - intros a s m s' m' evs Ha HI F.
    apply (outcome_invariant_step g w payload (vortex m1) a m m' s s' evs
             Ha HI F).
  - lia.
  - rewrite Hres. apply (timing_total_init g), Hri.
  - split; try reflexivity; try assumption; intros; lia.
  - exists s. unfold cascade. rewrite take_range, Nat.min_l by exact Hk.
    rewrite Hrun. exact HI.
Qed.

Lemma records_without_blit v lw layer :
  step_records v lw layer = true -> bit_blt lw = Throws ->
  step_succeeds v lw layer = false.
Proof.
  unfold step_records, step_succeeds. intros Hrec Hblt.
  repeat (apply andb_prop in Hrec; destruct Hrec as [Hrec ?]).
  rewrite Hblt.
  repeat match goal with H : _ = true |- _ => rewrite H; clear H end.
  destruct (create_dib_section lw); cbn; rewrite ?andb_false_r; reflexivity.
Qed.

(** X20. In a run of a constructed object with a non-zero decay
    coefficient whose window opens with a device context, after the pass
    of a layer of range(L) whose bitmap, bitmap object and address are
    obtained: the layer's statistic is recorded; when BitBlt returned, the
    layer is blitted and the bitmap attribute is None again; when BitBlt
    raised, the layer is reported failed, and the object still holds the
    bitmap handle, which the error path does not delete. *)
Theorem blit_failure_keeps_bitmap (g : Globals) (w : World)
    (payload : option (list Z)) (v : SCTT_DWM_Vortex) (l : Z) :
  SCTT_DWM_Vortex_init g = Ok v -> SCTT_ALPHA g <> 0 ->
  window_opens w = true -> returned_handle (get_dc w) = true ->
  (0 <= l < SCTT_LAYERS g)%Z ->
  returned_handle (create_dib_section (layer_world w l)) = true ->
  returned_handle (get_object (layer_world w l)) = true ->
  returned (from_address (layer_world w l)) = true ->
  l ∈ recorded (stdout (machine_after_layers g w payload v (S (Z.to_nat l))))
  /\ (returned (bit_blt (layer_world w l)) = true ->
      l ∈ blits (stdout (machine_after_layers g w payload v (S (Z.to_nat l))))
      /\ hbitmap (vortex (machine_after_layers g w payload v
                            (S (Z.to_nat l)))) = None)
  /\ (bit_blt (layer_world w l) = Throws ->
      (l ∉ blits (stdout (machine_after_layers g w payload v
                            (S (Z.to_nat l)))))
      /\ PrintStatus l false
           ∈ stdout (machine_after_layers g w payload v (S (Z.to_nat l)))
      /\ exists hb,
           create_dib_section (layer_world w l) = Returns hb
           /\ hb <> 0%Z
           /\ hbitmap (vortex (machine_after_layers g w payload v
                                 (S (Z.to_nat l)))) = Some hb).
Proof.
  intros Hinit Ha Hopens Hdc Hl Hdib Hobj Haddr.
  destruct (after_layers_outcome g w payload v (S (Z.to_nat l)) Hinit Hopens
              ltac:(lia)) as [s HI].
  destruct (opened_vortex_facts g w v Hinit Hopens)
    as (Hres & Halpha & Hhwnd & Hhdc & Hlen).
  set (m := machine_after_layers g w payload v (S (Z.to_nat l))) in *.
  replace (Z.of_nat (S (Z.to_nat l))) with (l + 1)%Z in HI by lia.
  assert (Hin : In l (seqZ 0 (l + 1))).
  { apply list_elem_of_In, elem_of_seqZ. lia. }
  assert (Hrec : step_records (opened_vortex w v) (layer_world w l) l = true).
  { unfold step_records. rewrite Hhwnd, Hhdc, Hdc, Hdib, Hobj, Haddr, Hlen.
    rewrite (run_buffer_is_ok g w v l Hinit Hopens Ha) by lia. cbn.
    apply negb_true_iff, Z.leb_gt. lia. }
  split; [|split].
  - rewrite (oi_recorded _ _ _ _ _ _ HI). apply list_elem_of_In, filter_In. auto.
  - intros Hblt. split.
    + rewrite (oi_blits _ _ _ _ _ _ HI). apply list_elem_of_In, filter_In.
      rewrite Hrec, Hblt. auto.
    + apply (oi_bitmap_freed _ _ _ _ _ _ HI l); [lia | reflexivity | | ]; auto.
  - intros Hblt. split; [|split].
    + rewrite (oi_blits _ _ _ _ _ _ HI). intros H.
      apply list_elem_of_In, filter_In in H. destruct H as [_ H].
      rewrite Hblt, andb_false_r in H. discriminate.
    + apply elem_of_statuses. rewrite (oi_statuses _ _ _ _ _ _ HI).
      apply list_elem_of_fmap. exists l. split.
      * rewrite (records_without_blit _ _ _ Hrec Hblt). reflexivity.
      * apply list_elem_of_In, Hin.
    + pose proof (oi_bitmap_kept _ _ _ _ _ _ HI l ltac:(lia) eq_refl Hrec Hblt)
        as Hkept.
      destruct (create_dib_section (layer_world w l)) as [hb|]; [|discriminate].
      exists hb. split; [reflexivity|]. split.
      * cbn in Hdib. apply negb_true_iff, Z.eqb_neq in Hdib. exact Hdib.
      * injection Hkept as ->. reflexivity.
Qed.

Lemma blit_failure_keeps_bitmap_witness :
  5%Z ∈ recorded (stdout (machine_after_layers module_globals blit_faulty_world
                            None module_vortex (S (Z.to_nat 5))))
  /\ (returned (bit_blt (layer_world blit_faulty_world 5)) = true ->
      5%Z ∈ blits (stdout (machine_after_layers module_globals
                             blit_faulty_world None module_vortex
                             (S (Z.to_nat 5))))
      /\ hbitmap (vortex (machine_after_layers module_globals
                            blit_faulty_world None module_vortex
                            (S (Z.to_nat 5)))) = None)
  /\ (bit_blt (layer_world blit_faulty_world 5) = Throws ->
      (5%Z ∉ blits (stdout (machine_after_layers module_globals
                              blit_faulty_world None module_vortex
                              (S (Z.to_nat 5)))))
      /\ PrintStatus 5 false
           ∈ stdout (machine_after_layers module_globals blit_faulty_world
                       None module_vortex (S (Z.to_nat 5)))
      /\ exists hb,
           create_dib_section (layer_world blit_faulty_world 5) = Returns hb
           /\ hb <> 0%Z
           /\ hbitmap (vortex (machine_after_layers module_globals
                                 blit_faulty_world None module_vortex
                                 (S (Z.to_nat 5)))) = Some hb).
Proof.
  apply (blit_failure_keeps_bitmap module_globals blit_faulty_world None
           module_vortex 5);
    [ reflexivity | simpl; lra | reflexivity | reflexivity | simpl; lia
    | reflexivity | reflexivity | reflexivity ].
Defined.

(** * The layer energy, the failure of a layer and the payload hook *)

Lemma elem_of_errors l t : l ∈ errors t <-> PrintLayerError l ∈ t.
Proof.
  unfold errors. rewrite list_elem_of_omap. split.
  - intros ([] & Hin & Heq); try discriminate.
    injection Heq as ->. exact Hin.
  - intros H. exists (PrintLayerError l). auto.
Qed.

(** C1. For a positive decay coefficient: for every layer l of [0, L), the
    energy of the layer is exp(-alpha*l) (so within 1e-12 of it); the
    generator computes its base energy with the same coefficient; every
    value a run records for the layer is that energy; and in a world where
    the window opens with a device context and the bitmap calls of the
    layer return, the run does record that energy for the layer and leaves
    it in the layer's entry of the statistics.  For layers l1 < l2 of
    [0, L) the energy of l1 is strictly greater than the energy of l2. *)
Theorem layer_energy_decay (g : Globals) (w : World)
    (payload : option (list Z)) (v : SCTT_DWM_Vortex) :
  0 < SCTT_ALPHA g -> SCTT_DWM_Vortex_init g = Ok v ->
  (forall l x y, (0 <= l < SCTT_LAYERS g)%Z ->
     layer_energy (SCTT_ALPHA g) l = exp (- SCTT_ALPHA g * IZR l)
     /\ Rabs (layer_energy (SCTT_ALPHA g) l - exp (- SCTT_ALPHA g * IZR l))
          <= 1 / 1000000000000
     /\ calculate_visual_resonance (resonance v) l x y =
          Ok (exp (- SCTT_ALPHA g * IZR l)
              * (1 + 0.3 * sin (2 * PI * IZR (x + y) / (1 / SCTT_ALPHA g)))
              * (1 + 0.2 * sin (2 * PI * IZR l / IZR (SCTT_LAYERS g))))
     /\ (forall e,
           EnergyRecorded l e ∈ stdout (machine_at_end g w payload v) ->
           e = exp (- SCTT_ALPHA g * IZR l)
           /\ layer_energies (vortex (machine_at_end g w payload v))
                !! Z.to_nat l
              = Some (exp (- SCTT_ALPHA g * IZR l)))
     /\ (window_opens w = true -> returned_handle (get_dc w) = true ->
         returned_handle (create_dib_section (layer_world w l)) = true ->
         returned_handle (get_object (layer_world w l)) = true ->
         returned (from_address (layer_world w l)) = true ->
         EnergyRecorded l (exp (- SCTT_ALPHA g * IZR l))
           ∈ stdout (machine_at_end g w payload v)
         /\ layer_energies (vortex (machine_at_end g w payload v))
              !! Z.to_nat l
            = Some (exp (- SCTT_ALPHA g * IZR l))))
  /\ (forall l1 l2, (0 <= l1 < l2)%Z -> (l2 < SCTT_LAYERS g)%Z ->
      layer_energy (SCTT_ALPHA g) l2 < layer_energy (SCTT_ALPHA g) l1
      /\ exp (- SCTT_ALPHA g * IZR l2) < exp (- SCTT_ALPHA g * IZR l1)).
Proof.
  intros Ha Hinit.
  destruct (run_stats g w payload v 0 Hinit) as [_ Hinv].
  split.
  - intros l x y Hl.
    assert (Hrecd : forall e,
              EnergyRecorded l e ∈ stdout (machine_at_end g w payload v) ->
              e = exp (- SCTT_ALPHA g * IZR l)
              /\ layer_energies (vortex (machine_at_end g w payload v))
                   !! Z.to_nat l
                 = Some (exp (- SCTT_ALPHA g * IZR l))).
    { intros e He. split.
      - apply (si_energy _ _ Hinv _ _ He).
      - apply (si_written _ _ Hinv). apply elem_of_recorded. eauto. }
    split; [reflexivity|]. split.
    { replace (_ - _) with 0 by (unfold layer_energy; ring).
      rewrite Rabs_R0. lra. }
    split.
    { pose proof Hinit as Hinit'. injection Hinit' as <-. cbn [resonance].
      rewrite calculate_visual_resonance_eq by (cbn; first [lra | lia]).
      reflexivity. }
    split; [exact Hrecd|].
    intros Hopens Hdc Hdib Hobj Haddr.
    destruct (run_outcome_facts g w payload v Hinit Hopens)
      as (s & m2 & m3 & _ & HI & Hexec & Hv & Hout).
    destruct (opened_vortex_facts g w v Hinit Hopens)
      as (Hres & Halpha & Hhwnd & Hhdc & Hlen).
    assert (Hrec : step_records (opened_vortex w v) (layer_world w l) l = true).
    { unfold step_records. rewrite Hhwnd, Hhdc, Hdc, Hdib, Hobj, Haddr, Hlen.
      rewrite (run_buffer_is_ok g w v l Hinit Hopens) by first [lra | lia].
      cbn. apply negb_true_iff, Z.leb_gt. lia. }
    assert (Hin : l ∈ recorded (stdout (machine_at_end g w payload v))).
    { unfold machine_at_end. rewrite Hexec. cbn [snd].
      rewrite Hout, recorded_app, elem_of_app. left.
      rewrite (oi_recorded _ _ _ _ _ _ HI), <- range_nat.
      apply list_elem_of_In, filter_In. split; [|exact Hrec].
      apply In_range. lia. }
    apply elem_of_recorded in Hin. destruct Hin as [e He].
    destruct (Hrecd e He) as [-> Hentry]. auto.
  - intros l1 l2 Hl1 Hl2.
    pose proof (layer_energy_decreasing (SCTT_ALPHA g) l1 l2 Ha ltac:(lia)) as H.
    split; exact H.
Qed.

Lemma layer_energy_decay_witness :
  EnergyRecorded 32 (exp (- SCTT_ALPHA module_globals * IZR 32))
    ∈ stdout (machine_at_end module_globals calm_world None module_vortex)
  /\ layer_energy (SCTT_ALPHA module_globals) 32
     < layer_energy (SCTT_ALPHA module_globals) 0.
Proof.
  destruct (layer_energy_decay module_globals calm_world None module_vortex
              ltac:(simpl; lra) eq_refl) as [Hlayer Hdecay].
  split.
  - apply (Hlayer 32%Z 0%Z 0%Z ltac:(simpl; lia)); reflexivity.
  - apply (Hdecay 0%Z 32%Z); simpl; lia.
Defined.

(** A stage that throws on the path makes the pass fail. *)
Lemma delivery_fails_step v lw layer :
  delivery_fails (resonance v) lw layer -> step_succeeds v lw layer = false.
Proof.
  unfold delivery_fails, step_succeeds.
  intros [[e He]|[Hdib|[[Hdib Hobj]|[(Hdib & Hobj & Hlast)|Hflush]]]].
  - rewrite He. cbn. rewrite !andb_false_r. reflexivity.
  - rewrite Hdib. cbn. rewrite !andb_false_r. reflexivity.
  - rewrite Hdib, Hobj. cbn. rewrite !andb_false_r. reflexivity.
  - rewrite Hdib, Hobj. destruct Hlast as [-> | ->]; cbn;
      rewrite ?andb_false_r; reflexivity.
  - rewrite Hflush. cbn. apply andb_false_r.
Qed.

(** With the handles set and the layer inside the statistics, a pass fails
    only when a stage on its path throws. *)
Lemma step_fails_delivery v lw layer :
  truthy (hwnd v) = true -> truthy (hdc v) = true ->
  (Z.of_nat (length (layer_energies v)) <=? layer)%Z = false ->
  step_succeeds v lw layer = false -> delivery_fails (resonance v) lw layer.
Proof.
  unfold delivery_fails, step_succeeds. intros -> -> ->. cbn.
  destruct (create_resonant_pixel_buffer (resonance v) layer 640 480) as [b|e];
    cbn; [|eauto].
  destruct (dwm_flush lw); [|auto 6].
  destruct (create_dib_section lw) as [hb|]; cbn; [|auto].
  destruct (hb =? 0)%Z; cbn; [discriminate|].
  destruct (get_object lw) as [ptr|]; cbn; [|auto 6].
  destruct (ptr =? 0)%Z; cbn; [discriminate|].
  destruct (from_address lw); cbn; [|auto 8].
  destruct (bit_blt lw); cbn; [discriminate | auto 8].
Qed.

(** C8. In a run whose window opened, whatever the calls of the sink do:
    the loop over the layers returns without raising, and so does the run
    when L is not 0; every layer of range(L) is begun, in order; exactly
    one status line is printed per layer, in order; a layer whose pass
    does not succeed is logged as failed, by its status line (and never
    reported as achieved) and, when the device context is not null, by
    the error line of the handler; and the pass of a layer does not
    succeed whenever its buffer cannot be built or a call of the sink on
    its path throws: CreateDIBSection, GetObjectW, from_address, the blit
    stage or DwmFlush.  With a device context that is not null, these are
    the only failures. *)
Theorem layer_failure_does_not_abort (g : Globals) (w : World)
    (payload : option (list Z)) (v : SCTT_DWM_Vortex) :
  SCTT_DWM_Vortex_init g = Ok v ->
  fst (open_window w (fresh v)) = Ok true ->
  (exists s,
     fst (cascade g w payload (range (SCTT_LAYERS g))
            (snd (open_window w (fresh v)))) = Ok s)
  /\ (SCTT_LAYERS g <> 0%Z ->
      exists b, fst (execute_visual_singularity g w payload (fresh v)) = Ok b)
  /\ attempted (stdout (machine_at_end g w payload v)) = range (SCTT_LAYERS g)
  /\ statuses (stdout (machine_at_end g w payload v))
     = (fun l => (l, step_succeeds (opened_vortex w v) (layer_world w l) l))
         <$> range (SCTT_LAYERS g)
  /\ (forall l, (0 <= l < SCTT_LAYERS g)%Z ->
      step_succeeds (opened_vortex w v) (layer_world w l) l = false ->
      PrintStatus l false ∈ stdout (machine_at_end g w payload v)
      /\ (PrintStatus l true ∉ stdout (machine_at_end g w payload v))
      /\ (returned_handle (get_dc w) = true ->
          PrintLayerError l ∈ stdout (machine_at_end g w payload v)))
  /\ (forall l, (0 <= l < SCTT_LAYERS g)%Z ->
      (delivery_fails (resonance v) (layer_world w l) l ->
       step_succeeds (opened_vortex w v) (layer_world w l) l = false)
      /\ (returned_handle (get_dc w) = true ->
          step_succeeds (opened_vortex w v) (layer_world w l) l = false ->
          delivery_fails (resonance v) (layer_world w l) l)).
Proof.
  intros Hinit Hopened.
  destruct (open_window_outcome w v) as (m1 & Hopen & _).
  assert (Hopens : window_opens w = true).
  { rewrite Hopen in Hopened. cbn in Hopened. injection Hopened as ->.
    reflexivity. }
  destruct (run_outcome_facts g w payload v Hinit Hopens)
    as (s & m2 & m3 & Hrun & HI & Hexec & Hv & Hout).
  destruct (summary_events_quiet g s (vortex m2))
    as (Haq & Hsq & _ & Heq & _ & _).
  destruct (opened_vortex_facts g w v Hinit Hopens)
    as (Hres & Halpha & Hhwnd & Hhdc & Hlen).
  unfold machine_at_end. rewrite Hexec, Hrun. cbn [fst snd].
  assert (Hst : statuses (stdout m3) =
    (fun l => (l, step_succeeds (opened_vortex w v) (layer_world w l) l))
      <$> range (SCTT_LAYERS g)).
  { rewrite Hout, statuses_app, Hsq, app_nil_r, (oi_statuses _ _ _ _ _ _ HI).
    rewrite <- range_nat. reflexivity. }
  split; [eauto|]. split.
  { intros HL. destruct (Z.eqb_spec (SCTT_LAYERS g) 0); [contradiction|eauto]. }
  split.
  { rewrite Hout, attempted_app, Haq, app_nil_r, (oi_attempted _ _ _ _ _ _ HI).
    symmetry. apply range_nat. }
  split; [exact Hst|]. split.
  - intros l Hl Hfail. split; [|split].
    + apply elem_of_statuses. rewrite Hst. apply list_elem_of_fmap.
      exists l. rewrite Hfail. split; [reflexivity|].
      apply list_elem_of_In, In_range, Hl.
    + intros H. apply elem_of_statuses in H. rewrite Hst in H.
      apply list_elem_of_fmap in H. destruct H as (l' & Heq' & _).
      injection Heq' as <- Hs. congruence.
    + intros Hdc. apply elem_of_errors.
      rewrite Hout, errors_app, Heq, app_nil_r, (oi_errors _ _ _ _ _ _ HI).
      rewrite <- range_nat. apply list_elem_of_In, filter_In.
      split; [apply In_range, Hl|].
      rewrite Hhwnd, Hhdc, Hdc, Hfail. reflexivity.
  - intros l Hl. split.
    + intros Hfails. apply delivery_fails_step. rewrite Hres. exact Hfails.
    + intros Hdc Hfail. rewrite <- Hres.
      apply step_fails_delivery; [exact Hhwnd | rewrite Hhdc; exact Hdc | | exact Hfail].
      rewrite Hlen. apply Z.leb_gt. lia.
Qed.

Lemma layer_failure_does_not_abort_witness :
  (attempted (stdout (machine_at_end module_globals faulty_world None
                        module_vortex))
     = range (SCTT_LAYERS module_globals)
   /\ PrintStatus 3 false
        ∈ stdout (machine_at_end module_globals faulty_world None module_vortex)
   /\ PrintLayerError 3
        ∈ stdout (machine_at_end module_globals faulty_world None
                    module_vortex))
  /\ (PrintStatus 0 false
        ∈ stdout (machine_at_end module_globals blit_faulty_world None
                    module_vortex)
      /\ (PrintStatus 0 true
            ∉ stdout (machine_at_end module_globals blit_faulty_world None
                        module_vortex))
      /\ PrintLayerError 0
           ∈ stdout (machine_at_end module_globals blit_faulty_world None
                       module_vortex)).
Proof.
  split.
  - destruct (layer_failure_does_not_abort module_globals faulty_world None
                module_vortex eq_refl eq_refl)
      as (_ & _ & Hall & _ & Hlog & Hfails).
    destruct (Hlog 3%Z ltac:(simpl; lia)) as (Hfail & _ & Herr).
    + apply (Hfails 3%Z ltac:(simpl; lia)).
      right. right. right. right. reflexivity.
    + split; [exact Hall|]. split; [exact Hfail|]. apply Herr. reflexivity.
  - destruct (layer_failure_does_not_abort module_globals blit_faulty_world None
                module_vortex eq_refl eq_refl)
      as (_ & _ & _ & _ & Hlog & Hfails).
    destruct (Hlog 0%Z ltac:(simpl; lia)) as (Hfail & Hnot & Herr).
    + apply (Hfails 0%Z ltac:(simpl; lia)).
      right. right. right. left.
      split; [reflexivity|]. split; [reflexivity|]. right. reflexivity.
    + split; [exact Hfail|]. split; [exact Hnot|]. apply Herr. reflexivity.
Defined.

(** The layers after layer 32 execute no payload. *)
Lemma cascade_after_32 g w payload (n : nat) s m :
  timing_total (resonance (vortex m)) ->
  exists s' m' u,
    for_each_M (seqZ 33 (Z.of_nat n)) (cascade_layer g w payload) s m
      = (Ok s', m')
    /\ stdout m' = stdout m ++ u
    /\ payloads u = []
    /\ attempted u = seqZ 33 (Z.of_nat n).
Proof.
  intros Htime.
  destruct (cascade_rule g w payload
              (fun a _ m' =>
                 (33 <= a)%Z
                 /\ exists u, stdout m' = stdout m ++ u
                              /\ payloads u = []
                              /\ attempted u = seqZ 33 (a - 33)))
    with (n := n) (a := 33%Z) (s := s) (m := m)
    as (s' & m' & Hrun & [_ (u & Hout & Hpay & Hatt)] & _).
  - intros a s0 m0 s1 m1 evs _ [Ha (u & Hout & Hpay & Hatt)] F.
    split; [lia|].
    exists (u ++ LayerHeader a :: evs). split; [|split].
    + rewrite (lf_stdout _ _ _ _ _ _ _ _ _ F), Hout, <- app_assoc.
      reflexivity.
    + rewrite payloads_app, Hpay. cbn.
      change (omap _ evs) with (payloads evs).
      apply (lf_payload_none _ _ _ _ _ _ _ _ _ F). left. lia.
    + rewrite attempted_app, Hatt. cbn.
      change (omap _ evs) with (attempted evs).
      rewrite (lf_attempted _ _ _ _ _ _ _ _ _ F).
      replace (a + 1 - 33)%Z with ((a - 33) + 1)%Z by lia.
      rewrite (seqZ_app 33 (a - 33) 1) by lia.
      replace (33 + (a - 33))%Z with a by lia. reflexivity.
  - lia.
  - exact Htime.
  - split; [lia|]. exists []. rewrite app_nil_r. auto.
  - exists s', m', u. replace (33 + Z.of_nat n - 33)%Z with (Z.of_nat n) in Hatt by lia.
    auto.
Qed.

(** C9, as stated, fails.  With the module's constants, in a world where
    CreateDIBSection returns a null bitmap for every layer, the payload
    hook is executed although nothing was blitted and no statistic was
    written: the buffer of the last layer was not delivered.  With forty
    layers, the hook has been executed when only the first 33 layers have
    been begun: it runs at layer 32, not at the final layer 39. *)
Lemma payload_not_at_delivery :
  (payloads (stdout (machine_at_end module_globals null_bitmap_world
                       (Some [144%Z]) module_vortex)) = [[144%Z]]
   /\ blits (stdout (machine_at_end module_globals null_bitmap_world
                       (Some [144%Z]) module_vortex)) = []
   /\ recorded (stdout (machine_at_end module_globals null_bitmap_world
                          (Some [144%Z]) module_vortex)) = [])
  /\ (SCTT_DWM_Vortex_init forty_layers = Ok forty_vortex
      /\ payloads (stdout (machine_after_layers forty_layers calm_world
                             (Some [144%Z]) forty_vortex 33)) = [[144%Z]]
      /\ attempted (stdout (machine_after_layers forty_layers calm_world
                              (Some [144%Z]) forty_vortex 33)) = seqZ 0 33
      /\ attempted (stdout (machine_at_end forty_layers calm_world
                              (Some [144%Z]) forty_vortex)) = seqZ 0 40).
Proof.
  split.
  - assert (Hinit : SCTT_DWM_Vortex_init module_globals = Ok module_vortex)
      by reflexivity.
    assert (Hopens : window_opens null_bitmap_world = true) by reflexivity.
    destruct (run_outcome_facts module_globals null_bitmap_world
                (Some [144%Z]) module_vortex Hinit Hopens)
      as (s & m2 & m3 & _ & HI & Hexec & _ & Hout).
    destruct (summary_events_quiet module_globals s (vortex m2))
      as (_ & _ & Hrq & _ & _ & Hpq).
    destruct (summary_events_cleanups module_globals s (vortex m2)) as [Hbq _].
    destruct (opened_vortex_facts module_globals null_bitmap_world
                module_vortex Hinit Hopens)
      as (_ & _ & Hhwnd & Hhdc & _).
    unfold machine_at_end. rewrite Hexec. cbn [snd].
    assert (Hrec : forall l,
              step_records (opened_vortex null_bitmap_world module_vortex)
                (layer_world null_bitmap_world l) l = false).
    { intros l. unfold step_records. cbn.
      rewrite !andb_false_r. reflexivity. }
    split; [|split].
    + rewrite Hout, payloads_app, Hpq, app_nil_r, (oi_payloads _ _ _ _ _ _ HI).
      unfold step_succeeds. rewrite Hhwnd, Hhdc.
      rewrite (run_buffer_is_ok module_globals null_bitmap_world module_vortex
                 32 Hinit Hopens) by (simpl; first [lra | lia]).
      reflexivity.
    + rewrite Hout, blits_app, Hbq, app_nil_r, (oi_blits _ _ _ _ _ _ HI).
      apply filter_none. intros l _. rewrite Hrec. reflexivity.
    + rewrite Hout, recorded_app, Hrq, app_nil_r, (oi_recorded _ _ _ _ _ _ HI).
      apply filter_none. intros l _. apply Hrec.
  - assert (Hinit : SCTT_DWM_Vortex_init forty_layers = Ok forty_vortex)
      by reflexivity.
    assert (Hopens : window_opens calm_world = true) by reflexivity.
    split; [exact Hinit|].
    destruct (after_layers_outcome forty_layers calm_world (Some [144%Z])
                forty_vortex 33 Hinit Hopens ltac:(simpl; lia)) as [s HI].
    destruct (run_outcome_facts forty_layers calm_world
                (Some [144%Z]) forty_vortex Hinit Hopens)
      as (s' & m2 & m3 & _ & HI' & Hexec & _ & Hout).
    destruct (summary_events_quiet forty_layers s' (vortex m2)) as (Haq & _).
    destruct (opened_vortex_facts forty_layers calm_world
                forty_vortex Hinit Hopens)
      as (_ & _ & Hhwnd & Hhdc & Hlen).
    split; [|split].
    + rewrite (oi_payloads _ _ _ _ _ _ HI).
      unfold step_succeeds. rewrite Hhwnd, Hhdc, Hlen.
      rewrite (run_buffer_is_ok forty_layers calm_world forty_vortex
                 32 Hinit Hopens) by (simpl; first [lra | lia]).
      reflexivity.
    + apply (oi_attempted _ _ _ _ _ _ HI).
    + unfold machine_at_end. rewrite Hexec. cbn [snd].
      rewrite Hout, attempted_app, Haq, app_nil_r.
      apply (oi_attempted _ _ _ _ _ _ HI').
Qed.

(** C9, amended. In every run, whatever L is: the payload hook is executed
    at most once; it is never executed when the payload is absent or
    empty, nor when L <= 32; and when it is executed, it is with the
    payload supplied, during the pass of the literal layer 32 (the final
    layer exactly when L = 33), after all earlier layers were begun,
    after that layer's buffer was created, its sink stage ran through the
    flush and its status line reported success; the layers begun
    afterwards are exactly 33, ..., L - 1. *)
Theorem payload_once_at_layer_32 (g : Globals) (w : World)
    (payload : option (list Z)) (v : SCTT_DWM_Vortex) :
  SCTT_DWM_Vortex_init g = Ok v ->
  (length (payloads (stdout (machine_at_end g w payload v))) <= 1)%nat
  /\ (payload_truthy payload = false ->
      payloads (stdout (machine_at_end g w payload v)) = [])
  /\ ((SCTT_LAYERS g <= 32)%Z ->
      payloads (stdout (machine_at_end g w payload v)) = [])
  /\ (forall pre p post,
        stdout (machine_at_end g w payload v) = pre ++ Payload p :: post ->
        payload = Some p /\ p <> [] /\ (32 < SCTT_LAYERS g)%Z
        /\ attempted post = seqZ 33 (SCTT_LAYERS g - 33)
        /\ exists pre0 pre1,
             pre = pre0 ++ LayerHeader 32 :: pre1
             /\ attempted pre0 = range 32
             /\ attempted pre1 = []
             /\ (exists n, BufferCreated 32 n ∈ pre1)
             /\ DwmFlush 32 ∈ pre1
             /\ PrintStatus 32 true ∈ pre1).
Proof.
  intros Hinit.
  destruct (init_vortex g v Hinit) as (Hri & _ & _).
  destruct (open_window_facts w v)
    as (b & m1 & Hopen & Hres & _ & _ & _ & Hatt & Hpay & _).
  assert (Hnone : forall t, payloads t = [] ->
            (length (payloads t) <= 1)%nat
            /\ (payload_truthy payload = false -> payloads t = [])
            /\ ((SCTT_LAYERS g <= 32)%Z -> payloads t = [])
            /\ (forall pre p post,
                  t = pre ++ Payload p :: post ->
                  payload = Some p /\ p <> [] /\ (32 < SCTT_LAYERS g)%Z
                  /\ attempted post = seqZ 33 (SCTT_LAYERS g - 33)
                  /\ exists pre0 pre1,
                       pre = pre0 ++ LayerHeader 32 :: pre1
                       /\ attempted pre0 = range 32
                       /\ attempted pre1 = []
                       /\ (exists n, BufferCreated 32 n ∈ pre1)
                       /\ DwmFlush 32 ∈ pre1
                       /\ PrintStatus 32 true ∈ pre1)).
  { intros t Ht. rewrite Ht. split; [cbn; lia|]. split; [auto|].
    split; [auto|]. intros pre p post Heq. exfalso.
    apply (payloads_nil_not_in t p Ht).
    rewrite Heq, elem_of_app, elem_of_cons. auto. }
  unfold machine_at_end, execute_visual_singularity, mbind, M_bind.
  rewrite Hopen. destruct b; cbn [negb snd].
  2:{ unfold mret, M_ret. cbn [snd]. apply Hnone, Hpay. }
  destruct (Z_le_gt_dec (SCTT_LAYERS g) 32) as [HL|HL].
  { rewrite range_nat.
    destruct (cascade_progress g w payload v m1 (Z.to_nat (SCTT_LAYERS g))
                Hinit Hres Hatt Hpay) as (s & m2 & Hrun & HP & _).
    rewrite Hrun.
    destruct (summary_facts g s m2)
      as (r & m3 & u & -> & _ & Hout & _ & _ & Hpu & _).
    cbn [snd]. apply Hnone.
    rewrite Hout, payloads_app, Hpu, app_nil_r.
    apply (pi_payloads _ _ _ _ HP). lia. }
  assert (Hsplit : range (SCTT_LAYERS g) =
            seqZ 0 32 ++ [32%Z]
            ++ seqZ 33 (Z.of_nat (Z.to_nat (SCTT_LAYERS g - 33)))).
  { unfold range.
    replace (SCTT_LAYERS g)
      with (32 + (1 + Z.of_nat (Z.to_nat (SCTT_LAYERS g - 33))))%Z at 1 by lia.
    rewrite (seqZ_app 0 32) by lia. rewrite (seqZ_app (0 + 32) 1) by lia.
    reflexivity. }
  unfold cascade. rewrite Hsplit, for_each_M_app.
  destruct (cascade_progress g w payload v m1 32 Hinit Hres Hatt Hpay)
    as (s & m2 & Hrun & HP & Hres2).
  unfold cascade in Hrun. change (Z.of_nat 32) with 32%Z in Hrun, HP.
  rewrite Hrun, for_each_M_app. cbn [for_each_M]. unfold mbind, M_bind.
  destruct (cascade_layer_facts g w payload 32 s m2)
    as (s' & m3 & evs & Hlayer & F).
  { rewrite Hres2. apply (timing_total_init g), Hri. }
  { lia. }
  rewrite Hlayer. unfold mret, M_ret.
  destruct (cascade_after_32 g w payload (Z.to_nat (SCTT_LAYERS g - 33)) s' m3)
    as (s'' & m4 & u1 & Hrest & Hout4 & Hp4 & Ha4).
  { rewrite (lf_resonance _ _ _ _ _ _ _ _ _ F), Hres2.
    apply (timing_total_init g), Hri. }
  rewrite Hrest.
  destruct (summary_facts g s'' m4)
    as (r & m5 & u & -> & _ & Hout5 & _ & Hau & Hpu & _).
  cbn [snd].
  pose proof (lf_stdout _ _ _ _ _ _ _ _ _ F) as Hout3.
  pose proof (pi_payloads _ _ _ _ HP ltac:(lia)) as Hp2.
  assert (Hall : stdout m5 = stdout m2 ++ LayerHeader 32 :: evs ++ (u1 ++ u)).
  { rewrite Hout5, Hout4, Hout3, <- !app_assoc. reflexivity. }
  assert (Htail : payloads (u1 ++ u) = []).
  { rewrite payloads_app, Hp4, Hpu. reflexivity. }
  assert (Hpays : payloads (stdout m5) = payloads evs).
  { rewrite Hall, payloads_app. cbn.
    change (omap _ (evs ++ u1 ++ u)) with (payloads (evs ++ u1 ++ u)).
    rewrite payloads_app, Hp2, Htail, app_nil_r. reflexivity. }
  rewrite Hpays. split; [apply (lf_payload_count _ _ _ _ _ _ _ _ _ F)|].
  split; [intros Hf; apply (lf_payload_none _ _ _ _ _ _ _ _ _ F); auto|].
  split; [intros; lia|].
  intros pre p post Heq. rewrite Hall in Heq.
  destruct (app_eq_split _ _ _ _ _ Heq)
    as [(post0 & Hm & _)|(pre1 & -> & Hrest')].
  { exfalso. apply (payloads_nil_not_in (stdout m2) p Hp2).
    rewrite Hm, elem_of_app, elem_of_cons. auto. }
  destruct pre1 as [|h pre1]; [discriminate|].
  cbn in Hrest'. injection Hrest' as <- Hrest'.
  destruct (app_eq_split _ _ _ _ _ Hrest')
    as [(post0 & Hevs & ->)|(pre2 & _ & Hu)].
  2:{ exfalso. apply (payloads_nil_not_in (u1 ++ u) p Htail).
      rewrite Hu, elem_of_app, elem_of_cons. auto. }
  destruct (lf_payload _ _ _ _ _ _ _ _ _ F _ _ _ Hevs)
    as (_ & Hsome & Hne & Hbuf & Hflush & Hstat & Hpost).
  split; [exact Hsome|]. split; [exact Hne|]. split; [lia|]. split.
  { rewrite !attempted_app, Hpost, Ha4, Hau, app_nil_r. cbn.
    f_equal. lia. }
  exists (stdout m2), pre1. split; [reflexivity|].
  split; [apply (pi_attempted _ _ _ _ HP)|]. split.
  { pose proof (lf_attempted _ _ _ _ _ _ _ _ _ F) as Ha.
    rewrite Hevs, attempted_app in Ha. apply app_eq_nil in Ha. apply Ha. }
  auto.
Qed.

Lemma payload_once_at_layer_32_witness :
  (length (payloads (stdout (machine_at_end module_globals calm_world
                               (Some [144%Z]) module_vortex))) <= 1)%nat.
Proof.
  apply (payload_once_at_layer_32 module_globals calm_world
           (Some [144%Z]) module_vortex eq_refl).
Defined.
